(** * ContextDB browser extension: federated search, context composition and
    panel lifecycle

    A shallow embedding of the JavaScript of the extension:
    - [Panel]       : chrome_extension/content.js, the side panel with its add
                      and search tabs;
    - [Popup]       : the popup script with search and default-database
                      selection (unnamed/part_000);
    - [PopupV2]     : the popup script that only manages databases (second
                      document of chrome_extension/background.js);
    - [LegacyPanel] : the earlier content script, a single pane with a loading
                      overlay (unnamed/part_001);
    - [PanelControls] : the rest of chrome_extension/content.js, the settings,
                      the tabs and the dropdown of the search tab;
    - [Background]  : the background script with its context menu (first
                      document of chrome_extension/background.js);
    - [PopupInit]   : what the popup with search does with the data that the
                      background script left for it.

    Model.  Module-level variables and the properties of the DOM elements
    that the code reads and writes are fields of a state record.  A string
    is the sequence of the bytes of its UTF-8 encoding; [JS.length] counts
    its UTF-16 code units and [JS.trim] strips the white space of the
    language, not of ASCII only.  A Number is the rational that is its
    value: similarity scores come from the backend as rationals, [b.score -
    a.score] is used only for its sign, which for finite doubles is the sign
    of the difference of their values, and a product that is printed is
    rounded to the nearest double first ([JS.number], [JS.mul]).  The
    backend is an oracle giving, per endpoint, the response that a call
    observes.

    Asynchronous functions are split at their suspension point: [f_begin] is
    the synchronous prefix that runs up to the first [await], [f_resume] is
    the continuation that runs once the awaited responses are there (no
    state is written between the [await]s of one call).  Between the two,
    other handlers may run; [Panel.step] interleaves them.  [f] itself is the
    uninterrupted composition. *)

From Stdlib Require Import String Ascii DecimalString.
From Stdlib Require Import ZArith QArith Qround Qabs Bool Arith Lia Lqa.
From Stdlib Require Import List Permutation Sorted.
Import ListNotations.

Set Implicit Arguments.
Open Scope string_scope.

(* ================================================================== *)
(** * JavaScript primitives *)
(* ================================================================== *)

Module JS.

(** ** Strings

    A string is the sequence of the bytes of its UTF-8 encoding. *)

(** The white space and line terminators that [String.prototype.trim]
    strips, each as the bytes of its encoding: U+0009 to U+000D, U+0020,
    U+00A0, U+1680, U+2000 to U+200A, U+2028, U+2029, U+202F, U+205F,
    U+3000, U+FEFF. *)
Definition WHITE_SPACE : list (list nat) :=
  [[9]; [10]; [11]; [12]; [13]; [32]; [194; 160]; [225; 154; 128];
   [226; 128; 128]; [226; 128; 129]; [226; 128; 130]; [226; 128; 131];
   [226; 128; 132]; [226; 128; 133]; [226; 128; 134]; [226; 128; 135];
   [226; 128; 136]; [226; 128; 137]; [226; 128; 138];
   [226; 128; 168]; [226; 128; 169]; [226; 128; 175]; [226; 129; 159];
   [227; 128; 128]; [239; 187; 191]]%nat.

(** [l] without its prefix [p], when it has that prefix. *)
Fixpoint drop_prefix (p : list nat) (l : list ascii) : option (list ascii) :=
  match p, l with
  | [], _ => Some l
  | b :: p', c :: l' => if (nat_of_ascii c =? b)%nat then drop_prefix p' l' else None
  | _ :: _, [] => None
  end.

(** [l] without one leading character out of [chars]. *)
Fixpoint drop_one (chars : list (list nat)) (l : list ascii) : option (list ascii) :=
  match chars with
  | [] => None
  | p :: rest =>
      match drop_prefix p l with
      | Some l' => Some l'
      | None => drop_one rest l
      end
  end.

(** [l] without its leading characters out of [chars]; [fuel] bounds their
    number. *)
Fixpoint drop_all (fuel : nat) (chars : list (list nat)) (l : list ascii)
  : list ascii :=
  match fuel with
  | O => l
  | S k =>
      match drop_one chars l with
      | Some l' => drop_all k chars l'
      | None => l
      end
  end.

Definition trimStart (s : string) : string :=
  let l := list_ascii_of_string s in
  string_of_list_ascii (drop_all (length l) WHITE_SPACE l).

Definition trimEnd (s : string) : string :=
  let l := rev (list_ascii_of_string s) in
  string_of_list_ascii
    (rev (drop_all (length l) (map (@rev nat) WHITE_SPACE) l)).

Definition trim (s : string) : string := trimEnd (trimStart s).

(** The UTF-16 code units that a byte of the encoding stands for: one for
    the first byte of a character of the basic plane, two for the first
    byte of a four-byte character, none for a continuation byte. *)
Definition code_units (c : ascii) : nat :=
  let n := nat_of_ascii c in
  if (n <? 128)%nat then 1%nat
  else if (n <? 192)%nat then 0%nat
  else if (n <? 240)%nat then 1%nat
  else 2%nat.

(** [s.length] *)
Fixpoint length (s : string) : nat :=
  match s with
  | EmptyString => O
  | String c r => (code_units c + length r)%nat
  end.

(** [s.substring(0, n)]; a character whose two code units straddle [n] is
    left out as a whole. *)
Fixpoint substring0 (n : nat) (s : string) : string :=
  match s with
  | EmptyString => EmptyString
  | String c r =>
      if (code_units c <=? n)%nat then String c (substring0 (n - code_units c) r)
      else EmptyString
  end.

(** [!!s] for a string: only the empty string is falsy. *)
Definition truthy (s : string) : bool := negb (String.eqb s "").

(** Decimal rendering of a non-negative integer, as template literals do. *)
Definition string_of_nat (n : nat) : string :=
  NilZero.string_of_uint (Nat.to_uint n).

Definition string_of_Z (z : Z) : string :=
  if (z <? 0)%Z then "-" ++ string_of_nat (Z.to_nat (- z))
  else string_of_nat (Z.to_nat z).

Fixpoint repeat_string (s : string) (n : nat) : string :=
  match n with
  | O => ""
  | S k => s ++ repeat_string s k
  end.

(** [x.toFixed(d)] on a number whose value is the rational [x]: the integer
    [n] with [n / 10^d] nearest to [x] (the larger one on a tie), printed
    with [d] digits after the point. *)
Definition toFixed (d : nat) (x : Q) : string :=
  let scale := (10 ^ Z.of_nat d)%Z in
  let ax := Qabs x in
  let n := Qfloor (ax * inject_Z scale + (1 # 2)) in
  let int_part := string_of_Z (n / scale) in
  let frac := string_of_Z (n mod scale) in
  let sign := if Qle_bool 0 x then "" else if (n =? 0)%Z then "" else "-" in
  match d with
  | O => sign ++ int_part
  | _ => sign ++ int_part ++ "."
         ++ repeat_string "0" (d - String.length frac) ++ frac
  end.

(** ** Numbers

    A rational stands for the Number with that value. *)

(** The integer nearest to [x], the even one on a tie. *)
Definition round_half_even (x : Q) : Z :=
  let f := Qfloor x in
  match Qcompare (x - inject_Z f) (1 # 2) with
  | Lt => f
  | Gt => (f + 1)%Z
  | Eq => if Z.even f then f else (f + 1)%Z
  end.

(** [2^e] *)
Definition pow2 (e : Z) : Q :=
  if (0 <=? e)%Z then inject_Z (2 ^ e) else 1 / inject_Z (2 ^ (- e)).

(** The Number nearest to the real [x]: round to nearest, ties to even, with
    53 bits of precision and exponents from -1074 (overflow to Infinity is
    not modelled). *)
Definition number (x : Q) : Q :=
  if Qeq_bool x 0 then 0
  else
    let a := Qabs x in
    let l := (Z.log2 (Qnum a) - Z.log2 (Zpos (Qden a)))%Z in
    let e0 := if Qle_bool (pow2 l) a then l else (l - 1)%Z in
    let e := Z.max (e0 - 52) (-1074) in
    let v := inject_Z (round_half_even (a / pow2 e)) * pow2 e in
    Qred (if Qle_bool 0 x then v else - v).

(** [x * y] on Numbers *)
Definition mul (x y : Q) : Q := number (x * y).

(** [Math.ceil(p / q)] for integers [p] and [q >= 1]: real division, then the
    least integer not below the quotient. *)
Definition ceil_div (p q : Z) : Z := Qceiling (inject_Z p / inject_Z q).

(** [parseInt(v, 10) || dflt]: [None] stands for [NaN]; [NaN] and [0] are
    falsy. *)
Definition int_or (v : option Z) (dflt : Z) : Z :=
  match v with
  | Some z => if (z =? 0)%Z then dflt else z
  | None => dflt
  end.

(** [parseFloat(v) || dflt]. *)
Definition float_or (v : option Q) (dflt : Q) : Q :=
  match v with
  | Some q => if Qeq_bool q 0 then dflt else q
  | None => dflt
  end.

(** ** Arrays *)

Section Arrays.
Context {A : Type}.

(** [arr.slice(0, n)]: a negative [n] counts from the end. *)
Definition slice0 (n : Z) (arr : list A) : list A :=
  if (n <? 0)%Z
  then firstn (List.length arr - Z.to_nat (- n)) arr
  else firstn (Z.to_nat n) arr.

(** [arr.flat()] on an array of arrays. *)
Definition flat (arrs : list (list A)) : list A := concat arrs.

(** [arr.some(p)]. *)
Definition some (p : A -> bool) (arr : list A) : bool := existsb p arr.

(** [arr.sort(compareFn)].  The sort is stable (ECMAScript 2019): [x] is
    placed after [y] only when [compareFn x y > 0]; elements that compare
    equal keep their relative order.  Insertion from the right realises
    exactly that order. *)
Variable compareFn : A -> A -> Q.

Fixpoint sort_insert (x : A) (sorted : list A) : list A :=
  match sorted with
  | [] => [x]
  | y :: ys =>
      if Qle_bool (compareFn x y) 0 then x :: sorted
      else y :: sort_insert x ys
  end.

Definition sort (arr : list A) : list A := fold_right sort_insert [] arr.

End Arrays.

(** ** [Set] of array indices

    A JavaScript [Set] remembers insertion order: [forEach] visits the
    members in the order in which they were first added. *)
Definition NatSet := list nat.

Definition set_has (i : nat) (s : NatSet) : bool := existsb (Nat.eqb i) s.

Definition set_add (i : nat) (s : NatSet) : NatSet :=
  if set_has i s then s else (s ++ [i])%list.

Definition set_delete (i : nat) (s : NatSet) : NatSet :=
  filter (fun j => negb (Nat.eqb j i)) s.

Definition set_clear (s : NatSet) : NatSet := [].

Definition set_size (s : NatSet) : nat := List.length s.

Definition set_forEach {B : Type} (f : B -> nat -> B) (s : NatSet) (init : B) : B :=
  fold_left f s init.

(** ** Exceptions and [try] / [catch] / [finally]

    A computation takes the state and gives the new state together with its
    completion: a value, or a thrown error.  State changes made before a
    [throw] persist. *)
Section Control.
Context {S E : Type}.

Definition M (A : Type) : Type := S -> S * (A + E).

Definition ret {A} (a : A) : M A := fun s => (s, inl a).

Definition throw {A} (e : E) : M A := fun s => (s, inr e).

Definition bind {A B} (m : M A) (k : A -> M B) : M B :=
  fun s =>
    match m s with
    | (s', inl a) => k a s'
    | (s', inr e) => (s', inr e)
    end.

(** A statement that only changes the state. *)
Definition exec (f : S -> S) : M unit := fun s => (f s, inl tt).

(** [try { body } catch (e) { handler e } finally { cleanup }]: the cleanup
    runs after the body or, when the body threw, after the handler; an error
    thrown by the handler is re-thrown after the cleanup; an error thrown by
    the cleanup replaces it. *)
Definition try_catch_finally (body : M unit) (handler : E -> M unit)
    (cleanup : M unit) : M unit :=
  fun s =>
    let '(s1, r1) := body s in
    let '(s2, r2) :=
      match r1 with
      | inl _ => (s1, inl tt)
      | inr e => handler e s1
      end in
    let '(s3, r3) := cleanup s2 in
    match r3 with
    | inl _ => (s3, r2)
    | inr e => (s3, inr e)
    end.

Definition try_catch (body : M unit) (handler : E -> M unit) : M unit :=
  try_catch_finally body handler (ret tt).

End Control.

End JS.

Declare Scope js_scope.
Delimit Scope js_scope with js.
Notation "x <- m ;; k" := (JS.bind m (fun x => k))
  (at level 61, m at next level, right associativity) : js_scope.
Notation "m ;;; k" := (JS.bind m (fun _ => k))
  (at level 61, right associativity) : js_scope.

Local Open Scope js_scope.

(* ================================================================== *)
(** * The backend boundary (JSON over HTTP) *)
(* ================================================================== *)

Module Backend.

Definition Metadata := list (string * string).

(** An entry of [GET /databases]. *)
Record Database := { name : string; document_count : nat }.

(** A row of [POST /search]; [database_name] is absent ([None]) on the wire
    and is added by the extension when it searches all databases. *)
Record SearchResult := {
  text : string;
  score : Q;
  metadata : Metadata;
  database_name : option string
}.

Inductive Request :=
| GET_health
| GET_databases
| POST_databases (name : string)
| DELETE_databases (name : string)
| POST_add_text (database_name text : string)
| POST_search (database_name query : string) (limit : Z) (min_score : Q).

(** What [await fetch(...)] and the following [await response.json()] give:
    - [Rejected m]: the fetch promise rejects (transport error) with message [m];
    - [Ok (inl v)]: success status, body parsed to [v];
    - [Ok (inr m)]: success status, but reading the body throws with message [m];
    - [NotOk st d]: non-success status [st]; [d] is [None] when the error body
      does not parse, otherwise its [detail] field, if it has one. *)
Inductive Response (A : Type) : Type :=
| Rejected (message : string)
| Ok (json : A + string)
| NotOk (status : nat) (json : option (option string)).

Arguments Rejected {A} message.
Arguments Ok {A} json.
Arguments NotOk {A} status json.

Definition ok {A} (r : Response A) : bool :=
  match r with Ok _ => true | _ => false end.

(** The responses that one run of an operation observes. *)
Record Oracle := {
  list_databases : Response (list Database);       (* GET /databases *)
  create_database : string -> Response unit;       (* POST /databases {name} *)
  delete_database : string -> Response unit;       (* DELETE /databases/{name} *)
  add_text : string -> string -> Response unit;    (* POST /add-text *)
  search_text : string -> string -> Z -> Q -> Response (list SearchResult)
                                                   (* POST /search *)
}.

(** [{ ...r, database_name: db }] *)
Definition tag (db : string) (r : SearchResult) : SearchResult :=
  {| text := text r; score := score r; metadata := metadata r;
     database_name := Some db |}.

(** [(a, b) => b.score - a.score] *)
Definition byScoreDesc (a b : SearchResult) : Q := score b - score a.

End Backend.

Import Backend.

(** Characters that cannot be written inside a string literal. *)
Definition DQUOTE : ascii := ascii_of_nat 34.
Definition LF : string := String (ascii_of_nat 10) "".
Definition GE_SIGN : string :=
  String (ascii_of_nat 226) (String (ascii_of_nat 137) (String (ascii_of_nat 165) "")).
Definition ELLIPSIS : string :=
  String (ascii_of_nat 226) (String (ascii_of_nat 128) (String (ascii_of_nat 166) "")).
Definition CHECK_MARK : string :=
  String (ascii_of_nat 226) (String (ascii_of_nat 156) (String (ascii_of_nat 147) "")).
Definition BALLOT_X : string :=
  String (ascii_of_nat 226) (String (ascii_of_nat 156) (String (ascii_of_nat 151) "")).

(** The value that [getAttribute] returns for an attribute written as
    [attr="${escapeHtml(t)}"]: [escapeHtml] (a text node's [innerHTML]) escapes
    ampersand and angle brackets, which the parser decodes again, but leaves
    a double quote as it is, and that ends the attribute value. *)
Fixpoint attribute_value (t : string) : string :=
  match t with
  | EmptyString => EmptyString
  | String c r => if Ascii.eqb c DQUOTE then EmptyString else String c (attribute_value r)
  end.

(** [list.map((x, idx) => f x idx)] *)
Fixpoint mapi_from {A B : Type} (i : nat) (f : A -> nat -> B) (l : list A) : list B :=
  match l with
  | [] => []
  | x :: xs => f x i :: mapi_from (S i) f xs
  end.

Definition mapi {A B : Type} (f : A -> nat -> B) (l : list A) : list B :=
  mapi_from 0 f l.

(* ================================================================== *)
(** * The side panel: chrome_extension/content.js *)
(* ================================================================== *)

Module Panel.

Inductive Tab := TabAdd | TabSearch.   (* 'add' | 'search' *)

(** A rendered [.contextdb-result-item] with its checkbox. *)
Record Node := {
  data_result_index : nat;
  data_full_text : string;     (* getAttribute('data-full-text') *)
  result_score : string;       (* textContent of .contextdb-result-score *)
  db_badge : string;
  result_text : string;
  checked : bool
}.

(** Content of [#contextdb-search-results]: a message, or result items. *)
Inductive ResultsDiv :=
| Html (message : string)
| Items (nodes : list Node).

(** [resultsDiv.querySelectorAll('.contextdb-result-item')] *)
Definition result_items (r : ResultsDiv) : list Node :=
  match r with
  | Html _ => []
  | Items nodes => nodes
  end.

(** Module-level variables. *)
Record Vars := {
  selectedText : string;
  sidePanel : bool;                       (* sidePanel !== null *)
  enableContextMenu : bool;
  selectedDatabase : option string;
  isPanelOpen : bool;
  activePanelTab : Tab;
  searchSelectedResults : JS.NatSet
}.

(** Elements of the panel frame and of the add tab. *)
Record Dom := {
  class_panel_open : bool;                (* 'contextdb-panel-open' *)
  class_panel_minimized : bool;           (* 'contextdb-panel-minimized' *)
  panelBody_opacity : string;             (* .contextdb-panel-body style.opacity *)
  saveBtn_disabled : bool;
  saveBtn_textContent : string;
  dbSelect_value : string;                (* #contextdb-database-select *)
  selectedTextDiv_shown : bool;
  textPreview : string
}.

(** Elements of the search tab. *)
Record SearchDom := {
  queryInput_value : string;
  searchDb_value : string;                (* #contextdb-search-db *)
  limitSelect_value : option Z;           (* parseInt(limitSelect.value, 10) *)
  minScoreSelect_value : option Q;        (* parseFloat(minScoreSelect.value) *)
  resultsDiv : ResultsDiv;
  summaryDiv : string;
  actions_shown : bool;                   (* #contextdb-context-actions *)
  selectedCount : string;                 (* #contextdb-selected-count *)
  createBtn_disabled : bool;
  contextText_value : string;             (* #contextdb-context-text *)
  contextOutput_shown : bool
}.

(** Callbacks registered with [setTimeout] by a successful save. *)
Inductive Timeout := T_clearSelectedText | T_loadDatabasesForPanel.

Record State := {
  vars : Vars;
  dom : Dom;
  sdom : SearchDom;
  notifications : list (string * string); (* showPanelNotification(message, type), newest first *)
  saveStatus : list (string * string);    (* showSaveStatus(message, type), newest first *)
  timeouts : list Timeout;
  fetched : list Request                  (* requests handed to fetch(), newest first *)
}.

(** ** Field updates *)

Definition upd_vars (f : Vars -> Vars) (s : State) : State :=
  {| vars := f (vars s); dom := dom s; sdom := sdom s;
     notifications := notifications s; saveStatus := saveStatus s;
     timeouts := timeouts s; fetched := fetched s |}.

Definition upd_dom (f : Dom -> Dom) (s : State) : State :=
  {| vars := vars s; dom := f (dom s); sdom := sdom s;
     notifications := notifications s; saveStatus := saveStatus s;
     timeouts := timeouts s; fetched := fetched s |}.

Definition upd_sdom (f : SearchDom -> SearchDom) (s : State) : State :=
  {| vars := vars s; dom := dom s; sdom := f (sdom s);
     notifications := notifications s; saveStatus := saveStatus s;
     timeouts := timeouts s; fetched := fetched s |}.

Definition log_notification (message type : string) (s : State) : State :=
  {| vars := vars s; dom := dom s; sdom := sdom s;
     notifications := (message, type) :: notifications s;
     saveStatus := saveStatus s; timeouts := timeouts s; fetched := fetched s |}.

Definition log_saveStatus (message type : string) (s : State) : State :=
  {| vars := vars s; dom := dom s; sdom := sdom s;
     notifications := notifications s;
     saveStatus := (message, type) :: saveStatus s;
     timeouts := timeouts s; fetched := fetched s |}.

Definition set_timeouts (ts : list Timeout) (s : State) : State :=
  {| vars := vars s; dom := dom s; sdom := sdom s;
     notifications := notifications s; saveStatus := saveStatus s;
     timeouts := ts; fetched := fetched s |}.

Definition log_fetch (rs : list Request) (s : State) : State :=
  {| vars := vars s; dom := dom s; sdom := sdom s;
     notifications := notifications s; saveStatus := saveStatus s;
     timeouts := timeouts s; fetched := (rev rs ++ fetched s)%list |}.

Definition set_selectedText (t : string) (v : Vars) : Vars :=
  {| selectedText := t; sidePanel := sidePanel v;
     enableContextMenu := enableContextMenu v;
     selectedDatabase := selectedDatabase v; isPanelOpen := isPanelOpen v;
     activePanelTab := activePanelTab v;
     searchSelectedResults := searchSelectedResults v |}.

Definition set_sidePanel (b : bool) (v : Vars) : Vars :=
  {| selectedText := selectedText v; sidePanel := b;
     enableContextMenu := enableContextMenu v;
     selectedDatabase := selectedDatabase v; isPanelOpen := isPanelOpen v;
     activePanelTab := activePanelTab v;
     searchSelectedResults := searchSelectedResults v |}.

Definition set_isPanelOpen (b : bool) (v : Vars) : Vars :=
  {| selectedText := selectedText v; sidePanel := sidePanel v;
     enableContextMenu := enableContextMenu v;
     selectedDatabase := selectedDatabase v; isPanelOpen := b;
     activePanelTab := activePanelTab v;
     searchSelectedResults := searchSelectedResults v |}.

Definition set_searchSelectedResults (sel : JS.NatSet) (v : Vars) : Vars :=
  {| selectedText := selectedText v; sidePanel := sidePanel v;
     enableContextMenu := enableContextMenu v;
     selectedDatabase := selectedDatabase v; isPanelOpen := isPanelOpen v;
     activePanelTab := activePanelTab v;
     searchSelectedResults := sel |}.

Definition set_class_panel_open (b : bool) (d : Dom) : Dom :=
  {| class_panel_open := b; class_panel_minimized := class_panel_minimized d;
     panelBody_opacity := panelBody_opacity d;
     saveBtn_disabled := saveBtn_disabled d;
     saveBtn_textContent := saveBtn_textContent d;
     dbSelect_value := dbSelect_value d;
     selectedTextDiv_shown := selectedTextDiv_shown d;
     textPreview := textPreview d |}.

Definition set_class_panel_minimized (b : bool) (d : Dom) : Dom :=
  {| class_panel_open := class_panel_open d; class_panel_minimized := b;
     panelBody_opacity := panelBody_opacity d;
     saveBtn_disabled := saveBtn_disabled d;
     saveBtn_textContent := saveBtn_textContent d;
     dbSelect_value := dbSelect_value d;
     selectedTextDiv_shown := selectedTextDiv_shown d;
     textPreview := textPreview d |}.

Definition set_panelBody_opacity (o : string) (d : Dom) : Dom :=
  {| class_panel_open := class_panel_open d;
     class_panel_minimized := class_panel_minimized d;
     panelBody_opacity := o;
     saveBtn_disabled := saveBtn_disabled d;
     saveBtn_textContent := saveBtn_textContent d;
     dbSelect_value := dbSelect_value d;
     selectedTextDiv_shown := selectedTextDiv_shown d;
     textPreview := textPreview d |}.

Definition set_saveBtn (disabled : bool) (label : string) (d : Dom) : Dom :=
  {| class_panel_open := class_panel_open d;
     class_panel_minimized := class_panel_minimized d;
     panelBody_opacity := panelBody_opacity d;
     saveBtn_disabled := disabled;
     saveBtn_textContent := label;
     dbSelect_value := dbSelect_value d;
     selectedTextDiv_shown := selectedTextDiv_shown d;
     textPreview := textPreview d |}.

Definition set_dbSelect_value (v : string) (d : Dom) : Dom :=
  {| class_panel_open := class_panel_open d;
     class_panel_minimized := class_panel_minimized d;
     panelBody_opacity := panelBody_opacity d;
     saveBtn_disabled := saveBtn_disabled d;
     saveBtn_textContent := saveBtn_textContent d;
     dbSelect_value := v;
     selectedTextDiv_shown := selectedTextDiv_shown d;
     textPreview := textPreview d |}.

Definition set_selectedTextDiv (shown : bool) (preview : string) (d : Dom) : Dom :=
  {| class_panel_open := class_panel_open d;
     class_panel_minimized := class_panel_minimized d;
     panelBody_opacity := panelBody_opacity d;
     saveBtn_disabled := saveBtn_disabled d;
     saveBtn_textContent := saveBtn_textContent d;
     dbSelect_value := dbSelect_value d;
     selectedTextDiv_shown := shown;
     textPreview := preview |}.

Definition set_resultsDiv (r : ResultsDiv) (d : SearchDom) : SearchDom :=
  {| queryInput_value := queryInput_value d; searchDb_value := searchDb_value d;
     limitSelect_value := limitSelect_value d;
     minScoreSelect_value := minScoreSelect_value d;
     resultsDiv := r; summaryDiv := summaryDiv d;
     actions_shown := actions_shown d; selectedCount := selectedCount d;
     createBtn_disabled := createBtn_disabled d;
     contextText_value := contextText_value d;
     contextOutput_shown := contextOutput_shown d |}.

Definition set_summaryDiv (t : string) (d : SearchDom) : SearchDom :=
  {| queryInput_value := queryInput_value d; searchDb_value := searchDb_value d;
     limitSelect_value := limitSelect_value d;
     minScoreSelect_value := minScoreSelect_value d;
     resultsDiv := resultsDiv d; summaryDiv := t;
     actions_shown := actions_shown d; selectedCount := selectedCount d;
     createBtn_disabled := createBtn_disabled d;
     contextText_value := contextText_value d;
     contextOutput_shown := contextOutput_shown d |}.

Definition set_actions_shown (b : bool) (d : SearchDom) : SearchDom :=
  {| queryInput_value := queryInput_value d; searchDb_value := searchDb_value d;
     limitSelect_value := limitSelect_value d;
     minScoreSelect_value := minScoreSelect_value d;
     resultsDiv := resultsDiv d; summaryDiv := summaryDiv d;
     actions_shown := b; selectedCount := selectedCount d;
     createBtn_disabled := createBtn_disabled d;
     contextText_value := contextText_value d;
     contextOutput_shown := contextOutput_shown d |}.

Definition set_selectionUI (count : string) (disabled : bool) (d : SearchDom) : SearchDom :=
  {| queryInput_value := queryInput_value d; searchDb_value := searchDb_value d;
     limitSelect_value := limitSelect_value d;
     minScoreSelect_value := minScoreSelect_value d;
     resultsDiv := resultsDiv d; summaryDiv := summaryDiv d;
     actions_shown := actions_shown d; selectedCount := count;
     createBtn_disabled := disabled;
     contextText_value := contextText_value d;
     contextOutput_shown := contextOutput_shown d |}.

Definition set_contextOutput (t : string) (shown : bool) (d : SearchDom) : SearchDom :=
  {| queryInput_value := queryInput_value d; searchDb_value := searchDb_value d;
     limitSelect_value := limitSelect_value d;
     minScoreSelect_value := minScoreSelect_value d;
     resultsDiv := resultsDiv d; summaryDiv := summaryDiv d;
     actions_shown := actions_shown d; selectedCount := selectedCount d;
     createBtn_disabled := createBtn_disabled d;
     contextText_value := t;
     contextOutput_shown := shown |}.

Definition set_searchForm (q db : string) (lim : option Z) (ms : option Q)
    (d : SearchDom) : SearchDom :=
  {| queryInput_value := q; searchDb_value := db;
     limitSelect_value := lim;
     minScoreSelect_value := ms;
     resultsDiv := resultsDiv d; summaryDiv := summaryDiv d;
     actions_shown := actions_shown d; selectedCount := selectedCount d;
     createBtn_disabled := createBtn_disabled d;
     contextText_value := contextText_value d;
     contextOutput_shown := contextOutput_shown d |}.

(** ** Loading state, notifications, visibility *)

Definition SAVE_LABEL : string := "Save Selected Text".
Definition SAVING_LABEL : string := "Saving...".

(** [forceHideLoadingState]: this panel has no [#contextdb-loading] element,
    and its body is the only [.contextdb-panel-body] of the document. *)
Definition forceHideLoadingState (s : State) : State :=
  if sidePanel (vars s) then
    upd_dom (fun d =>
      set_panelBody_opacity "1"
        (set_saveBtn (if JS.truthy (selectedText (vars s)) then false else true)
           SAVE_LABEL
           (set_panelBody_opacity "1" d))) s
  else s.

(** [showPanelNotification]: the message is shown after 100 ms and removed
    4 s later; the log keeps the call. *)
Definition showPanelNotification (message type : string) (s : State) : State :=
  if negb (sidePanel (vars s)) then s
  else log_notification message type (forceHideLoadingState s).

Definition showSaveStatus (message type : string) (s : State) : State :=
  if negb (sidePanel (vars s)) then s
  else log_saveStatus message type s.

Definition hideSidePanel (s : State) : State :=
  if sidePanel (vars s) && isPanelOpen (vars s) then
    upd_vars (set_isPanelOpen false)
      (upd_dom (set_class_panel_open false) (forceHideLoadingState s))
  else s.

(** [createSidePanel]: the panel element is created once, unless the
    context menu is disabled. *)
Definition createSidePanel (s : State) : State :=
  if sidePanel (vars s) then s
  else if negb (enableContextMenu (vars s)) then s
  else upd_vars (set_sidePanel true) s.

(** [showSidePanel]; the two database lists are loaded by separate
    asynchronous calls.  Without a panel element, the access to
    [sidePanel.classList] throws. *)
Definition showSidePanel : JS.M (S:=State) (E:=string) unit :=
  fun s0 =>
    let s := if negb (sidePanel (vars s0)) then createSidePanel s0 else s0 in
    if negb (isPanelOpen (vars s)) then
      if sidePanel (vars s) then
        (upd_vars (set_isPanelOpen true) (upd_dom (set_class_panel_open true) s),
         inl tt)
      else (s, inr "TypeError: Cannot read properties of null")
    else (s, inl tt).

Definition togglePanelMinimized (s : State) : State :=
  if sidePanel (vars s)
  then upd_dom (fun d => set_class_panel_minimized (negb (class_panel_minimized d)) d) s
  else s.

Definition updatePanelWithSelectedText (s : State) : State :=
  if negb (sidePanel (vars s)) then s
  else
    let t := selectedText (vars s) in
    if JS.truthy t then
      let preview :=
        if (200 <? JS.length t)%nat then JS.substring0 200 t ++ "..." else t in
      let hasDb := JS.truthy (dbSelect_value (dom s)) in
      upd_dom (fun d =>
        set_saveBtn (negb hasDb) SAVE_LABEL
          (set_selectedTextDiv true (String DQUOTE preview ++ String DQUOTE "") d)) s
    else s.

Definition clearSelectedText (s : State) : State :=
  let s1 := upd_vars (set_selectedText "") s in
  if negb (sidePanel (vars s1)) then s1
  else upd_dom (fun d => set_saveBtn true SAVE_LABEL (set_selectedTextDiv false "" d)) s1.

(** The callback that [handleTextSelection] schedules; [selection] is the
    text selected on the page. *)
Definition handleTextSelection (selection : string) : JS.M (S:=State) (E:=string) unit :=
  let text := JS.trim selection in
  if JS.truthy text && (3 <? JS.length text)%nat then
    JS.exec (upd_vars (set_selectedText text)) ;;;
    showSidePanel ;;;
    JS.exec updatePanelWithSelectedText
  else if negb (JS.truthy text) then JS.exec clearSelectedText
  else JS.ret tt.

(** [loadDatabasesForPanel]: rebuilding the options resets the choice; the
    stored default database is chosen again when it is among the options. *)
Definition loadDatabasesForPanel (o : Oracle) (s : State) : State :=
  let s := log_fetch [GET_databases] s in
  match list_databases o with
  | Ok (inl dbs) =>
      let v :=
        match selectedDatabase (vars s) with
        | Some d =>
            if JS.truthy d && JS.some (fun db => String.eqb (name db) d) dbs
            then d else ""
        | None => ""
        end in
      upd_dom (set_dbSelect_value v) s
  | _ => upd_dom (set_dbSelect_value "") s
  end.

(** ** Saving the selected text *)

Record SaveJob := { save_databaseName : string }.

(** [saveTextToDatabase] up to [await fetch(.../add-text)]. *)
Definition saveTextToDatabase_begin (s : State) : State * option SaveJob :=
  let t := selectedText (vars s) in
  if negb (JS.truthy t) || negb (JS.truthy (JS.trim t)) then
    (showPanelNotification "Please select some text first" "error" s, None)
  else
    let databaseName := dbSelect_value (dom s) in
    if negb (JS.truthy databaseName) then
      (showPanelNotification "Please select a database" "error" s, None)
    else
      (log_fetch [POST_add_text databaseName t]
         (upd_dom (fun d =>
            set_saveBtn true SAVING_LABEL (set_panelBody_opacity "0.6" d)) s),
       Some {| save_databaseName := databaseName |}).

(** The rest of the [try] block, once the response is there. *)
Definition save_try (resp : Response unit) (job : SaveJob) : JS.M (S:=State) (E:=string) unit :=
  match resp with
  | Rejected m => JS.throw m
  | NotOk status json =>
      let detail :=
        match json with
        | None => "Unknown error"          (* response.json() failed *)
        | Some None => ""                  (* no detail in the body *)
        | Some (Some d) => d
        end in
      JS.throw (if JS.truthy detail then detail
                else "Server error: " ++ JS.string_of_nat status)
  | Ok (inr m) => JS.throw m
  | Ok (inl _) =>
      let db := save_databaseName job in
      JS.exec (showPanelNotification
                 ("Text saved successfully to " ++ String DQUOTE db
                    ++ String DQUOTE " database!") "success") ;;;
      JS.exec (showSaveStatus
                 (CHECK_MARK ++ " Text saved successfully to " ++ String DQUOTE db
                    ++ String DQUOTE "") "success") ;;;
      JS.exec (fun s => set_timeouts
                 (timeouts s ++ [T_clearSelectedText; T_loadDatabasesForPanel])%list s)
  end.

Definition save_catch (message : string) : JS.M (S:=State) (E:=string) unit :=
  JS.exec (showPanelNotification ("Error saving text: " ++ message) "error") ;;;
  JS.exec (showSaveStatus (BALLOT_X ++ " Error: " ++ message) "error").

Definition save_finally : JS.M (S:=State) (E:=string) unit :=
  JS.exec (fun s =>
    let hasDb := JS.truthy (dbSelect_value (dom s)) in
    let t := selectedText (vars s) in
    let hasText := JS.truthy t && JS.truthy (JS.trim t) in
    upd_dom (fun d =>
      set_saveBtn (negb (hasDb && hasText)) SAVE_LABEL
        (set_panelBody_opacity "1" d)) s).

(** [saveTextToDatabase] from the point where the response arrives. *)
Definition saveTextToDatabase_resume (resp : Response unit) (job : SaveJob)
  : JS.M (S:=State) (E:=string) unit :=
  JS.try_catch_finally (save_try resp job) save_catch save_finally.

(** An uninterrupted run. *)
Definition saveTextToDatabase (o : Oracle) (s : State) : State :=
  match saveTextToDatabase_begin s with
  | (s1, Some job) =>
      fst (saveTextToDatabase_resume
             (add_text o (save_databaseName job) (selectedText (vars s))) job s1)
  | (s1, None) => s1
  end.

Definition run_timeout (o : Oracle) (t : Timeout) (s : State) : State :=
  match t with
  | T_clearSelectedText => clearSelectedText s
  | T_loadDatabasesForPanel => loadDatabasesForPanel o s
  end.

(** ** Searching *)

Definition ALL : string := "__ALL__".

(** The locals of a [performPanelSearch] call that is suspended. *)
Record SearchJob := {
  job_query : string;
  job_selectedDb : string;
  job_limit : Z;
  job_minScore : Q
}.

Definition updateSearchSelectionUI (s : State) : State :=
  let n := JS.set_size (searchSelectedResults (vars s)) in
  upd_sdom (set_selectionUI (JS.string_of_nat n) (n =? 0)%nat) s.

(** [performPanelSearch] up to the first [await]. *)
Definition performPanelSearch_begin (s : State) : State * option SearchJob :=
  let query := JS.trim (queryInput_value (sdom s)) in
  if negb (JS.truthy query) then
    (upd_sdom (set_resultsDiv (Html "Enter a query to search.")) s, None)
  else
    let selectedDb := searchDb_value (sdom s) in
    if negb (JS.truthy selectedDb) then
      (upd_sdom (set_resultsDiv (Html "Please select a database to search.")) s, None)
    else
      let limit := JS.int_or (limitSelect_value (sdom s)) 10 in
      let minScore := JS.float_or (minScoreSelect_value (sdom s)) (3 # 10) in
      let s1 := upd_sdom (set_resultsDiv (Html "Searching...")) s in
      let s2 := upd_vars (set_searchSelectedResults
                            (JS.set_clear (searchSelectedResults (vars s1)))) s1 in
      let first_request :=
        if String.eqb selectedDb ALL then GET_databases
        else POST_search selectedDb query limit minScore in
      (log_fetch [first_request] (updateSearchSelectionUI s2),
       Some {| job_query := query; job_selectedDb := selectedDb;
               job_limit := limit; job_minScore := minScore |}).

(** [perDb]: the limit sent to each database when all are searched. *)
Definition perDb (limit : Z) (dbs : list Database) : Z :=
  Z.max 5 (JS.ceil_div limit (Z.max 1 (Z.of_nat (length dbs))) + 1).

(** The request sent for one database. *)
Definition searchRequest (job : SearchJob) (limit : Z) (db : string) : Request :=
  POST_search db (job_query job) limit (job_minScore job).

(** One branch of the fan-out: any failure gives the empty array. *)
Definition searchOneDb (o : Oracle) (job : SearchJob) (limit : Z) (db : Database)
  : list SearchResult :=
  match search_text o (name db) (job_query job) limit (job_minScore job) with
  | Rejected _ => []                          (* catch { return []; } *)
  | NotOk _ _ => []                           (* if (!resp.ok) return []; *)
  | Ok (inr _) => []                          (* resp.json() throws: catch *)
  | Ok (inl res) => map (tag (name db)) res
  end.

(** The first half of the [try] block: [allResults] before sorting.  The
    first request was issued before the call suspended; the requests of the
    fan-out are issued here. *)
Definition fetchAllResults (o : Oracle) (job : SearchJob)
  : JS.M (S:=State) (E:=string) (list SearchResult) :=
  if String.eqb (job_selectedDb job) ALL then
    dbs <- (match list_databases o with
            | Rejected m => JS.throw m
            | NotOk _ _ => JS.ret []
            | Ok (inr m) => JS.throw m
            | Ok (inl dbs) => JS.ret dbs
            end) ;;
    let limit := perDb (job_limit job) dbs in
    JS.exec (log_fetch (map (fun db => searchRequest job limit (name db)) dbs)) ;;;
    JS.ret (JS.flat (map (searchOneDb o job limit) dbs))
  else
    match search_text o (job_selectedDb job) (job_query job) (job_limit job)
            (job_minScore job) with
    | Rejected m => JS.throw m
    | NotOk _ _ => JS.ret []
    | Ok (inr m) => JS.throw m
    | Ok (inl res) => JS.ret res
    end.

(** [allResults.sort((a, b) => b.score - a.score); allResults.slice(0, limit)] *)
Definition sortAndLimit (limit : Z) (allResults : list SearchResult)
  : list SearchResult :=
  JS.slice0 limit (JS.sort byScoreDesc allResults).

Definition renderNode (searchedAll : bool) (r : SearchResult) (idx : nat) : Node :=
  let t := text r in
  {| data_result_index := idx;
     data_full_text := attribute_value t;
     result_score := "Match: " ++ JS.toFixed 1 (JS.mul (JS.number (score r)) 100) ++ "%";
     db_badge :=
       match database_name r with
       | Some db => if searchedAll && JS.truthy db then "DB: " ++ db else ""
       | None => ""
       end;
     result_text :=
       if (180 <? JS.length t)%nat then JS.substring0 180 t ++ ELLIPSIS else t;
     checked := false |}.

Definition renderPanelSearchResults (results : list SearchResult)
    (searchedAll : bool) (s : State) : State :=
  match results with
  | [] =>
      upd_sdom (fun d => set_resultsDiv (Html "No results.") (set_actions_shown false d)) s
  | _ =>
      upd_sdom (fun d =>
        set_actions_shown true
          (set_resultsDiv (Items (mapi (renderNode searchedAll) results)) d)) s
  end.

Definition summaryText (n : nat) (minScore : Q) (searchAllDb : bool) : string :=
  "Found " ++ JS.string_of_nat n ++ " result" ++ (if (n =? 1)%nat then "" else "s")
  ++ " with " ++ GE_SIGN ++ " " ++ JS.toFixed 0 (JS.mul (JS.number minScore) 100)
  ++ "% similarity"
  ++ (if searchAllDb then " across all databases" else "") ++ ".".

Definition search_try (o : Oracle) (job : SearchJob) : JS.M (S:=State) (E:=string) unit :=
  allResults <- fetchAllResults o job ;;
  let limited := sortAndLimit (job_limit job) allResults in
  let searchAllDb := String.eqb (job_selectedDb job) ALL in
  JS.exec (upd_sdom (set_summaryDiv
             (summaryText (length limited) (job_minScore job) searchAllDb))) ;;;
  JS.exec (renderPanelSearchResults limited searchAllDb).

Definition search_catch (e : string) : JS.M (S:=State) (E:=string) unit :=
  JS.exec (upd_sdom (fun d =>
    set_resultsDiv (Html "Search failed. Please try again.") (set_summaryDiv "" d))).

(** [performPanelSearch] from the point where all responses have arrived;
    nothing is written to the state between its [await]s. *)
Definition performPanelSearch_resume (o : Oracle) (job : SearchJob)
  : JS.M (S:=State) (E:=string) unit :=
  JS.try_catch (search_try o job) search_catch.

(** An uninterrupted run. *)
Definition performPanelSearch (o : Oracle) (s : State) : State :=
  match performPanelSearch_begin s with
  | (s1, Some job) => fst (performPanelSearch_resume o job s1)
  | (s1, None) => s1
  end.

(** What a search hands to the renderer: the ranked, truncated results, or
    the error caught by the outer handler. *)
Definition searchResults (o : Oracle) (job : SearchJob) (s : State)
  : list SearchResult + string :=
  match fetchAllResults o job s with
  | (_, inl allResults) => inl (sortAndLimit (job_limit job) allResults)
  | (_, inr e) => inr e
  end.

(** ** Selection and context composition *)

Fixpoint set_checked (i : nat) (c : bool) (nodes : list Node) : list Node :=
  match nodes with
  | [] => []
  | nd :: rest =>
      (if (data_result_index nd =? i)%nat then
         {| data_result_index := data_result_index nd;
            data_full_text := data_full_text nd;
            result_score := result_score nd; db_badge := db_badge nd;
            result_text := result_text nd; checked := c |}
       else nd) :: set_checked i c rest
  end.

Definition check_all (c : bool) (nodes : list Node) : list Node :=
  map (fun nd =>
    {| data_result_index := data_result_index nd;
       data_full_text := data_full_text nd;
       result_score := result_score nd; db_badge := db_badge nd;
       result_text := result_text nd; checked := c |}) nodes.

(** The user clicks the checkbox of item [i]: its state flips and the
    [change] listener adds or removes [i]. *)
Definition checkbox_change (i : nat) (s : State) : State :=
  match nth_error (result_items (resultsDiv (sdom s))) i with
  | None => s
  | Some nd =>
      let c := negb (checked nd) in
      let idx := data_result_index nd in
      let s1 := upd_sdom (fun d =>
                  set_resultsDiv (Items (set_checked idx c (result_items (resultsDiv d)))) d) s in
      let sel := searchSelectedResults (vars s1) in
      updateSearchSelectionUI
        (upd_vars (set_searchSelectedResults
           (if c then JS.set_add idx sel else JS.set_delete idx sel)) s1)
  end.

(** [#contextdb-select-all] *)
Definition select_all_click (s : State) : State :=
  let nodes := result_items (resultsDiv (sdom s)) in
  let sel := fold_left (fun acc nd => JS.set_add (data_result_index nd) acc) nodes
               (JS.set_clear (searchSelectedResults (vars s))) in
  let s1 := match resultsDiv (sdom s) with
            | Items _ => upd_sdom (set_resultsDiv (Items (check_all true nodes))) s
            | Html _ => s
            end in
  updateSearchSelectionUI (upd_vars (set_searchSelectedResults sel) s1).

(** [#contextdb-clear-selection] *)
Definition clear_selection_click (s : State) : State :=
  let nodes := result_items (resultsDiv (sdom s)) in
  let s1 := match resultsDiv (sdom s) with
            | Items _ => upd_sdom (set_resultsDiv (Items (check_all false nodes))) s
            | Html _ => s
            end in
  updateSearchSelectionUI
    (upd_vars (set_searchSelectedResults
                 (JS.set_clear (searchSelectedResults (vars s1)))) s1).

Definition CONTEXT_HEADER : string := "# Context Information" ++ LF ++ LF.

Definition contextEntry (idx : nat) (nd : Node) : string :=
  "## Context " ++ JS.string_of_nat idx ++ LF
  ++ "**Relevance**: " ++ result_score nd ++ LF ++ LF
  ++ data_full_text nd ++ LF ++ LF ++ "---" ++ LF ++ LF.

(** The body of [searchSelectedResults.forEach(i => ...)] on the pair
    [(idx, ctx)]. *)
Definition context_step (nodes : list Node) (acc : nat * string) (i : nat)
  : nat * string :=
  match nth_error nodes i with
  | None => acc                                   (* if (!item) return; *)
  | Some item => (S (fst acc), snd acc ++ contextEntry (fst acc) item)
  end.

Definition composeContext (nodes : list Node) (sel : JS.NatSet) : string :=
  snd (JS.set_forEach (context_step nodes) sel (1%nat, CONTEXT_HEADER)).

(** [#contextdb-create-context] *)
Definition create_context_click (s : State) : State :=
  let nodes := result_items (resultsDiv (sdom s)) in
  let sel := searchSelectedResults (vars s) in
  let ctx := composeContext nodes sel in
  showPanelNotification
    ("Context created from " ++ JS.string_of_nat (JS.set_size sel) ++ " results")
    "success"
    (upd_sdom (set_contextOutput ctx true) s).

Definition clearSearchResults (s : State) : State :=
  if negb (sidePanel (vars s)) then s
  else
    let s1 := upd_sdom (fun d =>
                set_actions_shown false (set_summaryDiv "" (set_resultsDiv (Html "") d))) s in
    updateSearchSelectionUI
      (upd_vars (set_searchSelectedResults
                   (JS.set_clear (searchSelectedResults (vars s1)))) s1).

(** ** Events

    The page is single-threaded: handlers run one at a time, and an
    asynchronous function is resumed as a handler of its own.  [World] adds
    to the state the calls that are suspended at an [await]. *)

Record World := {
  st : State;
  searches : list SearchJob;     (* performPanelSearch calls in flight, oldest first *)
  saves : list SaveJob           (* saveTextToDatabase calls in flight, oldest first *)
}.

Inductive Event :=
| TypeSearch (q db : string) (lim : option Z) (ms : option Q)
| ChooseSaveDb (db : string)
| SearchClick
| SearchSettles (k : nat) (o : Oracle)    (* the k-th search in flight resumes *)
| SaveClick
| SaveSettles (k : nat) (resp : Response unit)
| CheckboxClick (i : nat)
| SelectAllClick
| ClearSelectionClick
| CreateContextClick
| ClearResultsClick
| CloseClick
| MinimizeClick
| TextSelected (selection : string)
| TimeoutFires (k : nat) (o : Oracle).    (* the k-th pending timer fires *)

Fixpoint remove_nth {A : Type} (k : nat) (l : list A) : list A :=
  match k, l with
  | _, [] => []
  | O, _ :: xs => xs
  | S k', x :: xs => x :: remove_nth k' xs
  end.

Definition with_st (s : State) (w : World) : World :=
  {| st := s; searches := searches w; saves := saves w |}.

Definition step (e : Event) (w : World) : World :=
  match e with
  | TypeSearch q db lim ms => with_st (upd_sdom (set_searchForm q db lim ms) (st w)) w
  | ChooseSaveDb db =>
      let hasText := JS.truthy (selectedText (vars (st w)))
                     && JS.truthy (JS.trim (selectedText (vars (st w)))) in
      with_st (upd_dom (fun d =>
        set_saveBtn (negb (JS.truthy db && hasText)) (saveBtn_textContent d)
          (set_dbSelect_value db d)) (st w)) w
  | SearchClick =>
      match performPanelSearch_begin (st w) with
      | (s, Some job) =>
          {| st := s; searches := (searches w ++ [job])%list; saves := saves w |}
      | (s, None) => with_st s w
      end
  | SearchSettles k o =>
      match nth_error (searches w) k with
      | Some job =>
          {| st := fst (performPanelSearch_resume o job (st w));
             searches := remove_nth k (searches w); saves := saves w |}
      | None => w
      end
  | SaveClick =>
      match saveTextToDatabase_begin (st w) with
      | (s, Some job) =>
          {| st := s; searches := searches w; saves := (saves w ++ [job])%list |}
      | (s, None) => with_st s w
      end
  | SaveSettles k resp =>
      match nth_error (saves w) k with
      | Some job =>
          {| st := fst (saveTextToDatabase_resume resp job (st w));
             searches := searches w; saves := remove_nth k (saves w) |}
      | None => w
      end
  | CheckboxClick i => with_st (checkbox_change i (st w)) w
  | SelectAllClick => with_st (select_all_click (st w)) w
  | ClearSelectionClick => with_st (clear_selection_click (st w)) w
  | CreateContextClick => with_st (create_context_click (st w)) w
  | ClearResultsClick => with_st (clearSearchResults (st w)) w
  | CloseClick => with_st (hideSidePanel (st w)) w
  | MinimizeClick => with_st (togglePanelMinimized (st w)) w
  | TextSelected selection => with_st (fst (handleTextSelection selection (st w))) w
  | TimeoutFires k o =>
      match nth_error (timeouts (st w)) k with
      | Some t =>
          with_st (run_timeout o t
                     (set_timeouts (remove_nth k (timeouts (st w))) (st w))) w
      | None => w
      end
  end.

Definition run (es : list Event) (w : World) : World :=
  fold_left (fun w e => step e w) es w.

(** The state when the content script has created the panel. *)
Definition initial : State :=
  {| vars := {| selectedText := ""; sidePanel := true; enableContextMenu := true;
                selectedDatabase := None; isPanelOpen := false;
                activePanelTab := TabAdd; searchSelectedResults := [] |};
     dom := {| class_panel_open := false; class_panel_minimized := false;
               panelBody_opacity := ""; saveBtn_disabled := true;
               saveBtn_textContent := "Save Selected Text"; dbSelect_value := "";
               selectedTextDiv_shown := false; textPreview := "" |};
     sdom := {| queryInput_value := ""; searchDb_value := "";
                limitSelect_value := Some 10%Z; minScoreSelect_value := Some (3 # 10);
                resultsDiv := Html ""; summaryDiv := ""; actions_shown := false;
                selectedCount := "0"; createBtn_disabled := true;
                contextText_value := ""; contextOutput_shown := false |};
     notifications := []; saveStatus := []; timeouts := []; fetched := [] |}.

Definition initial_world : World :=
  {| st := initial; searches := []; saves := [] |}.

(** ** Observations *)

(** The save is in progress as far as the user can see: the body is dimmed
    or the button reads "Saving...". *)
Definition busy (s : State) : bool :=
  negb (String.eqb (panelBody_opacity (dom s)) "1"
        || String.eqb (panelBody_opacity (dom s)) "")
  || String.eqb (saveBtn_textContent (dom s)) SAVING_LABEL.

Definition closed (s : State) : bool :=
  negb (isPanelOpen (vars s)) && negb (class_panel_open (dom s)).

(** Every selected index refers to a result item that is displayed. *)
Definition selection_in_range (s : State) : Prop :=
  Forall (fun i => (i < length (result_items (resultsDiv (sdom s))))%nat)
         (searchSelectedResults (vars s)).

End Panel.

(* ================================================================== *)
(** * The popup with search and default-database selection *)
(* ================================================================== *)

Module Popup.

(** A rendered [.result-item]. *)
Record Node := {
  data_result_index : nat;
  data_full_text : string;
  result_score : string;       (* textContent of .result-score *)
  checked : bool
}.

(** Content of [#searchResults]. *)
Inductive ResultsDiv :=
| Html (message : string)
| Items (nodes : list Node) (contextText : string) (contextShown : bool).

Definition result_items (r : ResultsDiv) : list Node :=
  match r with
  | Html _ => []
  | Items nodes _ _ => nodes
  end.

Record State := {
  (* module-level variables *)
  selectedDatabase : option string;
  databases : list Database;
  selectedResults : JS.NatSet;
  (* chrome.storage.sync *)
  storage_selectedDatabase : option string;
  (* elements *)
  newDbNameInput_value : string;
  createDbBtn_disabled : bool;
  createDbBtn_textContent : string;
  databaseList : list Database;
  searchDbSelect_value : string;
  searchQueryInput_value : string;
  searchAllDbs_checked : bool;
  searchLimitSelect_value : option Z;
  searchBtn_disabled : bool;
  searchBtn_textContent : string;
  searchResults : ResultsDiv;
  (* logs *)
  notifications : list (string * string);
  fetched : list Request
}.

(** ** Field updates *)

Definition set_selection (mem sto : option string) (s : State) : State :=
  {| selectedDatabase := mem; databases := databases s;
     selectedResults := selectedResults s; storage_selectedDatabase := sto;
     newDbNameInput_value := newDbNameInput_value s;
     createDbBtn_disabled := createDbBtn_disabled s;
     createDbBtn_textContent := createDbBtn_textContent s;
     databaseList := databaseList s;
     searchDbSelect_value := searchDbSelect_value s;
     searchQueryInput_value := searchQueryInput_value s;
     searchAllDbs_checked := searchAllDbs_checked s;
     searchLimitSelect_value := searchLimitSelect_value s;
     searchBtn_disabled := searchBtn_disabled s;
     searchBtn_textContent := searchBtn_textContent s;
     searchResults := searchResults s;
     notifications := notifications s; fetched := fetched s |}.

Definition set_databases (dbs : list Database) (s : State) : State :=
  {| selectedDatabase := selectedDatabase s; databases := dbs;
     selectedResults := selectedResults s;
     storage_selectedDatabase := storage_selectedDatabase s;
     newDbNameInput_value := newDbNameInput_value s;
     createDbBtn_disabled := createDbBtn_disabled s;
     createDbBtn_textContent := createDbBtn_textContent s;
     databaseList := databaseList s;
     searchDbSelect_value := searchDbSelect_value s;
     searchQueryInput_value := searchQueryInput_value s;
     searchAllDbs_checked := searchAllDbs_checked s;
     searchLimitSelect_value := searchLimitSelect_value s;
     searchBtn_disabled := searchBtn_disabled s;
     searchBtn_textContent := searchBtn_textContent s;
     searchResults := searchResults s;
     notifications := notifications s; fetched := fetched s |}.

Definition set_selectedResults (sel : JS.NatSet) (s : State) : State :=
  {| selectedDatabase := selectedDatabase s; databases := databases s;
     selectedResults := sel;
     storage_selectedDatabase := storage_selectedDatabase s;
     newDbNameInput_value := newDbNameInput_value s;
     createDbBtn_disabled := createDbBtn_disabled s;
     createDbBtn_textContent := createDbBtn_textContent s;
     databaseList := databaseList s;
     searchDbSelect_value := searchDbSelect_value s;
     searchQueryInput_value := searchQueryInput_value s;
     searchAllDbs_checked := searchAllDbs_checked s;
     searchLimitSelect_value := searchLimitSelect_value s;
     searchBtn_disabled := searchBtn_disabled s;
     searchBtn_textContent := searchBtn_textContent s;
     searchResults := searchResults s;
     notifications := notifications s; fetched := fetched s |}.

Definition set_newDbNameInput (v : string) (s : State) : State :=
  {| selectedDatabase := selectedDatabase s; databases := databases s;
     selectedResults := selectedResults s;
     storage_selectedDatabase := storage_selectedDatabase s;
     newDbNameInput_value := v;
     createDbBtn_disabled := createDbBtn_disabled s;
     createDbBtn_textContent := createDbBtn_textContent s;
     databaseList := databaseList s;
     searchDbSelect_value := searchDbSelect_value s;
     searchQueryInput_value := searchQueryInput_value s;
     searchAllDbs_checked := searchAllDbs_checked s;
     searchLimitSelect_value := searchLimitSelect_value s;
     searchBtn_disabled := searchBtn_disabled s;
     searchBtn_textContent := searchBtn_textContent s;
     searchResults := searchResults s;
     notifications := notifications s; fetched := fetched s |}.

Definition set_createDbBtn (disabled : bool) (label : string) (s : State) : State :=
  {| selectedDatabase := selectedDatabase s; databases := databases s;
     selectedResults := selectedResults s;
     storage_selectedDatabase := storage_selectedDatabase s;
     newDbNameInput_value := newDbNameInput_value s;
     createDbBtn_disabled := disabled;
     createDbBtn_textContent := label;
     databaseList := databaseList s;
     searchDbSelect_value := searchDbSelect_value s;
     searchQueryInput_value := searchQueryInput_value s;
     searchAllDbs_checked := searchAllDbs_checked s;
     searchLimitSelect_value := searchLimitSelect_value s;
     searchBtn_disabled := searchBtn_disabled s;
     searchBtn_textContent := searchBtn_textContent s;
     searchResults := searchResults s;
     notifications := notifications s; fetched := fetched s |}.

Definition set_databaseList (dbs : list Database) (s : State) : State :=
  {| selectedDatabase := selectedDatabase s; databases := databases s;
     selectedResults := selectedResults s;
     storage_selectedDatabase := storage_selectedDatabase s;
     newDbNameInput_value := newDbNameInput_value s;
     createDbBtn_disabled := createDbBtn_disabled s;
     createDbBtn_textContent := createDbBtn_textContent s;
     databaseList := dbs;
     searchDbSelect_value := searchDbSelect_value s;
     searchQueryInput_value := searchQueryInput_value s;
     searchAllDbs_checked := searchAllDbs_checked s;
     searchLimitSelect_value := searchLimitSelect_value s;
     searchBtn_disabled := searchBtn_disabled s;
     searchBtn_textContent := searchBtn_textContent s;
     searchResults := searchResults s;
     notifications := notifications s; fetched := fetched s |}.

Definition set_searchDbSelect (v : string) (s : State) : State :=
  {| selectedDatabase := selectedDatabase s; databases := databases s;
     selectedResults := selectedResults s;
     storage_selectedDatabase := storage_selectedDatabase s;
     newDbNameInput_value := newDbNameInput_value s;
     createDbBtn_disabled := createDbBtn_disabled s;
     createDbBtn_textContent := createDbBtn_textContent s;
     databaseList := databaseList s;
     searchDbSelect_value := v;
     searchQueryInput_value := searchQueryInput_value s;
     searchAllDbs_checked := searchAllDbs_checked s;
     searchLimitSelect_value := searchLimitSelect_value s;
     searchBtn_disabled := searchBtn_disabled s;
     searchBtn_textContent := searchBtn_textContent s;
     searchResults := searchResults s;
     notifications := notifications s; fetched := fetched s |}.

Definition set_searchForm (q : string) (all : bool) (lim : option Z) (s : State) : State :=
  {| selectedDatabase := selectedDatabase s; databases := databases s;
     selectedResults := selectedResults s;
     storage_selectedDatabase := storage_selectedDatabase s;
     newDbNameInput_value := newDbNameInput_value s;
     createDbBtn_disabled := createDbBtn_disabled s;
     createDbBtn_textContent := createDbBtn_textContent s;
     databaseList := databaseList s;
     searchDbSelect_value := searchDbSelect_value s;
     searchQueryInput_value := q;
     searchAllDbs_checked := all;
     searchLimitSelect_value := lim;
     searchBtn_disabled := searchBtn_disabled s;
     searchBtn_textContent := searchBtn_textContent s;
     searchResults := searchResults s;
     notifications := notifications s; fetched := fetched s |}.

Definition set_searchBtn (disabled : bool) (label : string) (s : State) : State :=
  {| selectedDatabase := selectedDatabase s; databases := databases s;
     selectedResults := selectedResults s;
     storage_selectedDatabase := storage_selectedDatabase s;
     newDbNameInput_value := newDbNameInput_value s;
     createDbBtn_disabled := createDbBtn_disabled s;
     createDbBtn_textContent := createDbBtn_textContent s;
     databaseList := databaseList s;
     searchDbSelect_value := searchDbSelect_value s;
     searchQueryInput_value := searchQueryInput_value s;
     searchAllDbs_checked := searchAllDbs_checked s;
     searchLimitSelect_value := searchLimitSelect_value s;
     searchBtn_disabled := disabled;
     searchBtn_textContent := label;
     searchResults := searchResults s;
     notifications := notifications s; fetched := fetched s |}.

Definition set_searchResults (r : ResultsDiv) (s : State) : State :=
  {| selectedDatabase := selectedDatabase s; databases := databases s;
     selectedResults := selectedResults s;
     storage_selectedDatabase := storage_selectedDatabase s;
     newDbNameInput_value := newDbNameInput_value s;
     createDbBtn_disabled := createDbBtn_disabled s;
     createDbBtn_textContent := createDbBtn_textContent s;
     databaseList := databaseList s;
     searchDbSelect_value := searchDbSelect_value s;
     searchQueryInput_value := searchQueryInput_value s;
     searchAllDbs_checked := searchAllDbs_checked s;
     searchLimitSelect_value := searchLimitSelect_value s;
     searchBtn_disabled := searchBtn_disabled s;
     searchBtn_textContent := searchBtn_textContent s;
     searchResults := r;
     notifications := notifications s; fetched := fetched s |}.

(** [showNotification(message, type = 'success')] *)
Definition showNotification (message type : string) (s : State) : State :=
  {| selectedDatabase := selectedDatabase s; databases := databases s;
     selectedResults := selectedResults s;
     storage_selectedDatabase := storage_selectedDatabase s;
     newDbNameInput_value := newDbNameInput_value s;
     createDbBtn_disabled := createDbBtn_disabled s;
     createDbBtn_textContent := createDbBtn_textContent s;
     databaseList := databaseList s;
     searchDbSelect_value := searchDbSelect_value s;
     searchQueryInput_value := searchQueryInput_value s;
     searchAllDbs_checked := searchAllDbs_checked s;
     searchLimitSelect_value := searchLimitSelect_value s;
     searchBtn_disabled := searchBtn_disabled s;
     searchBtn_textContent := searchBtn_textContent s;
     searchResults := searchResults s;
     notifications := (message, type) :: notifications s; fetched := fetched s |}.

Definition log_fetch (rs : list Request) (s : State) : State :=
  {| selectedDatabase := selectedDatabase s; databases := databases s;
     selectedResults := selectedResults s;
     storage_selectedDatabase := storage_selectedDatabase s;
     newDbNameInput_value := newDbNameInput_value s;
     createDbBtn_disabled := createDbBtn_disabled s;
     createDbBtn_textContent := createDbBtn_textContent s;
     databaseList := databaseList s;
     searchDbSelect_value := searchDbSelect_value s;
     searchQueryInput_value := searchQueryInput_value s;
     searchAllDbs_checked := searchAllDbs_checked s;
     searchLimitSelect_value := searchLimitSelect_value s;
     searchBtn_disabled := searchBtn_disabled s;
     searchBtn_textContent := searchBtn_textContent s;
     searchResults := searchResults s;
     notifications := notifications s; fetched := (rev rs ++ fetched s)%list |}.

(** ** Databases *)

(** [updateSearchDbSelect]: the options are rebuilt from [databases]; the
    default database is chosen again when it is among them. *)
Definition updateSearchDbSelect (s : State) : State :=
  set_searchDbSelect
    (match selectedDatabase s with
     | Some d =>
         if JS.truthy d && JS.some (fun db => String.eqb (name db) d) (databases s)
         then d else ""
     | None => ""
     end) s.

Definition loadDatabases (o : Oracle) (s : State) : State :=
  let s := log_fetch [GET_databases] s in
  match list_databases o with
  | Ok (inl dbs) =>
      updateSearchDbSelect (set_databaseList dbs (set_databases dbs s))
  | _ => set_databaseList [] s               (* catch: renderDatabaseList([]) *)
  end.

Definition create_try (o : Oracle) (name : string) : JS.M (S:=State) (E:=string) unit :=
  JS.exec (set_createDbBtn true "Creating...") ;;;
  JS.exec (log_fetch [POST_databases name]) ;;;
  (match create_database o name with
   | Rejected m => JS.throw m
   | NotOk _ _ => JS.throw "Failed to create database"
   | Ok _ => JS.ret tt
   end) ;;;
  JS.exec (set_newDbNameInput "") ;;;
  JS.exec (showNotification "Database created successfully" "success") ;;;
  JS.exec (loadDatabases o).

(** [createDatabase]; the oracle gives the responses to its [POST] and to
    the [GET] of the reload that follows. *)
Definition createDatabase (o : Oracle) (s : State) : State :=
  let name := JS.trim (newDbNameInput_value s) in
  if negb (JS.truthy name) then
    showNotification "Please enter a database name" "error" s
  else if JS.some (fun db => String.eqb (Backend.name db) name) (databases s) then
    showNotification "Database already exists" "error" s
  else
    fst (JS.try_catch_finally
           (create_try o name)
           (fun _ => JS.exec (showNotification "Error creating database" "error"))
           (JS.exec (set_createDbBtn false "Create Database"))
           s).

(** [loadSettings]: [selectedDatabase = result.selectedDatabase || null],
    read from the persisted settings when the popup opens. *)
Definition loadSettings (s : State) : State :=
  set_selection
    (match storage_selectedDatabase s with
     | Some d => if JS.truthy d then Some d else None
     | None => None
     end)
    (storage_selectedDatabase s) s.

(** [selectDatabase]: the choice is kept in memory and persisted. *)
Definition selectDatabase (dbName : string) (s : State) : State :=
  let s1 := set_selection (Some dbName) (Some dbName) s in
  let s2 := set_searchDbSelect
              (if JS.some (fun db => String.eqb (name db) dbName) (databases s1)
               then dbName else "") s1 in
  showNotification ("Selected database: " ++ dbName) "success" s2.

Definition option_string_eqb (a : option string) (b : string) : bool :=
  match a with
  | Some x => String.eqb x b
  | None => false
  end.

Definition delete_try (o : Oracle) (dbName : string) : JS.M (S:=State) (E:=string) unit :=
  JS.exec (log_fetch [DELETE_databases dbName]) ;;;
  (match delete_database o dbName with
   | Rejected m => JS.throw m
   | NotOk _ _ => JS.throw "Failed to delete database"
   | Ok _ => JS.ret tt
   end) ;;;
  JS.exec (fun s =>
    if option_string_eqb (selectedDatabase s) dbName
    then set_selection None None s
    else s) ;;;
  JS.exec (showNotification "Database deleted successfully" "success") ;;;
  JS.exec (loadDatabases o).

(** [deleteDatabase]; [confirmed] is the answer to the [confirm] dialog. *)
Definition deleteDatabase (confirmed : bool) (o : Oracle) (dbName : string)
    (s : State) : State :=
  if negb confirmed then s
  else
    fst (JS.try_catch (delete_try o dbName)
           (fun _ => JS.exec (showNotification "Error deleting database" "error"))
           s).

(** ** Searching *)

(** The locals of a suspended [performSearch] call; the requests were built
    from [databases] as it was when the call started. *)
Record SearchJob := {
  job_query : string;
  job_searchAll : bool;
  job_dbName : string;
  job_limit : Z;
  job_databases : list Database
}.

Definition MIN_SCORE : Q := 3 # 10.

(** The limit sent to each database when all are searched. *)
Definition perDbLimit (limit : Z) (dbs : list Database) : Z :=
  JS.ceil_div limit (Z.of_nat (length dbs)) + 2.

Definition performSearch_begin (s : State) : State * option SearchJob :=
  let query := JS.trim (searchQueryInput_value s) in
  let searchAll := searchAllDbs_checked s in
  let dbName := searchDbSelect_value s in
  let limit := JS.int_or (searchLimitSelect_value s) 10 in
  if negb (JS.truthy query) then
    (showNotification "Please enter a search query" "error" s, None)
  else if negb searchAll && negb (JS.truthy dbName) then
    (showNotification
       ("Please select a database to search or enable "
          ++ String DQUOTE "Search all databases" ++ String DQUOTE "")
       "error" s, None)
  else
    let s1 := set_searchResults (Html "Searching...")
                (set_searchBtn true "Searching..." s) in
    let requests :=
      if searchAll then
        map (fun db => POST_search (name db) query
                         (perDbLimit limit (databases s)) MIN_SCORE)
            (databases s)
      else [POST_search dbName query limit MIN_SCORE] in
    (log_fetch requests s1,
     Some {| job_query := query; job_searchAll := searchAll; job_dbName := dbName;
             job_limit := limit; job_databases := databases s |}).

Definition searchOneDb (o : Oracle) (job : SearchJob) (db : Database)
  : list SearchResult :=
  match search_text o (name db) (job_query job)
          (perDbLimit (job_limit job) (job_databases job)) MIN_SCORE with
  | Rejected _ => []                          (* catch: return [] *)
  | NotOk _ _ => []                           (* return [] *)
  | Ok (inr _) => []                          (* response.json() throws: catch *)
  | Ok (inl results) => map (tag (name db)) results
  end.

Definition renderNode (r : SearchResult) (idx : nat) : Node :=
  {| data_result_index := idx;
     data_full_text := attribute_value (text r);
     result_score := "Match: " ++ JS.toFixed 1 (JS.mul (JS.number (score r)) 100) ++ "%";
     checked := false |}.

Definition renderSearchResults (results : list SearchResult) (searchedAll : bool)
    (s : State) : State :=
  match results with
  | [] =>
      set_searchResults
        (Html "No results found (showing only results with 30%+ similarity).") s
  | _ =>
      (* Clear selected results when rendering new results *)
      let s1 := set_selectedResults (JS.set_clear (selectedResults s)) s in
      set_searchResults (Items (mapi renderNode results) "" false) s1
  end.

Definition fetchResults (o : Oracle) (job : SearchJob)
  : JS.M (S:=State) (E:=string) (list SearchResult) :=
  if job_searchAll job then
    JS.ret (JS.slice0 (job_limit job)
              (JS.sort byScoreDesc
                 (JS.flat (map (searchOneDb o job) (job_databases job)))))
  else
    match search_text o (job_dbName job) (job_query job) (job_limit job) MIN_SCORE with
    | Rejected m => JS.throw m
    | NotOk _ _ => JS.throw "Search failed"
    | Ok (inr m) => JS.throw m
    | Ok (inl results) => JS.ret results
    end.

Definition performSearch_resume (o : Oracle) (job : SearchJob)
  : JS.M (S:=State) (E:=string) unit :=
  JS.try_catch_finally
    (allResults <- fetchResults o job ;;
     JS.exec (renderSearchResults allResults (job_searchAll job)))
    (fun _ =>
       JS.exec (set_searchResults (Html "Search failed. Please try again.")) ;;;
       JS.exec (showNotification "Search failed" "error"))
    (JS.exec (set_searchBtn false "Search")).

Definition performSearch (o : Oracle) (s : State) : State :=
  match performSearch_begin s with
  | (s1, Some job) => fst (performSearch_resume o job s1)
  | (s1, None) => s1
  end.

(** What a search hands to the renderer. *)
Definition searchResultsOf (o : Oracle) (job : SearchJob) (s : State)
  : list SearchResult + string :=
  match fetchResults o job s with
  | (_, inl allResults) => inl allResults
  | (_, inr e) => inr e
  end.

(** ** Selection and context text *)

Fixpoint set_checked (i : nat) (c : bool) (nodes : list Node) : list Node :=
  match nodes with
  | [] => []
  | nd :: rest =>
      (if (data_result_index nd =? i)%nat then
         {| data_result_index := data_result_index nd;
            data_full_text := data_full_text nd;
            result_score := result_score nd; checked := c |}
       else nd) :: set_checked i c rest
  end.

Definition check_all (c : bool) (nodes : list Node) : list Node :=
  map (fun nd =>
    {| data_result_index := data_result_index nd;
       data_full_text := data_full_text nd;
       result_score := result_score nd; checked := c |}) nodes.

Definition with_nodes (f : list Node -> list Node) (r : ResultsDiv) : ResultsDiv :=
  match r with
  | Html m => Html m
  | Items nodes t shown => Items (f nodes) t shown
  end.

(** The user clicks checkbox [index]; [toggleResultSelection] follows its
    new state. *)
Definition toggleResultSelection (index : nat) (s : State) : State :=
  match find (fun nd => (data_result_index nd =? index)%nat)
             (result_items (searchResults s)) with
  | None => s
  | Some nd =>
      let c := negb (checked nd) in
      let s1 := set_searchResults (with_nodes (set_checked index c) (searchResults s)) s in
      set_selectedResults
        (if c then JS.set_add index (selectedResults s1)
         else JS.set_delete index (selectedResults s1)) s1
  end.

Definition selectAllResults (s : State) : State :=
  let nodes := result_items (searchResults s) in
  let sel := fold_left (fun acc nd => JS.set_add (data_result_index nd) acc) nodes
               (JS.set_clear (selectedResults s)) in
  set_selectedResults sel
    (set_searchResults (with_nodes (check_all true) (searchResults s)) s).

Definition clearSelection (s : State) : State :=
  let r := match searchResults s with
           | Html m => Html m
           | Items nodes t _ => Items (check_all false nodes) t false
           end in
  set_selectedResults (JS.set_clear (selectedResults s)) (set_searchResults r s).

Section ContextText.

(** [decodeHtml]: the browser's decoding of character references. *)
Variable decodeHtml : string -> string.

Definition CONTEXT_INTRO : string :=
  "# Context Information" ++ LF ++ LF
  ++ "The following information has been retrieved from your knowledge base:"
  ++ LF ++ LF.

Definition CONTEXT_FOOTER : string :=
  "Please use this context information to answer questions or provide insights."
  ++ LF.

Definition contextEntry (contextNumber : nat) (nd : Node) : string :=
  "## Context " ++ JS.string_of_nat contextNumber ++ LF
  ++ "**Relevance**: " ++ result_score nd ++ LF ++ LF
  ++ decodeHtml (data_full_text nd) ++ LF ++ LF
  ++ "---" ++ LF ++ LF.

(** The body of [selectedResults.forEach(index => ...)] on the pair
    [(contextNumber, contextText)]. *)
Definition context_step (nodes : list Node) (acc : nat * string) (index : nat)
  : nat * string :=
  match find (fun nd => (data_result_index nd =? index)%nat) nodes with
  | None => acc
  | Some item => (S (fst acc), snd acc ++ contextEntry (fst acc) item)
  end.

Definition composeContext (nodes : list Node) (sel : JS.NatSet) : string :=
  snd (JS.set_forEach (context_step nodes) sel (1%nat, CONTEXT_INTRO))
  ++ CONTEXT_FOOTER.

Definition createContextText (s : State) : State :=
  if (JS.set_size (selectedResults s) =? 0)%nat then
    showNotification "Please select at least one result" "error" s
  else
    let ctx := composeContext (result_items (searchResults s)) (selectedResults s) in
    let r := match searchResults s with
             | Html m => Html m
             | Items nodes _ _ => Items nodes ctx true
             end in
    showNotification
      ("Context created from " ++ JS.string_of_nat (JS.set_size (selectedResults s))
         ++ " selected results") "success"
      (set_searchResults r s).

End ContextText.

End Popup.

(* ================================================================== *)
(** * The popup that only manages databases *)
(* ================================================================== *)

Module PopupV2.

Record State := {
  databases : list Database;
  newDbNameInput_value : string;
  createDbBtn_disabled : bool;
  createDbBtn_textContent : string;
  databaseList : list Database;
  notifications : list (string * string);
  fetched : list Request;
  tab_messages : list string               (* chrome.tabs.sendMessage actions *)
}.

Definition set_databases (dbs shown : list Database) (s : State) : State :=
  {| databases := dbs; newDbNameInput_value := newDbNameInput_value s;
     createDbBtn_disabled := createDbBtn_disabled s;
     createDbBtn_textContent := createDbBtn_textContent s;
     databaseList := shown; notifications := notifications s;
     fetched := fetched s; tab_messages := tab_messages s |}.

Definition set_newDbNameInput (v : string) (s : State) : State :=
  {| databases := databases s; newDbNameInput_value := v;
     createDbBtn_disabled := createDbBtn_disabled s;
     createDbBtn_textContent := createDbBtn_textContent s;
     databaseList := databaseList s; notifications := notifications s;
     fetched := fetched s; tab_messages := tab_messages s |}.

Definition set_createDbBtn (disabled : bool) (label : string) (s : State) : State :=
  {| databases := databases s; newDbNameInput_value := newDbNameInput_value s;
     createDbBtn_disabled := disabled;
     createDbBtn_textContent := label;
     databaseList := databaseList s; notifications := notifications s;
     fetched := fetched s; tab_messages := tab_messages s |}.

Definition showNotification (message type : string) (s : State) : State :=
  {| databases := databases s; newDbNameInput_value := newDbNameInput_value s;
     createDbBtn_disabled := createDbBtn_disabled s;
     createDbBtn_textContent := createDbBtn_textContent s;
     databaseList := databaseList s;
     notifications := (message, type) :: notifications s;
     fetched := fetched s; tab_messages := tab_messages s |}.

Definition log_fetch (rs : list Request) (s : State) : State :=
  {| databases := databases s; newDbNameInput_value := newDbNameInput_value s;
     createDbBtn_disabled := createDbBtn_disabled s;
     createDbBtn_textContent := createDbBtn_textContent s;
     databaseList := databaseList s; notifications := notifications s;
     fetched := (rev rs ++ fetched s)%list; tab_messages := tab_messages s |}.

(** Tell the side panel of the active tab to reload its lists; [tab] is
    [false] when there is no tab to talk to, which the code catches. *)
Definition notifySidePanel (tab : bool) (s : State) : State :=
  if tab then
    {| databases := databases s; newDbNameInput_value := newDbNameInput_value s;
       createDbBtn_disabled := createDbBtn_disabled s;
       createDbBtn_textContent := createDbBtn_textContent s;
       databaseList := databaseList s; notifications := notifications s;
       fetched := fetched s;
       tab_messages := "refreshDatabases" :: tab_messages s |}
  else s.

Definition loadDatabases (o : Oracle) (s : State) : State :=
  let s := log_fetch [GET_databases] s in
  match list_databases o with
  | Ok (inl dbs) => set_databases dbs dbs s
  | _ => set_databases (databases s) [] s    (* catch: renderDatabaseList([]) *)
  end.

Definition create_try (o : Oracle) (tab : bool) (name : string)
  : JS.M (S:=State) (E:=string) unit :=
  JS.exec (set_createDbBtn true "Creating...") ;;;
  JS.exec (log_fetch [POST_databases name]) ;;;
  (match create_database o name with
   | Rejected m => JS.throw m
   | NotOk _ _ => JS.throw "Failed to create database"
   | Ok _ => JS.ret tt
   end) ;;;
  JS.exec (set_newDbNameInput "") ;;;
  JS.exec (showNotification "Database created successfully" "success") ;;;
  JS.exec (loadDatabases o) ;;;
  JS.exec (notifySidePanel tab).

Definition createDatabase (o : Oracle) (tab : bool) (s : State) : State :=
  let name := JS.trim (newDbNameInput_value s) in
  if negb (JS.truthy name) then
    showNotification "Please enter a database name" "error" s
  else if JS.some (fun db => String.eqb (Backend.name db) name) (databases s) then
    showNotification "Database already exists" "error" s
  else
    fst (JS.try_catch_finally
           (create_try o tab name)
           (fun _ => JS.exec (showNotification "Error creating database" "error"))
           (JS.exec (set_createDbBtn false "Create Database"))
           s).

Definition delete_try (o : Oracle) (tab : bool) (dbName : string)
  : JS.M (S:=State) (E:=string) unit :=
  JS.exec (log_fetch [DELETE_databases dbName]) ;;;
  (match delete_database o dbName with
   | Rejected m => JS.throw m
   | NotOk _ _ => JS.throw "Failed to delete database"
   | Ok _ => JS.ret tt
   end) ;;;
  JS.exec (showNotification "Database deleted successfully" "success") ;;;
  JS.exec (loadDatabases o) ;;;
  JS.exec (notifySidePanel tab).

(** [deleteDatabase]; [confirmed] is the answer to the [confirm] dialog.
    This popup keeps no default selection. *)
Definition deleteDatabase (confirmed : bool) (o : Oracle) (tab : bool)
    (dbName : string) (s : State) : State :=
  if negb confirmed then s
  else
    fst (JS.try_catch (delete_try o tab dbName)
           (fun _ => JS.exec (showNotification "Error deleting database" "error"))
           s).

End PopupV2.

(* ================================================================== *)
(** * The earlier content script: a single pane with a loading overlay *)
(* ================================================================== *)

Module LegacyPanel.

Record State := {
  (* module-level variables *)
  selectedText : string;
  sidePanel : bool;
  isPanelOpen : bool;
  (* elements *)
  class_panel_open : bool;
  loadingDiv_display : string;            (* #contextdb-loading style.display *)
  panelBody_opacity : string;
  saveBtn_disabled : bool;
  saveBtn_textContent : string;
  dbSelect_value : string;
  newDbInput_value : string;
  tagsInput_value : string;
  selectedTextDiv_shown : bool;
  (* logs *)
  notifications : list (string * string);
  timeouts : nat;                         (* pending loadDatabasesForPanel timers *)
  fetched : list Request
}.

Definition set_loading (display opacity : string) (disabled : bool) (label : string)
    (s : State) : State :=
  {| selectedText := selectedText s; sidePanel := sidePanel s;
     isPanelOpen := isPanelOpen s; class_panel_open := class_panel_open s;
     loadingDiv_display := display; panelBody_opacity := opacity;
     saveBtn_disabled := disabled; saveBtn_textContent := label;
     dbSelect_value := dbSelect_value s; newDbInput_value := newDbInput_value s;
     tagsInput_value := tagsInput_value s;
     selectedTextDiv_shown := selectedTextDiv_shown s;
     notifications := notifications s; timeouts := timeouts s;
     fetched := fetched s |}.

Definition set_form (db newDb tags : string) (s : State) : State :=
  {| selectedText := selectedText s; sidePanel := sidePanel s;
     isPanelOpen := isPanelOpen s; class_panel_open := class_panel_open s;
     loadingDiv_display := loadingDiv_display s;
     panelBody_opacity := panelBody_opacity s;
     saveBtn_disabled := saveBtn_disabled s;
     saveBtn_textContent := saveBtn_textContent s;
     dbSelect_value := db; newDbInput_value := newDb;
     tagsInput_value := tags;
     selectedTextDiv_shown := selectedTextDiv_shown s;
     notifications := notifications s; timeouts := timeouts s;
     fetched := fetched s |}.

Definition set_selected (t : string) (shown : bool) (s : State) : State :=
  {| selectedText := t; sidePanel := sidePanel s;
     isPanelOpen := isPanelOpen s; class_panel_open := class_panel_open s;
     loadingDiv_display := loadingDiv_display s;
     panelBody_opacity := panelBody_opacity s;
     saveBtn_disabled := saveBtn_disabled s;
     saveBtn_textContent := saveBtn_textContent s;
     dbSelect_value := dbSelect_value s; newDbInput_value := newDbInput_value s;
     tagsInput_value := tagsInput_value s;
     selectedTextDiv_shown := shown;
     notifications := notifications s; timeouts := timeouts s;
     fetched := fetched s |}.

Definition set_open (b : bool) (s : State) : State :=
  {| selectedText := selectedText s; sidePanel := sidePanel s;
     isPanelOpen := b; class_panel_open := b;
     loadingDiv_display := loadingDiv_display s;
     panelBody_opacity := panelBody_opacity s;
     saveBtn_disabled := saveBtn_disabled s;
     saveBtn_textContent := saveBtn_textContent s;
     dbSelect_value := dbSelect_value s; newDbInput_value := newDbInput_value s;
     tagsInput_value := tagsInput_value s;
     selectedTextDiv_shown := selectedTextDiv_shown s;
     notifications := notifications s; timeouts := timeouts s;
     fetched := fetched s |}.

Definition log (n : list (string * string)) (t : nat) (rs : list Request)
    (s : State) : State :=
  {| selectedText := selectedText s; sidePanel := sidePanel s;
     isPanelOpen := isPanelOpen s; class_panel_open := class_panel_open s;
     loadingDiv_display := loadingDiv_display s;
     panelBody_opacity := panelBody_opacity s;
     saveBtn_disabled := saveBtn_disabled s;
     saveBtn_textContent := saveBtn_textContent s;
     dbSelect_value := dbSelect_value s; newDbInput_value := newDbInput_value s;
     tagsInput_value := tagsInput_value s;
     selectedTextDiv_shown := selectedTextDiv_shown s;
     notifications := (n ++ notifications s)%list; timeouts := t + timeouts s;
     fetched := (rev rs ++ fetched s)%list |}.

Definition SAVE_LABEL : string := "Save Selected Text".

Definition forceHideLoadingState (s : State) : State :=
  if sidePanel s then
    set_loading "none" "1"
      (if JS.truthy (selectedText s) then false else true) SAVE_LABEL s
  else s.

Definition showPanelNotification (message type : string) (s : State) : State :=
  if negb (sidePanel s) then s
  else log [(message, type)] 0 [] (forceHideLoadingState s).

Definition clearSelectedText (s : State) : State :=
  let s1 := set_selected "" (selectedTextDiv_shown s) s in
  if negb (sidePanel s1) then s1
  else
    set_loading (loadingDiv_display s1) (panelBody_opacity s1) true SAVE_LABEL
      (set_selected "" false s1).

Definition hideSidePanel (s : State) : State :=
  if sidePanel s && isPanelOpen s
  then set_open false (forceHideLoadingState s)
  else s.

Record SaveJob := { save_databaseName : string }.

Definition saveTextToDatabase_begin (s : State) : State * option SaveJob :=
  let t := selectedText s in
  if negb (JS.truthy t) || negb (JS.truthy (JS.trim t)) then
    (showPanelNotification "Please select some text first" "error" s, None)
  else
    let databaseName :=
      if JS.truthy (dbSelect_value s) then dbSelect_value s
      else JS.trim (newDbInput_value s) in
    if negb (JS.truthy databaseName) then
      (showPanelNotification "Please select a database or create a new one"
         "error" s, None)
    else
      (log [] 0 [POST_add_text databaseName t]
         (set_loading "flex" "0.6" true "Saving..." s),
       Some {| save_databaseName := databaseName |}).

Definition save_try (resp : Response unit) (job : SaveJob)
  : JS.M (S:=State) (E:=string) unit :=
  match resp with
  | Rejected m => JS.throw m
  | NotOk status json =>
      let detail :=
        match json with
        | None => "Unknown error"
        | Some None => ""
        | Some (Some d) => d
        end in
      JS.throw (if JS.truthy detail then detail
                else "Server error: " ++ JS.string_of_nat status)
  | Ok (inr m) => JS.throw m
  | Ok (inl _) =>
      JS.exec (set_form "" "" "") ;;;
      JS.exec clearSelectedText ;;;
      JS.exec (showPanelNotification
                 ("Text saved successfully to " ++ String DQUOTE (save_databaseName job)
                    ++ String DQUOTE " database!") "success") ;;;
      JS.exec (log [] 1 [])
  end.

Definition save_catch (message : string) : JS.M (S:=State) (E:=string) unit :=
  JS.exec (showPanelNotification ("Error saving text: " ++ message) "error").

Definition save_finally : JS.M (S:=State) (E:=string) unit :=
  JS.exec (fun s =>
    set_loading "none" "1"
      (if JS.truthy (selectedText s) then false else true) SAVE_LABEL s).

Definition saveTextToDatabase_resume (resp : Response unit) (job : SaveJob)
  : JS.M (S:=State) (E:=string) unit :=
  JS.try_catch_finally (save_try resp job) save_catch save_finally.

Definition saveTextToDatabase (o : Oracle) (s : State) : State :=
  match saveTextToDatabase_begin s with
  | (s1, Some job) =>
      fst (saveTextToDatabase_resume
             (add_text o (save_databaseName job) (selectedText s)) job s1)
  | (s1, None) => s1
  end.

Definition busy (s : State) : bool :=
  negb (String.eqb (panelBody_opacity s) "1" || String.eqb (panelBody_opacity s) "")
  || String.eqb (saveBtn_textContent s) "Saving..."
  || String.eqb (loadingDiv_display s) "flex".

End LegacyPanel.

(* ================================================================== *)
(** * The side panel: settings, tabs and the search dropdown *)
(* ================================================================== *)

(** The rest of chrome_extension/content.js: what runs when the script is
    loaded, the tab switch, the dropdown of the search tab and the message
    by which the popup asks for a reload.  Calls to [chrome.storage] are
    taken to succeed. *)
Module PanelControls.

(** [chrome.storage.sync], with the keys that the content script uses; [None]
    is a key that is not stored. *)
Record Sync := {
  sync_serverUrl : option string;
  sync_enableContextMenu : option bool;
  sync_selectedDatabase : option string;
  sync_activePanelTab : option Panel.Tab;
  sync_searchMinScore : option Q;
  sync_searchLimit : option Z
}.

Record State := {
  panel : Panel.State;
  (* module-level variables that [Panel.Vars] leaves out *)
  serverUrl : string;
  searchMinScore : Q;
  searchLimit : Z;
  (* persisted settings *)
  sync : Sync;
  (* elements *)
  addContent_display : string;        (* #contextdb-tab-content-add style.display *)
  searchContent_display : string      (* #contextdb-tab-content-search style.display *)
}.

Definition lift (f : Panel.State -> Panel.State) (s : State) : State :=
  {| panel := f (panel s); serverUrl := serverUrl s;
     searchMinScore := searchMinScore s; searchLimit := searchLimit s;
     sync := sync s; addContent_display := addContent_display s;
     searchContent_display := searchContent_display s |}.

Definition set_settings (url : string) (ms : Q) (lim : Z) (s : State) : State :=
  {| panel := panel s; serverUrl := url; searchMinScore := ms; searchLimit := lim;
     sync := sync s; addContent_display := addContent_display s;
     searchContent_display := searchContent_display s |}.

Definition set_sync (y : Sync) (s : State) : State :=
  {| panel := panel s; serverUrl := serverUrl s;
     searchMinScore := searchMinScore s; searchLimit := searchLimit s;
     sync := y; addContent_display := addContent_display s;
     searchContent_display := searchContent_display s |}.

Definition set_displays (add search : string) (s : State) : State :=
  {| panel := panel s; serverUrl := serverUrl s;
     searchMinScore := searchMinScore s; searchLimit := searchLimit s;
     sync := sync s; addContent_display := add;
     searchContent_display := search |}.

Definition set_loaded (enable : bool) (db : option string) (tab : Panel.Tab)
    (v : Panel.Vars) : Panel.Vars :=
  {| Panel.selectedText := Panel.selectedText v;
     Panel.sidePanel := Panel.sidePanel v;
     Panel.enableContextMenu := enable;
     Panel.selectedDatabase := db;
     Panel.isPanelOpen := Panel.isPanelOpen v;
     Panel.activePanelTab := tab;
     Panel.searchSelectedResults := Panel.searchSelectedResults v |}.

Definition set_activePanelTab (tab : Panel.Tab) (v : Panel.Vars) : Panel.Vars :=
  set_loaded (Panel.enableContextMenu v) (Panel.selectedDatabase v) tab v.

Definition set_searchDb_value (db : string) (d : Panel.SearchDom) : Panel.SearchDom :=
  Panel.set_searchForm (Panel.queryInput_value d) db (Panel.limitSelect_value d)
    (Panel.minScoreSelect_value d) d.

Definition set_sync_activePanelTab (tab : Panel.Tab) (y : Sync) : Sync :=
  {| sync_serverUrl := sync_serverUrl y;
     sync_enableContextMenu := sync_enableContextMenu y;
     sync_selectedDatabase := sync_selectedDatabase y;
     sync_activePanelTab := Some tab;
     sync_searchMinScore := sync_searchMinScore y;
     sync_searchLimit := sync_searchLimit y |}.

Definition set_sync_search (ms : option Q) (lim : option Z) (y : Sync) : Sync :=
  {| sync_serverUrl := sync_serverUrl y;
     sync_enableContextMenu := sync_enableContextMenu y;
     sync_selectedDatabase := sync_selectedDatabase y;
     sync_activePanelTab := sync_activePanelTab y;
     sync_searchMinScore := ms;
     sync_searchLimit := lim |}.

Definition DEFAULT_SERVER_URL : string := "http://127.0.0.1:8000".

(** [loadSettings] from the point where [chrome.storage.sync.get] has
    answered with [result]. *)
Definition loadSettings_resume (result : Sync) (s : State) : State :=
  let url :=
    match sync_serverUrl result with
    | Some u => if JS.truthy u then u else DEFAULT_SERVER_URL
    | None => DEFAULT_SERVER_URL
    end in
  let enable :=
    match sync_enableContextMenu result with
    | Some false => false
    | _ => true                              (* result.enableContextMenu !== false *)
    end in
  let tab :=
    match sync_activePanelTab result with
    | Some t => t
    | None => Panel.TabAdd                   (* result.activePanelTab || 'add' *)
    end in
  let ms :=
    match sync_searchMinScore result with
    | Some q => q
    | None => searchMinScore s
    end in
  let lim :=
    match sync_searchLimit result with
    | Some z => z
    | None => searchLimit s
    end in
  set_settings url ms lim
    (lift (Panel.upd_vars (set_loaded enable (sync_selectedDatabase result) tab)) s).

(** ** The dropdown of the search tab *)

(** The values of the options that [loadDatabasesForSearch] writes;
    [option_value n] is the value that the HTML parser gives to an option
    written as [<option value="${n}">]. *)
Section SearchDropdown.
Variable option_value : string -> string.

Definition search_options (dbs : list Database) : list string :=
  ("" :: Panel.ALL :: map (fun db => option_value (name db)) dbs)%list.

(** [loadDatabasesForSearch] up to its [await fetch]; [typing] says that the
    query input has the focus. *)
Definition loadDatabasesForSearch_begin (typing : bool) (s : Panel.State)
  : Panel.State * bool :=
  if typing then (s, false)
  else (Panel.log_fetch [GET_databases] s, true).

(** The rest of it.  Writing the options selects the first one (value
    [""]); assigning a value that no option has leaves none selected. *)
Definition loadDatabasesForSearch_resume (resp : Response (list Database))
    (s : Panel.State) : Panel.State :=
  match resp with
  | Ok (inl dbs) =>
      let v :=
        match Panel.selectedDatabase (Panel.vars s) with
        | Some d =>
            if JS.truthy d then
              if existsb (String.eqb d) (search_options dbs) then d else ""
            else ""
        | None => ""
        end in
      Panel.upd_sdom (set_searchDb_value v) s
  | _ => Panel.upd_sdom (set_searchDb_value "") s    (* 'Error loading databases' *)
  end.

(** An uninterrupted run. *)
Definition loadDatabasesForSearch (typing : bool) (o : Oracle) (s : Panel.State)
  : Panel.State :=
  match loadDatabasesForSearch_begin typing s with
  | (s1, true) => loadDatabasesForSearch_resume (list_databases o) s1
  | (s1, false) => s1
  end.

(** The listener of [chrome.runtime.onMessage] for [refreshDatabases]; [o1]
    and [o2] give the answers to the two requests. *)
Definition onMessage_refreshDatabases (typing : bool) (o1 o2 : Oracle)
    (s : Panel.State) : Panel.State :=
  if Panel.isPanelOpen (Panel.vars s) && Panel.sidePanel (Panel.vars s) then
    loadDatabasesForSearch typing o2 (Panel.loadDatabasesForPanel o1 s)
  else s.

End SearchDropdown.

(** ** Tabs *)

(** [switchPanelTab]; the markup of this panel has both tab containers.
    The reload of the dropdown that it starts is left suspended. *)
Definition switchPanelTab (tab : Panel.Tab) (typing : bool) (s : State) : State :=
  let s1 := lift (Panel.upd_vars (set_activePanelTab tab)) s in
  let s2 :=
    match tab with
    | Panel.TabAdd => set_displays "block" "none" s1
    | Panel.TabSearch =>
        lift (fun p => fst (loadDatabasesForSearch_begin typing p))
          (set_displays "none" "block" s1)
    end in
  set_sync (set_sync_activePanelTab tab (sync s2)) s2.

(** [select.value = String(v)] on the two selects of the search tab: when no
    option carries the value, none is selected and the value reads [""]. *)
Definition limit_option (z : Z) : option Z :=
  if existsb (Z.eqb z) [5; 10; 20]%Z then Some z else None.

Definition minScore_option (q : Q) : option Q :=
  if existsb (Qeq_bool q) [3 # 10; 5 # 10; 7 # 10] then Some q else None.

(** The [change] listeners of the two selects. *)
Definition limitSelect_change (v : option Z) (s : State) : State :=
  let lim := JS.int_or v 10 in
  let s1 := lift (Panel.upd_sdom (fun d =>
              Panel.set_searchForm (Panel.queryInput_value d) (Panel.searchDb_value d)
                v (Panel.minScoreSelect_value d) d)) s in
  set_sync (set_sync_search (sync_searchMinScore (sync s1)) (Some lim) (sync s1))
    (set_settings (serverUrl s1) (searchMinScore s1) lim s1).

Definition minScoreSelect_change (v : option Q) (s : State) : State :=
  let ms := JS.float_or v (3 # 10) in
  let s1 := lift (Panel.upd_sdom (fun d =>
              Panel.set_searchForm (Panel.queryInput_value d) (Panel.searchDb_value d)
                (Panel.limitSelect_value d) v d)) s in
  set_sync (set_sync_search (Some ms) (sync_searchLimit (sync s1)) (sync s1))
    (set_settings (serverUrl s1) ms (searchLimit s1) s1).

(** ** Loading the script *)

(** What [setupPanelEventListeners] does besides registering listeners; in
    a panel that was just created nothing has the focus. *)
Definition setupPanelEventListeners (s : State) : State :=
  let s1 := switchPanelTab (Panel.activePanelTab (Panel.vars (panel s))) false s in
  let s2 := lift (fun p => fst (loadDatabasesForSearch_begin false p)) s1 in
  lift (Panel.upd_sdom (fun d =>
          Panel.set_searchForm (Panel.queryInput_value d) (Panel.searchDb_value d)
            (limit_option (searchLimit s2)) (minScore_option (searchMinScore s2)) d))
       s2.

Definition createSidePanel (s : State) : State :=
  if Panel.sidePanel (Panel.vars (panel s)) then s
  else if negb (Panel.enableContextMenu (Panel.vars (panel s))) then s
  else setupPanelEventListeners (lift (Panel.upd_vars (Panel.set_sidePanel true)) s).

(** The state in which the script starts on a page whose persisted settings
    are [stored]: the variables as they are declared, no panel. *)
Definition start (stored : Sync) : State :=
  {| panel := Panel.upd_vars (Panel.set_sidePanel false) Panel.initial;
     serverUrl := DEFAULT_SERVER_URL;
     searchMinScore := 3 # 10;
     searchLimit := 10;
     sync := stored;
     addContent_display := "";
     searchContent_display := "" |}.

(** The body of the script's initial function: [loadSettings()] suspends at
    its [await], [setupEventListeners()] registers listeners,
    [createSidePanel()] runs. *)
Definition main (stored : Sync) : State := createSidePanel (start stored).

(** The page once [loadSettings] has resumed with [result]. *)
Definition page_loaded (stored result : Sync) : State :=
  loadSettings_resume result (main stored).

End PanelControls.

(* ================================================================== *)
(** * The background script: chrome_extension/background.js *)
(* ================================================================== *)

(** Calls to [chrome.storage] and to [chrome.action] are taken to succeed. *)
Module Background.

Inductive MenuId := CONTEXT_MENU_ID | SEARCH_MENU_ID.

(** [chrome.storage.local]: what is left for the popup to pick up. *)
Record Pending := {
  pendingText : option string;
  pendingUrl : option string;
  pendingTitle : option string;
  searchQuery : option string
}.

Definition no_pending : Pending :=
  {| pendingText := None; pendingUrl := None; pendingTitle := None;
     searchQuery := None |}.

(** The tab in which the context menu was used; [tab_hostname] is [new
    URL(tab.url).hostname], [None] when the constructor throws. *)
Record TabInfo := {
  tab_url : string;
  tab_title : string;
  tab_hostname : option string
}.

Record State := {
  (* chrome.storage.sync *)
  sync_serverUrl : option string;
  sync_enableContextMenu : option bool;
  sync_selectedDatabase : option string;
  (* chrome.storage.local *)
  local : Pending;
  (* the browser *)
  menus : list MenuId;                      (* chrome.contextMenus *)
  notifications : list (string * string);   (* showNotification(message, type), newest first *)
  popups_opened : nat;                      (* chrome.action.openPopup() *)
  fetched : list Request
}.

Definition set_sync (url : option string) (enable : option bool)
    (db : option string) (s : State) : State :=
  {| sync_serverUrl := url; sync_enableContextMenu := enable;
     sync_selectedDatabase := db; local := local s; menus := menus s;
     notifications := notifications s; popups_opened := popups_opened s;
     fetched := fetched s |}.

Definition set_local (p : Pending) (s : State) : State :=
  {| sync_serverUrl := sync_serverUrl s;
     sync_enableContextMenu := sync_enableContextMenu s;
     sync_selectedDatabase := sync_selectedDatabase s; local := p;
     menus := menus s; notifications := notifications s;
     popups_opened := popups_opened s; fetched := fetched s |}.

Definition set_menus (m : list MenuId) (s : State) : State :=
  {| sync_serverUrl := sync_serverUrl s;
     sync_enableContextMenu := sync_enableContextMenu s;
     sync_selectedDatabase := sync_selectedDatabase s; local := local s;
     menus := m; notifications := notifications s;
     popups_opened := popups_opened s; fetched := fetched s |}.

Definition showNotification (message type : string) (s : State) : State :=
  {| sync_serverUrl := sync_serverUrl s;
     sync_enableContextMenu := sync_enableContextMenu s;
     sync_selectedDatabase := sync_selectedDatabase s; local := local s;
     menus := menus s; notifications := (message, type) :: notifications s;
     popups_opened := popups_opened s; fetched := fetched s |}.

Definition openPopup (s : State) : State :=
  {| sync_serverUrl := sync_serverUrl s;
     sync_enableContextMenu := sync_enableContextMenu s;
     sync_selectedDatabase := sync_selectedDatabase s; local := local s;
     menus := menus s; notifications := notifications s;
     popups_opened := S (popups_opened s); fetched := fetched s |}.

Definition log_fetch (rs : list Request) (s : State) : State :=
  {| sync_serverUrl := sync_serverUrl s;
     sync_enableContextMenu := sync_enableContextMenu s;
     sync_selectedDatabase := sync_selectedDatabase s; local := local s;
     menus := menus s; notifications := notifications s;
     popups_opened := popups_opened s; fetched := (rev rs ++ fetched s)%list |}.

Definition setDefaultSettings (s : State) : State :=
  set_sync (Some "http://localhost:8000") (Some true) None s.

Definition menu_eqb (a b : MenuId) : bool :=
  match a, b with
  | CONTEXT_MENU_ID, CONTEXT_MENU_ID | SEARCH_MENU_ID, SEARCH_MENU_ID => true
  | _, _ => false
  end.

(** [chrome.contextMenus.create]: an item whose id exists is not created
    again. *)
Definition menus_create (id : MenuId) (m : list MenuId) : list MenuId :=
  if existsb (menu_eqb id) m then m else (m ++ [id])%list.

Definition createContextMenus (s : State) : State :=
  let s1 := set_menus [] s in                    (* removeAll() *)
  match sync_enableContextMenu s1 with
  | Some false => s1
  | _ =>
      set_menus (menus_create SEARCH_MENU_ID
                   (menus_create CONTEXT_MENU_ID (menus s1))) s1
  end.

(** [chrome.runtime.onInstalled]; [install] says that the reason is
    ['install']. *)
Definition onInstalled (install : bool) (s : State) : State :=
  createContextMenus (if install then setDefaultSettings s else s).

(** [addTextToDatabase]: it returns when the text was added and throws the
    error message otherwise. *)
Definition addTextToDatabase (o : Oracle) (text databaseName : string)
  : JS.M (S:=State) (E:=string) unit :=
  JS.exec (log_fetch [POST_add_text databaseName text]) ;;;
  match add_text o databaseName text with
  | Rejected m => JS.throw m
  | NotOk status json =>
      let detail :=
        match json with
        | Some (Some d) => d
        | _ => ""                              (* .catch(() => ({})): no detail *)
        end in
      JS.throw (if JS.truthy detail then detail
                else "Server error: " ++ JS.string_of_nat status)
  | Ok (inr m) => JS.throw m
  | Ok (inl _) => JS.ret tt
  end.

Definition SUCCESS_MESSAGE : string := "Text added to Context DB successfully!".
Definition ERROR_MESSAGE : string := "Error adding text to Context DB".

(** [handleAddToContextDB]; [selectionText] is [info.selectionText], which
    may be absent. *)
Definition handleAddToContextDB (selectionText : option string) (tab : TabInfo)
    (o : Oracle) (s : State) : State :=
  match selectionText with
  | None => s
  | Some raw =>
      let selectedText := JS.trim raw in
      if negb (JS.truthy selectedText) then s
      else
        let selectedDatabase :=
          match sync_selectedDatabase s with
          | Some d => d
          | None => ""
          end in
        if negb (JS.truthy selectedDatabase) then
          set_local {| pendingText := Some selectedText;
                       pendingUrl := Some (tab_url tab);
                       pendingTitle := Some (tab_title tab);
                       searchQuery := searchQuery (local s) |}
            (openPopup s)
        else
          fst (JS.try_catch
                 (match tab_hostname tab with
                  | None => JS.throw "TypeError: Invalid URL"
                  | Some _ => addTextToDatabase o selectedText selectedDatabase
                  end ;;;
                  JS.exec (showNotification SUCCESS_MESSAGE "success"))
                 (fun _ => JS.exec (showNotification ERROR_MESSAGE "error"))
                 s)
  end.

Definition handleSearchInContextDB (selectionText : option string) (s : State)
  : State :=
  match selectionText with
  | None => s
  | Some raw =>
      let searchText := JS.trim raw in
      if negb (JS.truthy searchText) then s
      else
        openPopup
          (set_local {| pendingText := pendingText (local s);
                        pendingUrl := pendingUrl (local s);
                        pendingTitle := pendingTitle (local s);
                        searchQuery := Some searchText |} s)
  end.

(** [chrome.contextMenus.onClicked] *)
Definition onClicked (menuItemId : MenuId) (selectionText : option string)
    (tab : TabInfo) (o : Oracle) (s : State) : State :=
  match menuItemId with
  | CONTEXT_MENU_ID => handleAddToContextDB selectionText tab o s
  | SEARCH_MENU_ID => handleSearchInContextDB selectionText s
  end.

(** The messages that [chrome.runtime.onMessage] understands. *)
Inductive Message :=
| EnableContextMenu
| DisableContextMenu
| GetPendingData
| AddTextToDatabase (text databaseName : string)
| OpenPopup.

(** What [sendResponse] is called with. *)
Inductive Reply :=
| NoReply
| PendingData (p : Pending)
| Success
| Failure (error : string).

Definition onMessage (request : Message) (o : Oracle) (s : State) : State * Reply :=
  match request with
  | EnableContextMenu => (createContextMenus s, NoReply)
  | DisableContextMenu => (set_menus [] s, NoReply)
  | GetPendingData => (set_local no_pending s, PendingData (local s))
  | AddTextToDatabase text databaseName =>
      match addTextToDatabase o text databaseName s with
      | (s1, inl _) => (showNotification SUCCESS_MESSAGE "success" s1, Success)
      | (s1, inr e) => (showNotification ERROR_MESSAGE "error" s1, Failure e)
      end
  | OpenPopup => (openPopup s, Success)
  end.

(** [chrome.storage.onChanged] for a change of [enableContextMenu] in the
    [sync] area. *)
Definition onChanged_enableContextMenu (s : State) : State := createContextMenus s.

End Background.

(* ================================================================== *)
(** * The popup with search: what it does with the pending data *)
(* ================================================================== *)

Module PopupInit.

(** What [chrome.runtime.sendMessage({ action: 'getPendingData' })] resolves
    with, given the background script's reply. *)
Definition response_of (r : Background.Reply) : option Background.Pending :=
  match r with
  | Background.PendingData p => Some p
  | _ => None
  end.

(** The end of the popup's [DOMContentLoaded] handler (unnamed/part_000):
    [response] is the answer to the [getPendingData] message, [None] when
    sending it fails.  The result says whether [performSearch] was scheduled. *)
Definition usePendingData (response : option Background.Pending) (s : Popup.State)
  : Popup.State * bool :=
  match response with
  | None => (s, false)
  | Some r =>
      match Background.searchQuery r with
      | None => (s, false)
      | Some q =>
          if negb (JS.truthy q) then (s, false)
          else
            let s1 := Popup.set_searchForm q (Popup.searchAllDbs_checked s)
                        (Popup.searchLimitSelect_value s) s in
            match Popup.selectedDatabase s1 with
            | Some d =>
                if JS.truthy d then
                  (Popup.set_searchDbSelect
                     (if JS.some (fun db => String.eqb (name db) d) (Popup.databases s1)
                      then d else "") s1,
                   true)
                else (s1, false)
            | None => (s1, false)
            end
      end
  end.

End PopupInit.

(* ================================================================== *)
(** * Vocabulary of the properties *)
(* ================================================================== *)

(** ** Ranking by descending key *)

Section Ranking.
Context {A : Type} (key : A -> Q).

(** [(a, b) => key b - key a] *)
Definition cmp_desc (a b : A) : Q := key b - key a.

(** [a] may stand before [b]. *)
Definition desc (a b : A) : Prop := key b <= key a.

(** [out] is [input] ranked by descending key with ties in their original
    order: the same elements, keys non-increasing, and for every key value
    the elements carrying it appear in the order they had in [input]. *)
Definition ranked (input out : list A) : Prop :=
  Permutation out input
  /\ StronglySorted desc out
  /\ forall k, filter (fun a => Qeq_bool (key a) k) out
               = filter (fun a => Qeq_bool (key a) k) input.

End Ranking.

(** ** Federated search *)

(** A request succeeded when it gave rows. *)
Definition succeeded {A : Type} (r : Response A) : bool :=
  match r with
  | Ok (inl _) => true
  | _ => false
  end.

Definition rows_of (r : Response (list SearchResult)) : list SearchResult :=
  match r with
  | Ok (inl rows) => rows
  | _ => []
  end.

(** The answers of a fan-out, one per source in enumeration order, each with
    its source id. *)
Definition Answers := list (string * Response (list SearchResult)).

(** Concatenation of the partial results of the sources that succeeded, each
    row tagged with its source id. *)
Definition survivors (answers : Answers) : list SearchResult :=
  concat (map (fun a => map (tag (fst a)) (rows_of (snd a)))
              (filter (fun a => succeeded (snd a)) answers)).

(** Number of sources whose request failed. *)
Definition failed_count (answers : Answers) : nat :=
  length (filter (fun a => negb (succeeded (snd a))) answers).

(** [out] is the merge of [answers] under [limit]: the survivors ranked by
    descending score, ties in first-seen order, cut to [limit] rows. *)
Definition merged (limit : Z) (answers : Answers) (out : list SearchResult) : Prop :=
  exists sorted,
    ranked score (survivors answers) sorted
    /\ out = firstn (Z.to_nat limit) sorted.

(** Row [r] was drawn from a source of [answers] that succeeded. *)
Definition from_succeeded (answers : Answers) (r : SearchResult) : Prop :=
  exists a r0,
    In a answers /\ succeeded (snd a) = true /\ In r0 (rows_of (snd a))
    /\ r = tag (fst a) r0.

(** The answers that the panel obtains for the databases [dbs]. *)
Definition panel_answers (o : Oracle) (job : Panel.SearchJob) (dbs : list Database)
  : Answers :=
  map (fun db =>
         (name db,
          search_text o (name db) (Panel.job_query job)
            (Panel.perDb (Panel.job_limit job) dbs) (Panel.job_minScore job)))
      dbs.

(** The answers that the popup obtains. *)
Definition popup_answers (o : Oracle) (job : Popup.SearchJob) : Answers :=
  map (fun db =>
         (name db,
          search_text o (name db) (Popup.job_query job)
            (Popup.perDbLimit (Popup.job_limit job) (Popup.job_databases job))
            Popup.MIN_SCORE))
      (Popup.job_databases job).

(** The rows that a resumed search leaves on display. *)
Definition displayed_rows (o : Oracle) (job : Panel.SearchJob) (s : Panel.State)
  : list SearchResult :=
  match Panel.searchResults o job s with
  | inl out => out
  | inr _ => []
  end.

(** The backend in which every search that fails answers with no rows
    instead. *)
Definition degrade (o : Oracle) : Oracle :=
  {| list_databases := list_databases o;
     create_database := create_database o;
     delete_database := delete_database o;
     add_text := add_text o;
     search_text := fun d q l m =>
       if succeeded (search_text o d q l m) then search_text o d q l m
       else Ok (inl []) |}.

(** The claim, read on the panel: some observation of what the search
    leaves (the state and its completion) gives the number of failed
    sources. *)
Definition panel_reports_failed_count : Prop :=
  exists report : Panel.State * (unit + string) -> nat,
    forall (o : Oracle) (job : Panel.SearchJob) (s : Panel.State)
           (dbs : list Database),
      String.eqb (Panel.job_selectedDb job) Panel.ALL = true ->
      list_databases o = Ok (inl dbs) ->
      report (Panel.performPanelSearch_resume o job s)
      = failed_count (panel_answers o job dbs).

(** ** Selection and composition *)

(** The result items that a selection refers to, in the order in which the
    selection holds its indices; an index without an item is skipped. *)
Definition selected_items (nodes : list Panel.Node) (sel : JS.NatSet)
  : list Panel.Node :=
  flat_map (fun i => match nth_error nodes i with
                     | Some nd => [nd]
                     | None => []
                     end) sel.

(** Entries numbered from [k] on. *)
Fixpoint numbered (k : nat) (items : list Panel.Node) : string :=
  match items with
  | [] => ""
  | nd :: rest => Panel.contextEntry k nd ++ numbered (S k) rest
  end.

(** The same for the popup, which looks an item up by its index attribute. *)
Definition popup_selected_items (nodes : list Popup.Node) (sel : JS.NatSet)
  : list Popup.Node :=
  flat_map (fun i =>
              match find (fun nd => (Popup.data_result_index nd =? i)%nat) nodes with
              | Some nd => [nd]
              | None => []
              end) sel.

Fixpoint popup_numbered (decodeHtml : string -> string) (k : nat)
    (items : list Popup.Node) : string :=
  match items with
  | [] => ""
  | nd :: rest =>
      Popup.contextEntry decodeHtml k nd ++ popup_numbered decodeHtml (S k) rest
  end.

(** The order that the claim describes: ascending index. *)
Definition ascending (sel : JS.NatSet) : JS.NatSet :=
  JS.sort (fun a b => inject_Z (Z.of_nat a) - inject_Z (Z.of_nat b)) sel.

(** The claim: composing visits the selected indices in ascending order,
    whatever the order in which they were selected. *)
Definition composes_in_rank_order : Prop :=
  forall (nodes : list Panel.Node) (sel : JS.NatSet),
    Panel.composeContext nodes sel = Panel.composeContext nodes (ascending sel).

(** What an event may change without touching the selection or the results. *)
Definition keeps_search_view (s s' : Panel.State) : Prop :=
  Panel.searchSelectedResults (Panel.vars s') = Panel.searchSelectedResults (Panel.vars s)
  /\ Panel.resultsDiv (Panel.sdom s') = Panel.resultsDiv (Panel.sdom s).

(** The items on display carry their positions as indices. *)
Definition well_indexed (nodes : list Panel.Node) : Prop :=
  map Panel.data_result_index nodes = seq 0 (length nodes).

(** The selection and the results agree: every selected index has an item,
    at most one search is in flight, and while one is in flight nothing is
    displayed or selected. *)
Definition search_consistent (w : Panel.World) : Prop :=
  Panel.selection_in_range (Panel.st w)
  /\ well_indexed (Panel.result_items (Panel.resultsDiv (Panel.sdom (Panel.st w))))
  /\ (length (Panel.searches w) <= 1)%nat
  /\ (Panel.searches w <> [] ->
      Panel.searchSelectedResults (Panel.vars (Panel.st w)) = []
      /\ Panel.result_items (Panel.resultsDiv (Panel.sdom (Panel.st w))) = []).

(** An event that keeps searches apart: a search is submitted only when none
    is in flight, and with a form that passes validation. *)
Definition orderly (e : Panel.Event) (w : Panel.World) : Prop :=
  match e with
  | Panel.SearchClick =>
      Panel.searches w = []
      /\ exists s job, Panel.performPanelSearch_begin (Panel.st w) = (s, Some job)
  | _ => True
  end.

(** A run of orderly events. *)
Fixpoint orderly_run (es : list Panel.Event) (w : Panel.World) : Prop :=
  match es with
  | [] => True
  | e :: rest => orderly e w /\ orderly_run rest (Panel.step e w)
  end.

(** ** Panel lifecycle *)

(** The save button's rule at rest: enabled when a database is chosen and
    there is text to save. *)
Definition save_enabled (s : Panel.State) : bool :=
  JS.truthy (Panel.dbSelect_value (Panel.dom s))
  && (JS.truthy (Panel.selectedText (Panel.vars s))
      && JS.truthy (JS.trim (Panel.selectedText (Panel.vars s)))).

Definition idle (s : Panel.State) : Prop :=
  Panel.busy s = false
  /\ Panel.panelBody_opacity (Panel.dom s) = "1"
  /\ Panel.saveBtn_textContent (Panel.dom s) = Panel.SAVE_LABEL
  /\ Panel.saveBtn_disabled (Panel.dom s) = negb (save_enabled s).

Definition legacy_idle (s : LegacyPanel.State) : Prop :=
  LegacyPanel.busy s = false
  /\ LegacyPanel.loadingDiv_display s = "none"
  /\ LegacyPanel.panelBody_opacity s = "1"
  /\ LegacyPanel.saveBtn_textContent s = LegacyPanel.SAVE_LABEL.

(** Closed and idle. *)
Definition at_rest (s : Panel.State) : Prop :=
  Panel.closed s = true /\ Panel.busy s = false.

(** Events by which work that was in flight completes. *)
Definition completion (e : Panel.Event) : bool :=
  match e with
  | Panel.SearchSettles _ _ | Panel.SaveSettles _ _ | Panel.TimeoutFires _ _ => true
  | _ => false
  end.

(** No loading indicator is left: the panel is not busy and the results
    area does not read "Searching...". *)
Definition no_loading_indicator (s : Panel.State) : Prop :=
  Panel.busy s = false
  /\ Panel.resultsDiv (Panel.sdom s) <> Panel.Html "Searching...".

(** What the elements of the panel hold. *)
Definition elements (s : Panel.State)
  : Panel.Dom * Panel.SearchDom * list (string * string) * list (string * string) :=
  (Panel.dom s, Panel.sdom s, Panel.notifications s, Panel.saveStatus s).

(** The claim: closing an open panel is a full reset, which leaves no
    loading indicator whatever is in flight, and work that completes
    afterwards writes to no element of the panel. *)
Definition close_is_a_full_reset : Prop :=
  forall (w : Panel.World) (es : list Panel.Event),
    Panel.sidePanel (Panel.vars (Panel.st w)) = true ->
    Panel.isPanelOpen (Panel.vars (Panel.st w)) = true ->
    forallb completion es = true ->
    Panel.closed (Panel.st (Panel.step Panel.CloseClick w)) = true
    /\ no_loading_indicator (Panel.st (Panel.step Panel.CloseClick w))
    /\ elements (Panel.st (Panel.run (Panel.CloseClick :: es) w))
       = elements (Panel.st (Panel.step Panel.CloseClick w)).

(* ================================================================== *)
(** * Concrete backends, jobs and runs *)
(* ================================================================== *)

Definition hit (t : string) (sc : Q) : SearchResult :=
  {| text := t; score := sc; metadata := []; database_name := None |}.

Definition db (n : string) (count : nat) : Database :=
  {| name := n; document_count := count |}.

Definition three_dbs : list Database := [db "A" 3; db "B" 7; db "C" 5].

(** A backend with databases A (3 hits), B (unreachable) and C (5 hits). *)
Definition backend_B_down : Oracle :=
  {| list_databases := Ok (inl three_dbs);
     create_database := fun _ => Ok (inl tt);
     delete_database := fun _ => Ok (inl tt);
     add_text := fun _ _ => Ok (inl tt);
     search_text := fun d _ _ _ =>
       if String.eqb d "A" then
         Ok (inl [hit "a1" (9 # 10); hit "a2" (5 # 10); hit "a3" (4 # 10)])
       else if String.eqb d "B" then Rejected "Failed to fetch"
       else
         Ok (inl [hit "c1" (9 # 10); hit "c2" (8 # 10); hit "c3" (5 # 10);
                  hit "c4" (45 # 100); hit "c5" (31 # 100)]) |}.

(** The same backend, except that B answers with no rows. *)
Definition backend_B_empty : Oracle :=
  {| list_databases := Ok (inl three_dbs);
     create_database := fun _ => Ok (inl tt);
     delete_database := fun _ => Ok (inl tt);
     add_text := fun _ _ => Ok (inl tt);
     search_text := fun d q l m =>
       if String.eqb d "B" then Ok (inl []) else search_text backend_B_down d q l m |}.

Definition job_all_5 : Panel.SearchJob :=
  {| Panel.job_query := "solar panels"; Panel.job_selectedDb := Panel.ALL;
     Panel.job_limit := 5; Panel.job_minScore := 3 # 10 |}.

(** A backend that ignores the limit and the order. *)
Definition backend_unordered : Oracle :=
  {| list_databases := Ok (inl three_dbs);
     create_database := fun _ => Ok (inl tt);
     delete_database := fun _ => Ok (inl tt);
     add_text := fun _ _ => Ok (inl tt);
     search_text := fun _ _ _ _ =>
       Ok (inl [hit "low" (4 # 10); hit "high" (9 # 10); hit "mid" (6 # 10)]) |}.

Definition job_single_2 : Panel.SearchJob :=
  {| Panel.job_query := "solar panels"; Panel.job_selectedDb := "A";
     Panel.job_limit := 2; Panel.job_minScore := 3 # 10 |}.

(** Three results on display: "high" (rank 0), "mid" (rank 1), "low" (rank 2). *)
Definition world_three_results : Panel.World :=
  Panel.run
    [Panel.TypeSearch "solar panels" "A" (Some 10%Z) (Some (3 # 10));
     Panel.SearchClick;
     Panel.SearchSettles 0 backend_unordered]
    Panel.initial_world.

(** The user ticks result 2, then result 0, then asks for the context. *)
Definition world_composed_2_then_0 : Panel.World :=
  Panel.run
    [Panel.CheckboxClick 2; Panel.CheckboxClick 0; Panel.CreateContextClick]
    world_three_results.

Definition node_of_rank (k : nat) (w : Panel.World) : Panel.Node :=
  nth k (Panel.result_items (Panel.resultsDiv (Panel.sdom (Panel.st w))))
      (Panel.renderNode false (hit "" 0) 0).

Definition backend_two_hits : Oracle :=
  {| list_databases := Ok (inl three_dbs);
     create_database := fun _ => Ok (inl tt);
     delete_database := fun _ => Ok (inl tt);
     add_text := fun _ _ => Ok (inl tt);
     search_text := fun _ _ _ _ =>
       Ok (inl [hit "w1" (7 # 10); hit "w2" (6 # 10)]) |}.

(** Two searches overlap: the second is submitted while the first is in
    flight; the first settles with 5 results, the user ticks result 4, and
    then the second settles with 2 results. *)
Definition overlapping_searches : list Panel.Event :=
  [Panel.TypeSearch "solar panels" Panel.ALL (Some 5%Z) (Some (3 # 10));
   Panel.SearchClick;
   Panel.TypeSearch "wind" "A" (Some 5%Z) (Some (3 # 10));
   Panel.SearchClick;
   Panel.SearchSettles 0 backend_B_down;
   Panel.CheckboxClick 4;
   Panel.SearchSettles 0 backend_two_hits].

(** A panel with text selected and database "notes" chosen. *)
Definition world_ready_to_save : Panel.World :=
  Panel.run
    [Panel.TextSelected "Photovoltaic cells convert light into electricity.";
     Panel.ChooseSaveDb "notes"]
    Panel.initial_world.

(** A save and a search are in flight when the panel is closed. *)
Definition world_busy : Panel.World :=
  Panel.run
    [Panel.SaveClick;
     Panel.TypeSearch "solar panels" Panel.ALL (Some 5%Z) (Some (3 # 10));
     Panel.SearchClick]
    world_ready_to_save.

Definition completions_after_close : list Panel.Event :=
  [Panel.SaveSettles 0 (Ok (inl tt));
   Panel.SearchSettles 0 backend_B_down;
   Panel.TimeoutFires 1 backend_B_down;
   Panel.TimeoutFires 0 backend_B_down].

(** The popup as it opens with the three databases loaded and C chosen as
    the default. *)
Definition popup_start : Popup.State :=
  {| Popup.selectedDatabase := Some "C";
     Popup.databases := three_dbs;
     Popup.selectedResults := [];
     Popup.storage_selectedDatabase := Some "C";
     Popup.newDbNameInput_value := "";
     Popup.createDbBtn_disabled := false;
     Popup.createDbBtn_textContent := "Create Database";
     Popup.databaseList := three_dbs;
     Popup.searchDbSelect_value := "C";
     Popup.searchQueryInput_value := "";
     Popup.searchAllDbs_checked := false;
     Popup.searchLimitSelect_value := Some 10%Z;
     Popup.searchBtn_disabled := false;
     Popup.searchBtn_textContent := "Search";
     Popup.searchResults := Popup.Html "";
     Popup.notifications := [];
     Popup.fetched := [] |}.

(** The backend once database X exists. *)
Definition backend_with_X : Oracle :=
  {| list_databases := Ok (inl (three_dbs ++ [db "X" 0])%list);
     create_database := fun _ => Ok (inl tt);
     delete_database := fun _ => Ok (inl tt);
     add_text := fun _ _ => Ok (inl tt);
     search_text := fun _ _ _ _ => Ok (inl []) |}.

(** ** The selection counter *)

(** The counter and the create button show the selection as it is. *)
Definition counter_in_sync (s : Panel.State) : Prop :=
  Panel.selectedCount (Panel.sdom s)
  = JS.string_of_nat (JS.set_size (Panel.searchSelectedResults (Panel.vars s)))
  /\ Panel.createBtn_disabled (Panel.sdom s)
     = (JS.set_size (Panel.searchSelectedResults (Panel.vars s)) =? 0)%nat.

(** What an event may change without touching the selection or its
    counter. *)
Definition keeps_selection_ui (s s' : Panel.State) : Prop :=
  Panel.searchSelectedResults (Panel.vars s') = Panel.searchSelectedResults (Panel.vars s)
  /\ Panel.selectedCount (Panel.sdom s') = Panel.selectedCount (Panel.sdom s)
  /\ Panel.createBtn_disabled (Panel.sdom s') = Panel.createBtn_disabled (Panel.sdom s).

(** ** More runs *)

(** Five results on display, from a search of all databases. *)
Definition world_five_results : Panel.World :=
  Panel.run
    [Panel.TypeSearch "solar panels" Panel.ALL (Some 5%Z) (Some (3 # 10));
     Panel.SearchClick;
     Panel.SearchSettles 0 backend_B_down]
    Panel.initial_world.

(** Two searches, the second submitted after the first has settled, with
    results ticked in between. *)
Definition searches_in_turn : list Panel.Event :=
  [Panel.TypeSearch "solar panels" Panel.ALL (Some 5%Z) (Some (3 # 10));
   Panel.SearchClick;
   Panel.SearchSettles 0 backend_B_down;
   Panel.CheckboxClick 4;
   Panel.SelectAllClick;
   Panel.TypeSearch "wind" "A" (Some 5%Z) (Some (3 # 10));
   Panel.SearchClick;
   Panel.SearchSettles 0 backend_two_hits;
   Panel.CheckboxClick 1].

(** ** More backends *)

(** A backend whose list of databases answers with an error status. *)
Definition backend_list_unavailable : Oracle :=
  {| list_databases := NotOk 503 None;
     create_database := fun _ => Ok (inl tt);
     delete_database := fun _ => Ok (inl tt);
     add_text := fun _ _ => Ok (inl tt);
     search_text := fun _ _ _ _ => Ok (inl [hit "w1" (7 # 10)]) |}.

(** A backend that answers every request with status 500 and a detail. *)
Definition backend_error_500 : Oracle :=
  {| list_databases := NotOk 500 (Some (Some "disk full"));
     create_database := fun _ => NotOk 500 (Some (Some "disk full"));
     delete_database := fun _ => NotOk 500 (Some (Some "disk full"));
     add_text := fun _ _ => NotOk 500 (Some (Some "disk full"));
     search_text := fun _ _ _ _ => NotOk 500 (Some (Some "disk full")) |}.

(** A backend that cannot be reached. *)
Definition backend_unreachable : Oracle :=
  {| list_databases := Rejected "Failed to fetch";
     create_database := fun _ => Rejected "Failed to fetch";
     delete_database := fun _ => Rejected "Failed to fetch";
     add_text := fun _ _ => Rejected "Failed to fetch";
     search_text := fun _ _ _ _ => Rejected "Failed to fetch" |}.

Definition popup_job_single : Popup.SearchJob :=
  {| Popup.job_query := "solar panels"; Popup.job_searchAll := false;
     Popup.job_dbName := "A"; Popup.job_limit := 10;
     Popup.job_databases := three_dbs |}.

(** ** Persisted settings *)

(** Settings of a user who turned the context menu off and left the panel
    on its search tab with 20 results at 50%. *)
Definition stored_search_tab : PanelControls.Sync :=
  {| PanelControls.sync_serverUrl := Some "http://localhost:9000";
     PanelControls.sync_enableContextMenu := Some false;
     PanelControls.sync_selectedDatabase := Some "C";
     PanelControls.sync_activePanelTab := Some Panel.TabSearch;
     PanelControls.sync_searchMinScore := Some (5 # 10);
     PanelControls.sync_searchLimit := Some 20%Z |}.

(** ** Using the popup *)

(** What the user does in the popup with search, once it is open. *)
Inductive PopupOp :=
| OpSelect (dbName : string)
| OpCreate (o : Oracle) (raw : string)
| OpDelete (confirmed : bool) (o : Oracle) (dbName : string)
| OpReload (o : Oracle)
| OpSearch (o : Oracle) (query : string) (all : bool) (lim : option Z)
| OpToggle (index : nat)
| OpSelectAll
| OpClearSelection.

Definition popup_step (op : PopupOp) (s : Popup.State) : Popup.State :=
  match op with
  | OpSelect dbName => Popup.selectDatabase dbName s
  | OpCreate o raw => Popup.createDatabase o (Popup.set_newDbNameInput raw s)
  | OpDelete confirmed o dbName => Popup.deleteDatabase confirmed o dbName s
  | OpReload o => Popup.loadDatabases o s
  | OpSearch o query all lim =>
      Popup.performSearch o (Popup.set_searchForm query all lim s)
  | OpToggle index => Popup.toggleResultSelection index s
  | OpSelectAll => Popup.selectAllResults s
  | OpClearSelection => Popup.clearSelection s
  end.

Definition popup_run (ops : list PopupOp) (s : Popup.State) : Popup.State :=
  fold_left (fun s op => popup_step op s) ops s.

(** The default database in memory is the persisted one. *)
Definition default_in_sync (s : Popup.State) : Prop :=
  Popup.selectedDatabase s = Popup.storage_selectedDatabase s.

(** A session in the popup: the default database is deleted, another one is
    chosen, a database is created, a search fails. *)
Definition popup_session : list PopupOp :=
  [OpDelete true backend_B_down "C";
   OpSelect "A";
   OpCreate backend_with_X " X ";
   OpSearch backend_unreachable "solar panels" false (Some 10%Z);
   OpToggle 0;
   OpDelete true backend_error_500 "A"].

(** The popup that only manages databases, as it opens with the three
    databases loaded. *)
Definition popupV2_start : PopupV2.State :=
  {| PopupV2.databases := three_dbs;
     PopupV2.newDbNameInput_value := "";
     PopupV2.createDbBtn_disabled := false;
     PopupV2.createDbBtn_textContent := "Create Database";
     PopupV2.databaseList := three_dbs;
     PopupV2.notifications := [];
     PopupV2.fetched := [];
     PopupV2.tab_messages := [] |}.

(** ** The context menu *)

(** The default database as [handleAddToContextDB] reads it. *)
Definition default_database (s : Background.State) : string :=
  match Background.sync_selectedDatabase s with
  | Some d => d
  | None => ""
  end.

(** The background script before anything is stored. *)
Definition background_start : Background.State :=
  {| Background.sync_serverUrl := None;
     Background.sync_enableContextMenu := None;
     Background.sync_selectedDatabase := None;
     Background.local := Background.no_pending;
     Background.menus := [];
     Background.notifications := [];
     Background.popups_opened := 0;
     Background.fetched := [] |}.

Definition tab_article : Background.TabInfo :=
  {| Background.tab_url := "https://example.org/solar";
     Background.tab_title := "Solar power";
     Background.tab_hostname := Some "example.org" |}.



(* ================================================================== *)
(** * Properties *)
(* ================================================================== *)

(** ** The stable sort by descending score *)

Section RankingFacts.
Context {A : Type} (key : A -> Q).

Lemma cmp_desc_le (x y : A) :
  Qle_bool (cmp_desc key x y) 0 = true <-> key y <= key x.
Proof.
  unfold cmp_desc. rewrite Qle_bool_iff. split; intro H; lra.
Qed.

Lemma sort_insert_perm (x : A) (l : list A) :
  Permutation (JS.sort_insert (cmp_desc key) x l) (x :: l).
Proof.
  induction l as [|y ys IH]; simpl.
  - apply Permutation_refl.
  - destruct (Qle_bool (cmp_desc key x y) 0).
    + apply Permutation_refl.
    + eapply perm_trans; [apply perm_skip, IH | apply perm_swap].
Qed.

Lemma sort_perm (l : list A) : Permutation (JS.sort (cmp_desc key) l) l.
Proof.
  induction l as [|x xs IH]; simpl.
  - constructor.
  - eapply perm_trans; [apply sort_insert_perm | apply perm_skip, IH].
Qed.

Lemma sort_insert_sorted (x : A) (l : list A) :
  StronglySorted (desc key) l ->
  StronglySorted (desc key) (JS.sort_insert (cmp_desc key) x l).
Proof.
  induction 1 as [|y ys Hs IH Hall]; simpl.
  - repeat constructor.
  - destruct (Qle_bool (cmp_desc key x y) 0) eqn:E.
    + apply cmp_desc_le in E.
      constructor; [constructor; assumption|].
      constructor; [exact E|].
      eapply Forall_impl; [|exact Hall].
      unfold desc; intros z Hz; lra.
    + assert (Hlt : key x < key y).
      { destruct (Qlt_le_dec (key x) (key y)) as [L|L]; [exact L|].
        apply cmp_desc_le in L. congruence. }
      constructor; [exact IH|].
      eapply Permutation_Forall.
      * apply Permutation_sym, sort_insert_perm.
      * constructor; [unfold desc; lra | exact Hall].
Qed.

Lemma sort_sorted (l : list A) :
  StronglySorted (desc key) (JS.sort (cmp_desc key) l).
Proof.
  induction l as [|x xs IH]; simpl.
  - constructor.
  - apply sort_insert_sorted, IH.
Qed.

Lemma sort_insert_stable (k : Q) (x : A) (l : list A) :
  filter (fun a => Qeq_bool (key a) k) (JS.sort_insert (cmp_desc key) x l)
  = filter (fun a => Qeq_bool (key a) k) (x :: l).
Proof.
  induction l as [|y ys IH]; simpl.
  - reflexivity.
  - destruct (Qle_bool (cmp_desc key x y) 0) eqn:E; [reflexivity|].
    simpl. rewrite IH. simpl.
    destruct (Qeq_bool (key x) k) eqn:Ex, (Qeq_bool (key y) k) eqn:Ey;
      try reflexivity.
    exfalso.
    apply Qeq_bool_iff in Ex, Ey.
    assert (L : key y <= key x) by (rewrite Ex, Ey; apply Qle_refl).
    apply cmp_desc_le in L. congruence.
Qed.

Lemma sort_stable (k : Q) (l : list A) :
  filter (fun a => Qeq_bool (key a) k) (JS.sort (cmp_desc key) l)
  = filter (fun a => Qeq_bool (key a) k) l.
Proof.
  induction l as [|x xs IH]; simpl.
  - reflexivity.
  - rewrite sort_insert_stable. simpl. rewrite IH. reflexivity.
Qed.

Lemma sort_ranked (l : list A) : ranked key l (JS.sort (cmp_desc key) l).
Proof.
  split; [apply sort_perm | split; [apply sort_sorted | intro k; apply sort_stable]].
Qed.

(** Ranking is determined by its specification: whatever stable sorting
    algorithm the engine runs, it produces this list. *)
Lemma sorted_stable_unique (l1 l2 : list A) :
  StronglySorted (desc key) l1 -> StronglySorted (desc key) l2 ->
  (forall k, filter (fun a => Qeq_bool (key a) k) l1
             = filter (fun a => Qeq_bool (key a) k) l2) ->
  l1 = l2.
Proof.
  intros S1; revert l2.
  induction S1 as [|a l1 S1 IH F1]; intros l2 S2 H.
  - destruct l2 as [|b l2]; [reflexivity|].
    specialize (H (key b)). simpl in H.
    rewrite Qeq_bool_refl in H. discriminate.
  - destruct l2 as [|b l2].
    { specialize (H (key a)). simpl in H.
      rewrite Qeq_bool_refl in H. discriminate. }
    inversion S2 as [|b' l2' S2' F2]; subst.
    assert (Hab : key a <= key b).
    { assert (I : In a (filter (fun x => Qeq_bool (key x) (key a)) (b :: l2))).
      { rewrite <- H. simpl. rewrite Qeq_bool_refl. left; reflexivity. }
      apply filter_In in I. destruct I as [[->|I] _]; [apply Qle_refl|].
      rewrite Forall_forall in F2. apply F2, I. }
    assert (Hba : key b <= key a).
    { assert (I : In b (filter (fun x => Qeq_bool (key x) (key b)) (a :: l1))).
      { rewrite H. simpl. rewrite Qeq_bool_refl. left; reflexivity. }
      apply filter_In in I. destruct I as [[->|I] _]; [apply Qle_refl|].
      rewrite Forall_forall in F1. apply F1, I. }
    assert (E : a = b).
    { specialize (H (key a)). simpl in H.
      rewrite Qeq_bool_refl in H.
      assert (Eb : Qeq_bool (key b) (key a) = true)
        by (apply Qeq_bool_iff, Qle_antisym; assumption).
      rewrite Eb in H. congruence. }
    subst b. f_equal.
    apply IH; [assumption|].
    intro k. specialize (H k). simpl in H.
    destruct (Qeq_bool (key a) k); congruence.
Qed.

Lemma ranked_unique (input out : list A) :
  ranked key input out -> out = JS.sort (cmp_desc key) input.
Proof.
  intros (_ & S & F).
  apply sorted_stable_unique; [assumption | apply sort_sorted |].
  intro k. rewrite F, sort_stable. reflexivity.
Qed.

End RankingFacts.

(** ** Federated search: what the claim calls the merge *)

Lemma slice0_nonneg {A : Type} (n : Z) (l : list A) :
  (0 <= n)%Z -> JS.slice0 n l = firstn (Z.to_nat n) l.
Proof.
  intro H. unfold JS.slice0.
  destruct (n <? 0)%Z eqn:E; [apply Z.ltb_lt in E; lia | reflexivity].
Qed.

Lemma in_firstn {A : Type} (n : nat) (l : list A) (x : A) :
  In x (firstn n l) -> In x l.
Proof.
  revert l. induction n as [|n IH]; intros [|y l]; simpl; try tauto.
  intros [->|H]; [left; reflexivity | right; apply IH, H].
Qed.

Lemma survivors_cons (a : string * Response (list SearchResult)) (rest : Answers) :
  survivors (a :: rest)
  = (map (tag (fst a)) (rows_of (snd a)) ++ survivors rest)%list.
Proof.
  unfold survivors.
  destruct a as [n [m|[rows|m]|st d]]; reflexivity.
Qed.

Lemma survivors_from_succeeded (answers : Answers) (r : SearchResult) :
  In r (survivors answers) -> from_succeeded answers r.
Proof.
  unfold survivors. intro H.
  apply in_concat in H. destruct H as (l & Hl & Hr).
  apply in_map_iff in Hl. destruct Hl as (a & <- & Ha).
  apply filter_In in Ha. destruct Ha as [Ha Hs].
  apply in_map_iff in Hr. destruct Hr as (r0 & <- & Hr0).
  exists a, r0. auto.
Qed.

Lemma merged_from_succeeded (limit : Z) (answers : Answers) (out : list SearchResult) :
  merged limit answers out -> forall r, In r out -> from_succeeded answers r.
Proof.
  intros (sorted & (P & _ & _) & ->) r Hr.
  apply survivors_from_succeeded.
  eapply Permutation_in; [exact P|].
  eapply in_firstn; eauto.
Qed.

Lemma merged_sorted (limit : Z) (answers : Answers) (out : list SearchResult) :
  merged limit answers out -> StronglySorted (desc score) out.
Proof.
  intros (sorted & (_ & S & _) & ->).
  revert S. generalize (Z.to_nat limit) as n. intros n S; revert n.
  induction S as [|a l S IH F]; intros [|n]; simpl; try constructor.
  - apply IH.
  - rewrite Forall_forall in *. intros x Hx. apply F.
    eapply in_firstn; eauto.
Qed.

Lemma merged_length (limit : Z) (answers : Answers) (out : list SearchResult) :
  merged limit answers out ->
  length out = Nat.min (Z.to_nat limit) (length (survivors answers)).
Proof.
  intros (sorted & (P & _ & _) & ->).
  rewrite length_firstn. apply Permutation_length in P. rewrite P. reflexivity.
Qed.

Lemma sortAndLimit_merged (limit : Z) (answers : Answers) :
  (0 <= limit)%Z ->
  merged limit answers (Panel.sortAndLimit limit (survivors answers)).
Proof.
  intro H. exists (JS.sort (cmp_desc score) (survivors answers)). split.
  - apply sort_ranked.
  - unfold Panel.sortAndLimit. rewrite slice0_nonneg by exact H. reflexivity.
Qed.

(** The merge is a function of the answers: the description leaves no
    freedom in the order of the rows. *)
Lemma merged_unique (limit : Z) (answers : Answers) (out out' : list SearchResult) :
  merged limit answers out -> merged limit answers out' -> out = out'.
Proof.
  intros (s1 & R1 & ->) (s2 & R2 & ->).
  rewrite (ranked_unique R1), (ranked_unique R2). reflexivity.
Qed.

Lemma panel_flat_survivors (o : Oracle) (job : Panel.SearchJob) (limit : Z)
    (dbs : list Database) :
  JS.flat (map (Panel.searchOneDb o job limit) dbs)
  = survivors
      (map (fun db =>
              (name db,
               search_text o (name db) (Panel.job_query job) limit
                 (Panel.job_minScore job))) dbs).
Proof.
  unfold JS.flat.
  induction dbs as [|db dbs IH]; [reflexivity|].
  simpl map. rewrite survivors_cons. simpl concat. rewrite IH. f_equal.
  unfold Panel.searchOneDb. simpl.
  destruct (search_text o (name db) (Panel.job_query job) limit
              (Panel.job_minScore job)) as [m|[rows|m]|st d]; reflexivity.
Qed.

Lemma popup_flat_survivors (o : Oracle) (job : Popup.SearchJob) (dbs : list Database) :
  JS.flat (map (Popup.searchOneDb o job) dbs)
  = survivors
      (map (fun db =>
              (name db,
               search_text o (name db) (Popup.job_query job)
                 (Popup.perDbLimit (Popup.job_limit job) (Popup.job_databases job))
                 Popup.MIN_SCORE)) dbs).
Proof.
  unfold JS.flat.
  induction dbs as [|db dbs IH]; [reflexivity|].
  simpl map. rewrite survivors_cons. simpl concat. rewrite IH. f_equal.
  unfold Popup.searchOneDb. simpl.
  destruct (search_text o (name db) (Popup.job_query job)
              (Popup.perDbLimit (Popup.job_limit job) (Popup.job_databases job))
              Popup.MIN_SCORE) as [m|[rows|m]|st d]; reflexivity.
Qed.

(** The panel's all-databases branch, when the list of databases arrives. *)
Lemma panel_fetchAllResults_all (o : Oracle) (job : Panel.SearchJob)
    (s : Panel.State) (dbs : list Database) :
  String.eqb (Panel.job_selectedDb job) Panel.ALL = true ->
  list_databases o = Ok (inl dbs) ->
  Panel.fetchAllResults o job s
  = (Panel.log_fetch
       (map (fun db =>
               Panel.searchRequest job (Panel.perDb (Panel.job_limit job) dbs) (name db))
            dbs) s,
     inl (survivors (panel_answers o job dbs))).
Proof.
  intros HA HL. unfold Panel.fetchAllResults. rewrite HA, HL.
  unfold JS.bind, JS.ret, JS.exec. simpl.
  rewrite panel_flat_survivors. reflexivity.
Qed.

Lemma panel_searchResults_all (o : Oracle) (job : Panel.SearchJob)
    (s : Panel.State) (dbs : list Database) :
  String.eqb (Panel.job_selectedDb job) Panel.ALL = true ->
  list_databases o = Ok (inl dbs) ->
  Panel.searchResults o job s
  = inl (Panel.sortAndLimit (Panel.job_limit job) (survivors (panel_answers o job dbs))).
Proof.
  intros HA HL. unfold Panel.searchResults.
  rewrite (panel_fetchAllResults_all _ _ _ HA HL). reflexivity.
Qed.

(** What the panel shows once the search has resumed. *)
Lemma panel_resume_renders (o : Oracle) (job : Panel.SearchJob) (s : Panel.State) :
  Panel.resultsDiv (Panel.sdom (fst (Panel.performPanelSearch_resume o job s)))
  = match Panel.searchResults o job s with
    | inl [] => Panel.Html "No results."
    | inl out =>
        Panel.Items
          (mapi (Panel.renderNode (String.eqb (Panel.job_selectedDb job) Panel.ALL)) out)
    | inr _ => Panel.Html "Search failed. Please try again."
    end.
Proof.
  unfold Panel.performPanelSearch_resume, Panel.searchResults, JS.try_catch,
    JS.try_catch_finally, Panel.search_try, JS.bind.
  destruct (Panel.fetchAllResults o job s) as [s1 [rows|e]]; simpl.
  - destruct (Panel.sortAndLimit (Panel.job_limit job) rows); reflexivity.
  - reflexivity.
Qed.

Lemma popup_searchResultsOf_all (o : Oracle) (job : Popup.SearchJob) (s : Popup.State) :
  Popup.job_searchAll job = true ->
  Popup.searchResultsOf o job s
  = inl (Panel.sortAndLimit (Popup.job_limit job) (survivors (popup_answers o job))).
Proof.
  intro HA. unfold Popup.searchResultsOf, Popup.fetchResults. rewrite HA.
  unfold JS.ret. rewrite popup_flat_survivors. reflexivity.
Qed.

(** The scenario of three sources of which the second fails. *)
Lemma scenario_three_sources (limit : Z) (nA nB nC : string)
    (rB : Response (list SearchResult)) (a1 a2 a3 c1 c2 c3 c4 c5 : SearchResult)
    (out : list SearchResult) :
  limit = 5%Z ->
  succeeded rB = false ->
  merged limit
    [(nA, Ok (inl [a1; a2; a3])); (nB, rB); (nC, Ok (inl [c1; c2; c3; c4; c5]))] out ->
  length out = 5%nat
  /\ forall r, In r out -> database_name r = Some nA \/ database_name r = Some nC.
Proof.
  intros -> HB M.
  assert (Hs : survivors
                 [(nA, Ok (inl [a1; a2; a3])); (nB, rB);
                  (nC, Ok (inl [c1; c2; c3; c4; c5]))]
               = (map (tag nA) [a1; a2; a3]
                  ++ map (tag nC) [c1; c2; c3; c4; c5])%list).
  { unfold survivors. simpl. rewrite HB. simpl. reflexivity. }
  split.
  - rewrite (merged_length M), Hs. reflexivity.
  - intros r Hr.
    destruct M as (sorted & (P & _ & _) & ->).
    apply in_firstn in Hr.
    apply (Permutation_in _ P) in Hr. rewrite Hs in Hr.
    apply in_app_or in Hr. destruct Hr as [Hr|Hr];
      apply in_map_iff in Hr; destruct Hr as (r0 & <- & _); simpl; auto.
Qed.

(** C1.  Searching all databases: when the list of databases arrives, the
    search hands to the renderer (and the panel then shows) exactly the
    merge of the per-database answers: the rows of the databases whose
    request succeeded, each tagged with its database, ranked by descending
    score with ties in first-seen order, cut to [limit] rows.  Every row
    shown was drawn from a database that succeeded.  With databases A (3
    rows), B (failed) and C (5 rows) and a limit of 5, exactly 5 rows are
    shown, all tagged A or C.  The popup's search of all databases merges
    its answers in the same way. *)
Theorem all_scope_search_merges_survivors
    (o : Oracle) (job : Panel.SearchJob) (s : Panel.State) (dbs : list Database) :
  String.eqb (Panel.job_selectedDb job) Panel.ALL = true ->
  list_databases o = Ok (inl dbs) ->
  (0 < Panel.job_limit job)%Z ->
  (exists out,
      Panel.searchResults o job s = inl out
      /\ Panel.resultsDiv (Panel.sdom (fst (Panel.performPanelSearch_resume o job s)))
         = match out with
           | [] => Panel.Html "No results."
           | _ => Panel.Items (mapi (Panel.renderNode true) out)
           end
      /\ merged (Panel.job_limit job) (panel_answers o job dbs) out
      /\ forall r, In r out -> from_succeeded (panel_answers o job dbs) r)
  /\ (forall A B C rB a1 a2 a3 c1 c2 c3 c4 c5,
        dbs = [A; B; C] ->
        Panel.job_limit job = 5%Z ->
        panel_answers o job dbs
        = [(name A, Ok (inl [a1; a2; a3])); (name B, rB);
           (name C, Ok (inl [c1; c2; c3; c4; c5]))] ->
        succeeded rB = false ->
        exists out,
          Panel.searchResults o job s = inl out
          /\ length out = 5%nat
          /\ forall r, In r out ->
               database_name r = Some (name A) \/ database_name r = Some (name C))
  /\ (forall (po : Oracle) (pjob : Popup.SearchJob) (ps : Popup.State),
        Popup.job_searchAll pjob = true ->
        (0 < Popup.job_limit pjob)%Z ->
        exists out,
          Popup.searchResultsOf po pjob ps = inl out
          /\ merged (Popup.job_limit pjob) (popup_answers po pjob) out
          /\ forall r, In r out -> from_succeeded (popup_answers po pjob) r).
Proof.
  intros HA HL Hlim.
  pose proof (panel_searchResults_all o job s HA HL) as HR.
  assert (HM : merged (Panel.job_limit job) (panel_answers o job dbs)
                 (Panel.sortAndLimit (Panel.job_limit job)
                    (survivors (panel_answers o job dbs))))
    by (apply sortAndLimit_merged; lia).
  split; [|split].
  - eexists. split; [exact HR|]. split; [|split].
    + rewrite panel_resume_renders, HR, HA.
      destruct (Panel.sortAndLimit _ _); reflexivity.
    + exact HM.
    + apply (merged_from_succeeded HM).
  - intros A B C rB a1 a2 a3 c1 c2 c3 c4 c5 Hdbs H5 Hans HB.
    rewrite Hans in HR, HM.
    eexists. split; [exact HR|].
    apply (scenario_three_sources H5 HB HM).
  - intros po pjob ps HPA HPlim.
    eexists. split; [apply popup_searchResultsOf_all, HPA|].
    assert (HPM : merged (Popup.job_limit pjob) (popup_answers po pjob)
                    (Panel.sortAndLimit (Popup.job_limit pjob)
                       (survivors (popup_answers po pjob))))
      by (apply sortAndLimit_merged; lia).
    split; [exact HPM | apply (merged_from_succeeded HPM)].
Qed.

Lemma all_scope_search_merges_survivors_witness :
  String.eqb (Panel.job_selectedDb job_all_5) Panel.ALL = true
  /\ list_databases backend_B_down = Ok (inl three_dbs)
  /\ (0 < Panel.job_limit job_all_5)%Z
  /\ exists out,
       Panel.searchResults backend_B_down job_all_5 Panel.initial = inl out
       /\ merged 5 (panel_answers backend_B_down job_all_5 three_dbs) out
       /\ length out = 5%nat.
Proof.
  split; [reflexivity|]. split; [reflexivity|]. split; [reflexivity|].
  destruct (all_scope_search_merges_survivors backend_B_down job_all_5
              Panel.initial (dbs:=three_dbs) eq_refl eq_refl eq_refl)
    as [(out & Hout & _ & HM & _) _].
  exists out. split; [exact Hout|]. split; [exact HM|].
  rewrite (merged_length HM). reflexivity.
Defined.

(** The ranking of that run, row by row: ties (0.9, 0.5) keep the order
    A before C. *)
Example all_scope_search_example :
  Panel.searchResults backend_B_down job_all_5 Panel.initial
  = inl [tag "A" (hit "a1" (9 # 10)); tag "C" (hit "c1" (9 # 10));
         tag "C" (hit "c2" (8 # 10)); tag "A" (hit "a2" (5 # 10));
         tag "C" (hit "c3" (5 # 10))].
Proof. reflexivity. Qed.

(** ** The limit sent to each database *)

(** [JS.ceil_div p q] is the ceiling of [p / q]: the least integer [c] with
    [p <= c * q]. *)
Lemma ceil_div_spec (p q : Z) :
  (0 < q)%Z ->
  (p <= JS.ceil_div p q * q /\ (JS.ceil_div p q - 1) * q < p)%Z.
Proof.
  intro Hq. unfold JS.ceil_div.
  set (x := inject_Z p / inject_Z q).
  assert (Hq' : 0 < inject_Z q).
  { rewrite Zlt_Qlt in Hq. exact Hq. }
  assert (Hx : x * inject_Z q == inject_Z p).
  { unfold x. field. intro E. rewrite E in Hq'. discriminate. }
  split.
  - rewrite Zle_Qle, inject_Z_mult, <- Hx.
    apply Qmult_le_compat_r; [apply Qle_ceiling | apply Qlt_le_weak, Hq'].
  - rewrite Zlt_Qlt, inject_Z_mult, <- Hx.
    apply Qmult_lt_compat_r; [exact Hq' | apply Qceiling_lt].
Qed.

Lemma ceil_div_unique (p q c : Z) :
  (0 < q)%Z -> (p <= c * q)%Z -> ((c - 1) * q < p)%Z -> JS.ceil_div p q = c.
Proof.
  intros Hq H1 H2.
  destruct (ceil_div_spec p Hq) as [H3 H4].
  nia.
Qed.




(** The popup computes its per-database limit differently:
    [ceil(limit / sourceCount) + 2], with no floor of 5. *)
Lemma popup_per_source_limit (limit : Z) (dbs : list Database) :
  (1 <= length dbs)%nat ->
  exists c : Z,
    (limit <= c * Z.of_nat (length dbs)
     /\ (c - 1) * Z.of_nat (length dbs) < limit)%Z
    /\ Popup.perDbLimit limit dbs = (c + 2)%Z.
Proof.
  intro Hn. exists (JS.ceil_div limit (Z.of_nat (length dbs))).
  split; [apply ceil_div_spec; lia | reflexivity].
Qed.

(** ** A search of one database *)




Lemma panel_resume_items (o : Oracle) (job : Panel.SearchJob) (s : Panel.State) :
  Panel.result_items
    (Panel.resultsDiv (Panel.sdom (fst (Panel.performPanelSearch_resume o job s))))
  = mapi (Panel.renderNode (String.eqb (Panel.job_selectedDb job) Panel.ALL))
         (displayed_rows o job s).
Proof.
  rewrite panel_resume_renders. unfold displayed_rows.
  destruct (Panel.searchResults o job s) as [[|r out]|e]; reflexivity.
Qed.




(** The popup hands the rows of a single database to the renderer as the
    backend sent them: there the bound and the order are the backend's. *)
Lemma popup_single_source_relays_rows (o : Oracle) (job : Popup.SearchJob)
    (s : Popup.State) (rows : list SearchResult) :
  Popup.job_searchAll job = false ->
  search_text o (Popup.job_dbName job) (Popup.job_query job) (Popup.job_limit job)
    Popup.MIN_SCORE = Ok (inl rows) ->
  Popup.searchResultsOf o job s = inl rows.
Proof.
  intros HA HR. unfold Popup.searchResultsOf, Popup.fetchResults.
  rewrite HA, HR. reflexivity.
Qed.

(** ** Failed sources *)

Lemma panel_searchOneDb_degrade (o : Oracle) (job : Panel.SearchJob) (limit : Z)
    (d : Database) :
  Panel.searchOneDb (degrade o) job limit d = Panel.searchOneDb o job limit d.
Proof.
  unfold Panel.searchOneDb, degrade. simpl.
  destruct (search_text o (name d) (Panel.job_query job) limit
              (Panel.job_minScore job)) as [m|[rows|m]|st dt]; reflexivity.
Qed.

Lemma popup_searchOneDb_degrade (o : Oracle) (job : Popup.SearchJob) (d : Database) :
  Popup.searchOneDb (degrade o) job d = Popup.searchOneDb o job d.
Proof.
  unfold Popup.searchOneDb, degrade. simpl.
  destruct (search_text o (name d) (Popup.job_query job)
              (Popup.perDbLimit (Popup.job_limit job) (Popup.job_databases job))
              Popup.MIN_SCORE) as [m|[rows|m]|st dt]; reflexivity.
Qed.

Lemma map_ext_all {A B : Type} (f g : A -> B) (l : list A) :
  (forall x, f x = g x) -> map f l = map g l.
Proof.
  intro H. induction l as [|x l IH]; simpl; [reflexivity|].
  rewrite H, IH. reflexivity.
Qed.

(** C3, as the code has it.  Searching all databases, a database whose
    request fails counts for an empty partial result and nothing else: the
    state and the completion of the search are those of the run in which
    that database had answered with no rows.  No count of failures is kept
    or shown. *)
Theorem failed_source_is_an_empty_source
    (o : Oracle) (job : Panel.SearchJob) (s : Panel.State) :
  String.eqb (Panel.job_selectedDb job) Panel.ALL = true ->
  Panel.performPanelSearch_resume o job s
  = Panel.performPanelSearch_resume (degrade o) job s.
Proof.
  intro HA.
  unfold Panel.performPanelSearch_resume, JS.try_catch, JS.try_catch_finally,
    Panel.search_try, JS.bind.
  assert (E : Panel.fetchAllResults (degrade o) job s = Panel.fetchAllResults o job s).
  { unfold Panel.fetchAllResults. rewrite HA.
    change (list_databases (degrade o)) with (list_databases o).
    unfold JS.bind.
    destruct (list_databases o) as [m|[dbs|m]|st dt]; simpl; try reflexivity.
    rewrite (map_ext_all _ _ dbs
               (panel_searchOneDb_degrade o job (Panel.perDb (Panel.job_limit job) dbs))).
    reflexivity. }
  rewrite E. reflexivity.
Qed.

Lemma failed_source_is_an_empty_source_witness :
  String.eqb (Panel.job_selectedDb job_all_5) Panel.ALL = true
  /\ succeeded (search_text backend_B_down "B" "solar panels" 5 (3 # 10)) = false
  /\ Panel.performPanelSearch_resume backend_B_down job_all_5 Panel.initial
     = Panel.performPanelSearch_resume (degrade backend_B_down) job_all_5 Panel.initial.
Proof.
  split; [reflexivity|]. split; [reflexivity|].
  exact (failed_source_is_an_empty_source backend_B_down job_all_5 Panel.initial eq_refl).
Defined.

(** The popup's search of all databases treats a failed database the same
    way. *)
Lemma popup_failed_source_is_an_empty_source
    (o : Oracle) (job : Popup.SearchJob) (s : Popup.State) :
  Popup.job_searchAll job = true ->
  Popup.performSearch_resume o job s
  = Popup.performSearch_resume (degrade o) job s.
Proof.
  intro HA.
  unfold Popup.performSearch_resume, JS.try_catch_finally, JS.bind.
  assert (E : Popup.fetchResults (degrade o) job s = Popup.fetchResults o job s).
  { unfold Popup.fetchResults. rewrite HA.
    rewrite (map_ext_all _ _ (Popup.job_databases job)
               (popup_searchOneDb_degrade o job)).
    reflexivity. }
  rewrite E. reflexivity.
Qed.

(** C3, as the claim states it, fails: with B unreachable and with B
    answering no rows the number of failed sources differs, yet the search
    ends in the same state with the same completion, so no observation of
    the outcome gives the number. *)
Lemma failure_count_is_not_reported :
  failed_count (panel_answers backend_B_down job_all_5 three_dbs) = 1%nat
  /\ failed_count (panel_answers backend_B_empty job_all_5 three_dbs) = 0%nat
  /\ Panel.performPanelSearch_resume backend_B_down job_all_5 Panel.initial
     = Panel.performPanelSearch_resume backend_B_empty job_all_5 Panel.initial
  /\ ~ panel_reports_failed_count.
Proof.
  assert (E : Panel.performPanelSearch_resume backend_B_down job_all_5 Panel.initial
              = Panel.performPanelSearch_resume backend_B_empty job_all_5 Panel.initial)
    by reflexivity.
  split; [reflexivity|]. split; [reflexivity|]. split; [exact E|].
  intros (report & H).
  pose proof (H backend_B_down job_all_5 Panel.initial three_dbs eq_refl eq_refl) as H1.
  pose proof (H backend_B_empty job_all_5 Panel.initial three_dbs eq_refl eq_refl) as H0.
  rewrite E in H1. rewrite H0 in H1. discriminate H1.
Qed.

(** ** Composing the context text *)

Lemma string_append_assoc (a b c : string) : ((a ++ b) ++ c = a ++ (b ++ c))%string.
Proof.
  induction a as [|ch a IH]; simpl; [reflexivity | rewrite IH; reflexivity].
Qed.

Lemma string_append_nil_r (a : string) : (a ++ "")%string = a.
Proof.
  induction a as [|ch a IH]; simpl; [reflexivity | rewrite IH; reflexivity].
Qed.

Lemma context_fold (nodes : list Panel.Node) (sel : JS.NatSet) (k : nat) (acc : string) :
  fold_left (Panel.context_step nodes) sel (k, acc)
  = ((k + length (selected_items nodes sel))%nat,
     (acc ++ numbered k (selected_items nodes sel))%string).
Proof.
  revert k acc. induction sel as [|i sel IH]; intros k acc; simpl.
  - rewrite Nat.add_0_r, string_append_nil_r. reflexivity.
  - unfold Panel.context_step at 2. unfold selected_items in *.
    destruct (nth_error nodes i) as [nd|]; simpl.
    + rewrite IH, string_append_assoc. f_equal. lia.
    + apply IH.
Qed.

Lemma popup_context_fold (decodeHtml : string -> string) (nodes : list Popup.Node)
    (sel : JS.NatSet) (k : nat) (acc : string) :
  fold_left (Popup.context_step decodeHtml nodes) sel (k, acc)
  = ((k + length (popup_selected_items nodes sel))%nat,
     (acc ++ popup_numbered decodeHtml k (popup_selected_items nodes sel))%string).
Proof.
  revert k acc. induction sel as [|i sel IH]; intros k acc; simpl.
  - rewrite Nat.add_0_r, string_append_nil_r. reflexivity.
  - unfold Popup.context_step at 2. unfold popup_selected_items in *.
    destruct (find (fun nd => (Popup.data_result_index nd =? i)%nat) nodes)
      as [nd|]; simpl.
    + rewrite IH, string_append_assoc. f_equal. lia.
    + apply IH.
Qed.

Lemma set_add_new (i : nat) (sel : JS.NatSet) :
  JS.set_has i sel = false -> JS.set_add i sel = (sel ++ [i])%list.
Proof. intro H. unfold JS.set_add. rewrite H. reflexivity. Qed.

Lemma set_add_old (i : nat) (sel : JS.NatSet) :
  JS.set_has i sel = true -> JS.set_add i sel = sel.
Proof. intro H. unfold JS.set_add. rewrite H. reflexivity. Qed.

Lemma set_has_In (i : nat) (sel : JS.NatSet) : JS.set_has i sel = true <-> In i sel.
Proof.
  unfold JS.set_has. rewrite existsb_exists. split.
  - intros (j & Hj & E). apply Nat.eqb_eq in E. subst. exact Hj.
  - intro H. exists i. split; [exact H | apply Nat.eqb_refl].
Qed.

Lemma fold_set_add_seq (n start : nat) (acc : JS.NatSet) :
  (forall j, In j acc -> (j < start)%nat) ->
  fold_left (fun a i => JS.set_add i a) (seq start n) acc = (acc ++ seq start n)%list.
Proof.
  revert start acc. induction n as [|n IH]; intros start acc H; simpl.
  - rewrite app_nil_r. reflexivity.
  - rewrite set_add_new.
    + rewrite IH.
      * rewrite <- app_assoc. reflexivity.
      * intros j Hj. apply in_app_or in Hj. destruct Hj as [Hj|[<-|[]]].
        -- apply H in Hj. lia.
        -- lia.
    + destruct (JS.set_has start acc) eqn:E; [|reflexivity].
      apply set_has_In, H in E. lia.
Qed.

Lemma mapi_from_index {A : Type} (f : A -> nat -> Panel.Node) (l : list A) (start : nat) :
  (forall x i, Panel.data_result_index (f x i) = i) ->
  map Panel.data_result_index (mapi_from start f l) = seq start (length l).
Proof.
  intro H. revert start. induction l as [|x l IH]; intro start; simpl.
  - reflexivity.
  - rewrite H, IH. reflexivity.
Qed.

Lemma fold_left_map {A B C : Type} (f : C -> B -> C) (g : A -> B) (l : list A) (c : C) :
  fold_left (fun acc x => f acc (g x)) l c = fold_left f (map g l) c.
Proof.
  revert c. induction l as [|x l IH]; intro c; simpl; [reflexivity | apply IH].
Qed.

(** C2, as the code has it.  The context text is the fixed header followed by
    one entry per selected index that has a result item, numbered from 1,
    in the order in which the selection holds its indices; so is the
    popup's, between its introduction and its closing line.  The selection
    is a set in insertion order: an index that is newly selected goes to
    the end.  After "select all" on rendered results the indices are
    [0 .. n-1] in ascending order. *)
Theorem compose_follows_selection_order :
  (forall (nodes : list Panel.Node) (sel : JS.NatSet),
      Panel.composeContext nodes sel
      = (Panel.CONTEXT_HEADER ++ numbered 1 (selected_items nodes sel))%string)
  /\ (forall (decodeHtml : string -> string) (nodes : list Popup.Node)
             (sel : JS.NatSet),
        Popup.composeContext decodeHtml nodes sel
        = ((Popup.CONTEXT_INTRO
            ++ popup_numbered decodeHtml 1 (popup_selected_items nodes sel))
           ++ Popup.CONTEXT_FOOTER)%string)
  /\ (forall (i : nat) (sel : JS.NatSet),
        JS.set_has i sel = false -> JS.set_add i sel = (sel ++ [i])%list)
  /\ (forall (results : list SearchResult) (all : bool) (s : Panel.State),
        results <> [] ->
        Panel.searchSelectedResults
          (Panel.vars (Panel.select_all_click
                         (Panel.renderPanelSearchResults results all s)))
        = seq 0 (length results)).
Proof.
  split; [|split; [|split]].
  - intros nodes sel. unfold Panel.composeContext, JS.set_forEach.
    rewrite context_fold. reflexivity.
  - intros decodeHtml nodes sel. unfold Popup.composeContext, JS.set_forEach.
    rewrite popup_context_fold. reflexivity.
  - apply set_add_new.
  - intros results all s Hne.
    destruct results as [|r results]; [contradiction|].
    unfold Panel.select_all_click, Panel.renderPanelSearchResults.
    cbn [Panel.sdom Panel.upd_sdom Panel.resultsDiv Panel.set_actions_shown
         Panel.set_resultsDiv Panel.result_items Panel.vars Panel.upd_vars
         Panel.updateSearchSelectionUI Panel.searchSelectedResults
         Panel.set_searchSelectedResults].
    rewrite (fold_left_map (fun a i => JS.set_add i a) Panel.data_result_index).
    unfold mapi. rewrite mapi_from_index by reflexivity.
    apply (@fold_set_add_seq (length (r :: results)) 0%nat []).
    intros j [].
Qed.

(** C2, as the claim states it, fails: with results 2 and 0 selected in that
    order on three results, the entry of rank 2 ("low") is "Context 1" and
    the entry of rank 0 ("high") comes after it. *)
Lemma compose_lists_rank_2_before_rank_0 :
  length (Panel.result_items
            (Panel.resultsDiv (Panel.sdom (Panel.st world_three_results)))) = 3%nat
  /\ Panel.searchSelectedResults (Panel.vars (Panel.st world_composed_2_then_0))
     = [2%nat; 0%nat]
  /\ Panel.data_full_text (node_of_rank 0 world_three_results) = "high"
  /\ Panel.data_full_text (node_of_rank 2 world_three_results) = "low"
  /\ Panel.contextText_value (Panel.sdom (Panel.st world_composed_2_then_0))
     = (Panel.CONTEXT_HEADER
        ++ Panel.contextEntry 1 (node_of_rank 2 world_three_results)
        ++ Panel.contextEntry 2 (node_of_rank 0 world_three_results))%string
  /\ Panel.contextText_value (Panel.sdom (Panel.st world_composed_2_then_0))
     <> Panel.composeContext
          (Panel.result_items
             (Panel.resultsDiv (Panel.sdom (Panel.st world_three_results))))
          (ascending [2%nat; 0%nat])
  /\ ~ composes_in_rank_order.
Proof.
  assert (N : Panel.contextText_value (Panel.sdom (Panel.st world_composed_2_then_0))
              <> Panel.composeContext
                   (Panel.result_items
                      (Panel.resultsDiv (Panel.sdom (Panel.st world_three_results))))
                   (ascending [2%nat; 0%nat])).
  { apply String.eqb_neq. vm_compute. reflexivity. }
  repeat split; try (vm_compute; reflexivity); try exact N.
  intro H. apply N.
  rewrite <- (H _ [2%nat; 0%nat]). vm_compute. reflexivity.
Qed.

(** ** The selection across searches *)

(** A search that passes validation empties the selection before it
    suspends. *)
Lemma search_begin_clears_selection (s s1 : Panel.State) (job : Panel.SearchJob) :
  Panel.performPanelSearch_begin s = (s1, Some job) ->
  Panel.searchSelectedResults (Panel.vars s1) = []
  /\ Panel.result_items (Panel.resultsDiv (Panel.sdom s1)) = [].
Proof.
  unfold Panel.performPanelSearch_begin.
  destruct (negb (JS.truthy (JS.trim (Panel.queryInput_value (Panel.sdom s)))));
    [discriminate|].
  destruct (negb (JS.truthy (Panel.searchDb_value (Panel.sdom s))));
    [discriminate|].
  intro H. inversion H; subst. split; reflexivity.
Qed.

(** Resuming a search writes the results and leaves the selection as it
    finds it. *)
Lemma search_resume_keeps_selection (o : Oracle) (job : Panel.SearchJob)
    (s : Panel.State) :
  Panel.searchSelectedResults
    (Panel.vars (fst (Panel.performPanelSearch_resume o job s)))
  = Panel.searchSelectedResults (Panel.vars s).
Proof.
  unfold Panel.performPanelSearch_resume, JS.try_catch, JS.try_catch_finally,
    Panel.search_try, JS.bind.
  assert (V : Panel.vars (fst (Panel.fetchAllResults o job s)) = Panel.vars s).
  { unfold Panel.fetchAllResults, JS.bind.
    destruct (String.eqb (Panel.job_selectedDb job) Panel.ALL).
    - destruct (list_databases o) as [m|[dbs|m]|st dt]; reflexivity.
    - destruct (search_text o (Panel.job_selectedDb job) (Panel.job_query job)
                  (Panel.job_limit job) (Panel.job_minScore job))
        as [m|[rows|m]|st dt]; reflexivity. }
  destruct (Panel.fetchAllResults o job s) as [s1 [rows|e]]; simpl in *.
  - destruct (Panel.sortAndLimit (Panel.job_limit job) rows); simpl; rewrite V;
      reflexivity.
  - rewrite V. reflexivity.
Qed.

(** A search that runs from start to end with no other handler in between
    exposes its results with an empty selection. *)
Lemma uninterrupted_search_exposes_empty_selection (o : Oracle) (s s1 : Panel.State)
    (job : Panel.SearchJob) :
  Panel.performPanelSearch_begin s = (s1, Some job) ->
  Panel.searchSelectedResults (Panel.vars (Panel.performPanelSearch o s)) = []
  /\ Panel.selection_in_range (Panel.performPanelSearch o s).
Proof.
  intro H. unfold Panel.performPanelSearch, Panel.selection_in_range. rewrite H.
  rewrite search_resume_keeps_selection.
  destruct (search_begin_clears_selection _ H) as [-> _].
  split; [reflexivity | constructor].
Qed.

(** The popup empties the selection when it renders results. *)
Lemma popup_render_clears_selection (results : list SearchResult) (all : bool)
    (s : Popup.State) :
  results <> [] ->
  Popup.selectedResults (Popup.renderSearchResults results all s) = [].
Proof.
  intro H. destruct results; [contradiction | reflexivity].
Qed.

(** C5 at the failing run.  Each of the two searches emptied the selection
    when it started, yet after the second one has replaced the results the
    selection still holds index 4 while 2 results are on display; composing
    then reports one result and produces the bare header. *)
Lemma selection_survives_overlapping_search :
  let w := Panel.run overlapping_searches Panel.initial_world in
  Panel.searchSelectedResults (Panel.vars (Panel.st w)) = [4%nat]
  /\ length (Panel.result_items (Panel.resultsDiv (Panel.sdom (Panel.st w)))) = 2%nat
  /\ ~ Panel.selection_in_range (Panel.st w)
  /\ Panel.selectedCount (Panel.sdom (Panel.st w)) = "1"
  /\ Panel.contextText_value
       (Panel.sdom (Panel.st (Panel.step Panel.CreateContextClick w)))
     = Panel.CONTEXT_HEADER
  /\ hd_error (Panel.notifications (Panel.st (Panel.step Panel.CreateContextClick w)))
     = Some ("Context created from 1 results", "success").
Proof.
  cbv zeta.
  assert (S : Panel.searchSelectedResults
                (Panel.vars (Panel.st (Panel.run overlapping_searches Panel.initial_world)))
              = [4%nat]) by (vm_compute; reflexivity).
  assert (L : length (Panel.result_items
                (Panel.resultsDiv (Panel.sdom (Panel.st
                   (Panel.run overlapping_searches Panel.initial_world))))) = 2%nat)
    by (vm_compute; reflexivity).
  split; [exact S|]. split; [exact L|]. split.
  - unfold Panel.selection_in_range. rewrite S, L. intro F.
    inversion F as [|i l Hi Hl]; subst. lia.
  - repeat split; vm_compute; reflexivity.
Qed.

(** *** Where searches do not overlap, the selection stays within the results *)

Ltac split_ifs :=
  repeat match goal with
         | |- context [if ?b then _ else _] => destruct b
         end.

Lemma forceHide_keeps_search_view (s : Panel.State) :
  keeps_search_view s (Panel.forceHideLoadingState s).
Proof.
  unfold keeps_search_view, Panel.forceHideLoadingState.
  split_ifs; split; reflexivity.
Qed.

Lemma notification_keeps_search_view (m t : string) (s : Panel.State) :
  keeps_search_view s (Panel.showPanelNotification m t s).
Proof.
  unfold keeps_search_view, Panel.showPanelNotification, Panel.forceHideLoadingState.
  split_ifs; split; reflexivity.
Qed.

Lemma saveStatus_keeps_search_view (m t : string) (s : Panel.State) :
  keeps_search_view s (Panel.showSaveStatus m t s).
Proof.
  unfold keeps_search_view, Panel.showSaveStatus.
  split_ifs; split; reflexivity.
Qed.

Lemma keeps_search_view_trans (s1 s2 s3 : Panel.State) :
  keeps_search_view s1 s2 -> keeps_search_view s2 s3 -> keeps_search_view s1 s3.
Proof.
  unfold keeps_search_view. intros [A B] [C D]. split; congruence.
Qed.

Lemma keeps_search_view_refl (s : Panel.State) : keeps_search_view s s.
Proof. split; reflexivity. Qed.

Lemma save_begin_keeps_search_view (s : Panel.State) :
  keeps_search_view s (fst (Panel.saveTextToDatabase_begin s)).
Proof.
  unfold Panel.saveTextToDatabase_begin.
  split_ifs; simpl; try apply notification_keeps_search_view.
  split; reflexivity.
Qed.

Lemma save_resume_keeps_search_view (resp : Response unit) (job : Panel.SaveJob)
    (s : Panel.State) :
  keeps_search_view s (fst (Panel.saveTextToDatabase_resume resp job s)).
Proof.
  assert (F : forall s1, keeps_search_view s1 (fst (Panel.save_finally s1)))
    by (intro s1; split; reflexivity).
  assert (C : forall e s1, keeps_search_view s1 (fst (Panel.save_catch e s1))).
  { intros e s1. unfold Panel.save_catch, JS.bind, JS.exec. simpl.
    eapply keeps_search_view_trans;
      [apply notification_keeps_search_view | apply saveStatus_keeps_search_view]. }
  assert (T : keeps_search_view s (fst (Panel.save_try resp job s))).
  { unfold Panel.save_try.
    destruct resp as [m|[u|m]|st dt]; try apply keeps_search_view_refl.
    unfold JS.bind, JS.exec. simpl.
    eapply keeps_search_view_trans; [apply notification_keeps_search_view|].
    eapply keeps_search_view_trans; [apply saveStatus_keeps_search_view|].
    split; reflexivity. }
  unfold Panel.saveTextToDatabase_resume, JS.try_catch_finally.
  destruct (Panel.save_try resp job s) as [s1 [u|e]]; simpl in T.
  - specialize (F s1). destruct (Panel.save_finally s1) as [s3 [u3|e3]]; simpl in *;
      eapply keeps_search_view_trans; eauto.
  - specialize (C e s1). destruct (Panel.save_catch e s1) as [s2 r2]; simpl in C.
    specialize (F s2). destruct (Panel.save_finally s2) as [s3 [u3|e3]]; simpl in *;
      eapply keeps_search_view_trans; eauto using keeps_search_view_trans.
Qed.

Lemma text_selection_keeps_search_view (sel : string) (s : Panel.State) :
  keeps_search_view s (fst (Panel.handleTextSelection sel s)).
Proof.
  unfold Panel.handleTextSelection, Panel.showSidePanel, Panel.createSidePanel,
    Panel.updatePanelWithSelectedText, Panel.clearSelectedText, JS.bind, JS.exec,
    JS.ret.
  destruct (JS.truthy (JS.trim sel) && (3 <? JS.length (JS.trim sel))%nat);
    [|destruct (negb (JS.truthy (JS.trim sel)))]; simpl;
    split_ifs; simpl; split_ifs; split; reflexivity.
Qed.

Lemma timeout_keeps_search_view (o : Oracle) (t : Panel.Timeout)
    (ts : list Panel.Timeout) (s : Panel.State) :
  keeps_search_view s (Panel.run_timeout o t (Panel.set_timeouts ts s)).
Proof.
  destruct t; simpl.
  - unfold Panel.clearSelectedText. simpl. split_ifs; split; reflexivity.
  - unfold Panel.loadDatabasesForPanel.
    destruct (list_databases o) as [m|[dbs|m]|st dt]; split; reflexivity.
Qed.

Lemma set_checked_index (i : nat) (c : bool) (nodes : list Panel.Node) :
  map Panel.data_result_index (Panel.set_checked i c nodes)
  = map Panel.data_result_index nodes.
Proof.
  induction nodes as [|nd nodes IH]; simpl; [reflexivity|].
  rewrite IH. destruct (Panel.data_result_index nd =? i)%nat; reflexivity.
Qed.

Lemma check_all_index (c : bool) (nodes : list Panel.Node) :
  map Panel.data_result_index (Panel.check_all c nodes)
  = map Panel.data_result_index nodes.
Proof.
  unfold Panel.check_all. rewrite map_map. reflexivity.
Qed.

Lemma well_indexed_same_indices (nodes nodes' : list Panel.Node) :
  map Panel.data_result_index nodes' = map Panel.data_result_index nodes ->
  well_indexed nodes -> well_indexed nodes'.
Proof.
  unfold well_indexed. intros E W.
  assert (L : length nodes' = length nodes).
  { rewrite <- (length_map Panel.data_result_index nodes'), E, length_map.
    reflexivity. }
  rewrite E, L. exact W.
Qed.

Lemma well_indexed_nth (nodes : list Panel.Node) (i : nat) (nd : Panel.Node) :
  well_indexed nodes -> nth_error nodes i = Some nd ->
  Panel.data_result_index nd = i /\ (i < length nodes)%nat.
Proof.
  unfold well_indexed. intros W H.
  assert (L : (i < length nodes)%nat) by (apply nth_error_Some; congruence).
  split; [|exact L].
  assert (E : nth_error (map Panel.data_result_index nodes) i
              = Some (Panel.data_result_index nd))
    by (rewrite nth_error_map, H; reflexivity).
  rewrite W, nth_error_seq in E.
  destruct (i <? length nodes)%nat eqn:B; [|discriminate E].
  simpl in E. congruence.
Qed.

Lemma well_indexed_rendered (all : bool) (rows : list SearchResult) :
  well_indexed (mapi (Panel.renderNode all) rows).
Proof.
  unfold well_indexed, mapi.
  rewrite mapi_from_index by reflexivity.
  f_equal. clear. generalize 0%nat.
  induction rows as [|r rows IH]; intro k; simpl; [reflexivity|].
  f_equal. apply IH.
Qed.

Lemma set_delete_subset (i j : nat) (sel : JS.NatSet) :
  In j (JS.set_delete i sel) -> In j sel.
Proof. unfold JS.set_delete. intro H. apply filter_In in H. tauto. Qed.

Lemma set_add_members (i j : nat) (sel : JS.NatSet) :
  In j (JS.set_add i sel) -> j = i \/ In j sel.
Proof.
  unfold JS.set_add. destruct (JS.set_has i sel); [tauto|].
  intro H. apply in_app_or in H. destruct H as [H|[H|[]]]; auto.
Qed.

Lemma select_all_members (nodes : list Panel.Node) (acc : JS.NatSet) (j : nat) :
  In j (fold_left (fun a nd => JS.set_add (Panel.data_result_index nd) a) nodes acc) ->
  In j acc \/ In j (map Panel.data_result_index nodes).
Proof.
  revert acc. induction nodes as [|nd nodes IH]; intros acc H; simpl in *.
  - left. exact H.
  - apply IH in H. destruct H as [H|H]; [|right; right; exact H].
    apply set_add_members in H. destruct H as [->|H]; [right; left; reflexivity|].
    left. exact H.
Qed.

Lemma consistent_same_view (w : Panel.World) (s' : Panel.State)
    (sv : list Panel.SaveJob) :
  search_consistent w ->
  keeps_search_view (Panel.st w) s' ->
  search_consistent {| Panel.st := s'; Panel.searches := Panel.searches w;
                       Panel.saves := sv |}.
Proof.
  unfold search_consistent, keeps_search_view, Panel.selection_in_range.
  intros (R & W & L & P) [ES ER]. simpl. rewrite ES, ER. auto.
Qed.

Lemma consistent_cleared (w : Panel.World) (s' : Panel.State)
    (jobs : list Panel.SearchJob) :
  (length jobs <= 1)%nat ->
  Panel.searchSelectedResults (Panel.vars s') = [] ->
  well_indexed (Panel.result_items (Panel.resultsDiv (Panel.sdom s'))) ->
  (jobs <> [] -> Panel.result_items (Panel.resultsDiv (Panel.sdom s')) = []) ->
  search_consistent {| Panel.st := s'; Panel.searches := jobs;
                       Panel.saves := Panel.saves w |}.
Proof.
  intros L S W E. unfold search_consistent, Panel.selection_in_range. simpl.
  rewrite S. repeat split; auto.
Qed.

Lemma selection_ui_keeps_search_view (s : Panel.State) :
  keeps_search_view s (Panel.updateSearchSelectionUI s).
Proof. split; reflexivity. Qed.

Lemma checkbox_change_consistent (i : nat) (w : Panel.World) :
  search_consistent w ->
  search_consistent (Panel.with_st (Panel.checkbox_change i (Panel.st w)) w).
Proof.
  intros (R & W & L & P).
  unfold Panel.checkbox_change, Panel.with_st.
  destruct (nth_error (Panel.result_items
                         (Panel.resultsDiv (Panel.sdom (Panel.st w)))) i)
    as [nd|] eqn:N.
  - destruct (well_indexed_nth _ W N) as [Ei Li].
    assert (Hs : Panel.searches w = []).
    { destruct (Panel.searches w) as [|j js] eqn:Sj; [reflexivity|].
      destruct P as [_ PI]; [discriminate|].
      rewrite PI in N. destruct i; discriminate N. }
    unfold search_consistent, Panel.selection_in_range in *. simpl.
    rewrite Hs. simpl.
    split; [|split; [|split; [lia | intro C; contradiction]]].
    + rewrite Forall_forall in *. intros j Hj.
      assert (Hlen : length (Panel.set_checked (Panel.data_result_index nd)
                               (negb (Panel.checked nd))
                               (Panel.result_items
                                  (Panel.resultsDiv (Panel.sdom (Panel.st w)))))
                     = length (Panel.result_items
                                 (Panel.resultsDiv (Panel.sdom (Panel.st w))))).
      { rewrite <- (length_map Panel.data_result_index), set_checked_index,
          length_map. reflexivity. }
      rewrite Hlen.
      destruct (negb (Panel.checked nd)).
      * apply set_add_members in Hj. destruct Hj as [->|Hj]; [lia | apply R, Hj].
      * apply set_delete_subset in Hj. apply R, Hj.
    + eapply well_indexed_same_indices; [apply set_checked_index | exact W].
  - unfold search_consistent. simpl. auto.
Qed.

Lemma select_all_consistent (w : Panel.World) :
  search_consistent w ->
  search_consistent (Panel.with_st (Panel.select_all_click (Panel.st w)) w).
Proof.
  intros (R & W & L & P).
  unfold Panel.select_all_click, Panel.with_st, search_consistent,
    Panel.selection_in_range.
  destruct (Panel.resultsDiv (Panel.sdom (Panel.st w))) as [m|nodes] eqn:Rv;
    simpl; rewrite ?Rv; simpl.
  - repeat split; auto; constructor.
  - assert (Hl : length (Panel.check_all true nodes) = length nodes)
      by (unfold Panel.check_all; apply length_map).
    split; [|split; [|split]].
    + rewrite Forall_forall. intros j Hj. rewrite Hl.
      apply select_all_members in Hj. destruct Hj as [[]|Hj].
      unfold well_indexed in W. simpl in W. rewrite W in Hj.
      apply in_seq in Hj. lia.
    + eapply well_indexed_same_indices; [apply check_all_index | exact W].
    + exact L.
    + intro C. destruct (P C) as [_ PI]. simpl in PI. subst nodes. auto.
Qed.

Lemma clear_selection_consistent (w : Panel.World) :
  search_consistent w ->
  search_consistent (Panel.with_st (Panel.clear_selection_click (Panel.st w)) w).
Proof.
  intros (R & W & L & P).
  unfold Panel.clear_selection_click, Panel.with_st, search_consistent,
    Panel.selection_in_range.
  destruct (Panel.resultsDiv (Panel.sdom (Panel.st w))) as [m|nodes] eqn:Rv;
    simpl; rewrite ?Rv; simpl.
  - repeat split; auto; constructor.
  - split; [constructor|]. split; [|split].
    + eapply well_indexed_same_indices; [apply check_all_index | exact W].
    + exact L.
    + intro C. destruct (P C) as [_ PI]. simpl in PI. subst nodes. auto.
Qed.

Lemma remove_nth_single {A : Type} (k : nat) (l : list A) (x : A) :
  (length l <= 1)%nat -> nth_error l k = Some x -> Panel.remove_nth k l = [].
Proof.
  destruct l as [|y [|z l]]; simpl; intros L H.
  - destruct k; discriminate H.
  - destruct k as [|k]; [reflexivity | destruct k; discriminate H].
  - lia.
Qed.

(** One orderly event keeps the selection and the results in agreement. *)
Lemma orderly_step_consistent (e : Panel.Event) (w : Panel.World) :
  search_consistent w -> orderly e w -> search_consistent (Panel.step e w).
Proof.
  intros C O.
  destruct e; simpl.
  - apply (consistent_same_view _ C). split; reflexivity.
  - apply (consistent_same_view _ C). split; reflexivity.
  - destruct O as (Hs & s1 & job & B). rewrite B, Hs. simpl.
    destruct (search_begin_clears_selection _ B) as [S I].
    apply consistent_cleared; simpl; auto.
    + rewrite I. reflexivity.
  - destruct (nth_error (Panel.searches w) k) as [job|] eqn:N; [|exact C].
    destruct C as (R & W & L & P).
    rewrite (remove_nth_single _ _ L N).
    apply consistent_cleared; simpl; auto.
    + rewrite search_resume_keeps_selection.
      apply P. intro E. rewrite E in N. destruct k; discriminate N.
    + rewrite panel_resume_items. apply well_indexed_rendered.
    + intro F. contradiction.
  - pose proof (save_begin_keeps_search_view (Panel.st w)) as K.
    destruct (Panel.saveTextToDatabase_begin (Panel.st w)) as [s1 [job|]];
      apply (consistent_same_view _ C K).
  - destruct (nth_error (Panel.saves w) k) as [job|]; [|exact C].
    apply (consistent_same_view _ C), save_resume_keeps_search_view.
  - apply checkbox_change_consistent, C.
  - apply select_all_consistent, C.
  - apply clear_selection_consistent, C.
  - apply (consistent_same_view _ C).
    unfold Panel.create_context_click.
    eapply keeps_search_view_trans; [|apply notification_keeps_search_view].
    split; reflexivity.
  - unfold Panel.clearSearchResults, Panel.with_st.
    destruct (negb (Panel.sidePanel (Panel.vars (Panel.st w)))).
    + destruct w; exact C.
    + destruct C as (R & W & L & P).
      apply consistent_cleared; simpl; auto. reflexivity.
  - apply (consistent_same_view _ C).
    unfold Panel.hideSidePanel, Panel.forceHideLoadingState.
    split_ifs; split; reflexivity.
  - apply (consistent_same_view _ C).
    unfold Panel.togglePanelMinimized. split_ifs; split; reflexivity.
  - apply (consistent_same_view _ C), text_selection_keeps_search_view.
  - destruct (nth_error (Panel.timeouts (Panel.st w)) k) as [t|]; [|exact C].
    apply (consistent_same_view _ C), timeout_keeps_search_view.
Qed.

(** Along every run in which searches are submitted one at a time and pass
    validation, every selected index refers to a displayed result. *)
Lemma orderly_run_keeps_selection_in_range (es : list Panel.Event) (w : Panel.World) :
  search_consistent w -> orderly_run es w ->
  search_consistent (Panel.run es w)
  /\ Panel.selection_in_range (Panel.st (Panel.run es w)).
Proof.
  revert w. induction es as [|e es IH]; intros w C O; simpl.
  - split; [exact C | apply C].
  - destruct O as [Oe Or].
    apply IH; [apply orderly_step_consistent; assumption | exact Or].
Qed.

Lemma initial_world_consistent : search_consistent Panel.initial_world.
Proof.
  unfold search_consistent, Panel.selection_in_range. simpl.
  repeat split; auto; try constructor.
Qed.

(** In the popup the selection is emptied only when there are results to
    render: a search that finds nothing replaces the results by a message
    and leaves the selection as it was. *)
Example popup_selection_survives_empty_result :
  let s1 := Popup.performSearch backend_unordered
              (Popup.set_searchForm "solar panels" false (Some 10%Z) popup_start) in
  let s2 := Popup.toggleResultSelection 0 s1 in
  let s3 := Popup.performSearch backend_with_X s2 in
  length (Popup.result_items (Popup.searchResults s1)) = 3%nat
  /\ Popup.selectedResults s2 = [0%nat]
  /\ Popup.selectedResults s3 = [0%nat]
  /\ Popup.result_items (Popup.searchResults s3) = [].
Proof. cbv zeta. repeat split; vm_compute; reflexivity. Qed.

(** A search rejected for its empty query replaces the results by a message
    and leaves the selection as it was. *)
Example selection_survives_rejected_search :
  let w := Panel.run
             [Panel.CheckboxClick 2;
              Panel.TypeSearch "  " "A" (Some 10%Z) (Some (3 # 10));
              Panel.SearchClick]
             world_three_results in
  Panel.searchSelectedResults (Panel.vars (Panel.st w)) = [2%nat]
  /\ Panel.resultsDiv (Panel.sdom (Panel.st w)) = Panel.Html "Enter a query to search."
  /\ Panel.searches w = [].
Proof. cbv zeta. repeat split; vm_compute; reflexivity. Qed.

(** ** Saving: the cleanup cannot be skipped *)

(** Whatever the body and the handler do, [try_catch_finally] ends in a
    state that the cleanup produced. *)
Lemma try_catch_finally_cleanup {S E : Type} (P : S -> Prop)
    (body : JS.M (S:=S) (E:=E) unit) (handler : E -> JS.M (S:=S) (E:=E) unit)
    (cleanup : JS.M (S:=S) (E:=E) unit) :
  (forall s, P (fst (cleanup s))) ->
  forall s, P (fst (JS.try_catch_finally body handler cleanup s)).
Proof.
  intros H s. unfold JS.try_catch_finally.
  destruct (body s) as [s1 [u|e]].
  - specialize (H s1). destruct (cleanup s1) as [s3 [u3|e3]]; exact H.
  - destruct (handler e s1) as [s2 r2].
    specialize (H s2). destruct (cleanup s2) as [s3 [u3|e3]]; exact H.
Qed.

Lemma save_finally_idle (s : Panel.State) : idle (fst (Panel.save_finally s)).
Proof.
  unfold idle, Panel.save_finally, JS.exec, Panel.busy, save_enabled.
  destruct s as [v d sd n ss t f]. simpl. auto.
Qed.

Lemma legacy_save_finally_idle (s : LegacyPanel.State) :
  legacy_idle (fst (LegacyPanel.save_finally s)).
Proof.
  unfold legacy_idle, LegacyPanel.save_finally, JS.exec, LegacyPanel.busy.
  simpl. auto.
Qed.

Lemma save_begin_busy (s s1 : Panel.State) (job : Panel.SaveJob) :
  Panel.saveTextToDatabase_begin s = (s1, Some job) ->
  Panel.busy s1 = true
  /\ Panel.panelBody_opacity (Panel.dom s1) = "0.6"
  /\ Panel.saveBtn_disabled (Panel.dom s1) = true
  /\ Panel.saveBtn_textContent (Panel.dom s1) = Panel.SAVING_LABEL.
Proof.
  unfold Panel.saveTextToDatabase_begin.
  destruct (negb (JS.truthy (Panel.selectedText (Panel.vars s)))
            || negb (JS.truthy (JS.trim (Panel.selectedText (Panel.vars s)))));
    [discriminate|].
  destruct (negb (JS.truthy (Panel.dbSelect_value (Panel.dom s))));
    [discriminate|].
  intro H. inversion H; subst. repeat split.
Qed.

Lemma save_resume_idle (resp : Response unit) (job : Panel.SaveJob) (s : Panel.State) :
  idle (fst (Panel.saveTextToDatabase_resume resp job s)).
Proof.
  unfold Panel.saveTextToDatabase_resume.
  apply try_catch_finally_cleanup, save_finally_idle.
Qed.

(** C6.  A save that was started always ends idle: whatever the response
    (success, error status with or without a readable body, transport
    failure, unreadable success body), when [saveTextToDatabase] resumes it
    finishes with the body at full opacity, the button labelled "Save
    Selected Text" and enabled by the rule at rest.  This is the effect of
    the [finally] block alone: with any other [try] body and any other
    handler, even one that throws, the end state is idle all the same.
    The earlier content script behaves alike and also hides its loading
    overlay. *)
Theorem save_always_ends_idle :
  (forall (resp : Response unit) (job : Panel.SaveJob) (s : Panel.State),
      idle (fst (Panel.saveTextToDatabase_resume resp job s)))
  /\ (forall (body : JS.M (S:=Panel.State) (E:=string) unit)
             (handler : string -> JS.M (S:=Panel.State) (E:=string) unit)
             (s : Panel.State),
        idle (fst (JS.try_catch_finally body handler Panel.save_finally s)))
  /\ (forall (s s1 : Panel.State) (job : Panel.SaveJob),
        Panel.saveTextToDatabase_begin s = (s1, Some job) -> Panel.busy s1 = true)
  /\ (forall (resp : Response unit) (job : LegacyPanel.SaveJob) (s : LegacyPanel.State),
        legacy_idle (fst (LegacyPanel.saveTextToDatabase_resume resp job s)))
  /\ (forall (body : JS.M (S:=LegacyPanel.State) (E:=string) unit)
             (handler : string -> JS.M (S:=LegacyPanel.State) (E:=string) unit)
             (s : LegacyPanel.State),
        legacy_idle (fst (JS.try_catch_finally body handler LegacyPanel.save_finally s))).
Proof.
  split; [|split; [|split; [|split]]].
  - apply save_resume_idle.
  - intros body handler s.
    apply try_catch_finally_cleanup, save_finally_idle.
  - intros s s1 job H. apply (save_begin_busy _ H).
  - intros resp job s. unfold LegacyPanel.saveTextToDatabase_resume.
    apply try_catch_finally_cleanup, legacy_save_finally_idle.
  - intros body handler s.
    apply try_catch_finally_cleanup, legacy_save_finally_idle.
Qed.

(** A click on the save button, run without interleaving, never leaves the
    panel busy: neither when the save is refused before any request, nor
    when the request has been answered. *)
Lemma save_never_leaves_busy (o : Oracle) (s : Panel.State) :
  Panel.sidePanel (Panel.vars s) = true ->
  Panel.busy (Panel.saveTextToDatabase o s) = false.
Proof.
  intro HP. unfold Panel.saveTextToDatabase, Panel.saveTextToDatabase_begin.
  assert (N : forall m t, Panel.busy (Panel.showPanelNotification m t s) = false).
  { intros m t. unfold Panel.showPanelNotification, Panel.forceHideLoadingState.
    rewrite HP. simpl. reflexivity. }
  destruct (negb (JS.truthy (Panel.selectedText (Panel.vars s)))
            || negb (JS.truthy (JS.trim (Panel.selectedText (Panel.vars s)))));
    [apply N|].
  destruct (negb (JS.truthy (Panel.dbSelect_value (Panel.dom s)))); [apply N|].
  apply save_resume_idle.
Qed.

(** The save is clicked and the backend answers with an error status. *)
Example save_error_ends_idle :
  let w1 := Panel.step Panel.SaveClick world_ready_to_save in
  let w2 := Panel.step (Panel.SaveSettles 0 (NotOk 500 (Some (Some "disk full")))) w1 in
  Panel.busy (Panel.st w1) = true
  /\ Panel.busy (Panel.st w2) = false
  /\ Panel.saveBtn_disabled (Panel.dom (Panel.st w2)) = false
  /\ hd_error (Panel.notifications (Panel.st w2))
     = Some ("Error saving text: disk full", "error").
Proof. cbv zeta. repeat split; vm_compute; reflexivity. Qed.

(** ** Closing the panel *)

Lemma hide_open_panel_at_rest (s : Panel.State) :
  Panel.sidePanel (Panel.vars s) = true ->
  Panel.isPanelOpen (Panel.vars s) = true ->
  at_rest (Panel.hideSidePanel s).
Proof.
  intros HP HO. destruct s as [v d sd n ss t f]. destruct v, d.
  simpl in HP, HO. subst.
  unfold at_rest, Panel.hideSidePanel, Panel.forceHideLoadingState,
    Panel.closed, Panel.busy.
  simpl. auto.
Qed.

Lemma hide_closed_panel (s : Panel.State) :
  Panel.isPanelOpen (Panel.vars s) = false -> Panel.hideSidePanel s = s.
Proof.
  intro H. unfold Panel.hideSidePanel. rewrite H, andb_false_r. reflexivity.
Qed.

Lemma search_resume_frame (o : Oracle) (job : Panel.SearchJob) (s : Panel.State) :
  Panel.vars (fst (Panel.performPanelSearch_resume o job s)) = Panel.vars s
  /\ Panel.dom (fst (Panel.performPanelSearch_resume o job s)) = Panel.dom s.
Proof.
  unfold Panel.performPanelSearch_resume, JS.try_catch, JS.try_catch_finally,
    Panel.search_try, JS.bind.
  assert (V : Panel.vars (fst (Panel.fetchAllResults o job s)) = Panel.vars s
              /\ Panel.dom (fst (Panel.fetchAllResults o job s)) = Panel.dom s).
  { unfold Panel.fetchAllResults, JS.bind.
    destruct (String.eqb (Panel.job_selectedDb job) Panel.ALL).
    - destruct (list_databases o) as [m|[dbs|m]|st dt]; split; reflexivity.
    - destruct (search_text o (Panel.job_selectedDb job) (Panel.job_query job)
                  (Panel.job_limit job) (Panel.job_minScore job))
        as [m|[rows|m]|st dt]; split; reflexivity. }
  destruct V as [V D].
  destruct (Panel.fetchAllResults o job s) as [s1 [rows|e]]; simpl in *.
  - destruct (Panel.sortAndLimit (Panel.job_limit job) rows); simpl;
      rewrite V, D; split; reflexivity.
  - rewrite V, D. split; reflexivity.
Qed.

Lemma closed_frame (s s' : Panel.State) :
  Panel.isPanelOpen (Panel.vars s') = Panel.isPanelOpen (Panel.vars s) ->
  Panel.class_panel_open (Panel.dom s') = Panel.class_panel_open (Panel.dom s) ->
  Panel.closed s' = Panel.closed s.
Proof. intros H1 H2. unfold Panel.closed. rewrite H1, H2. reflexivity. Qed.

Lemma showPanelNotification_open (m t : string) (s : Panel.State) :
  Panel.isPanelOpen (Panel.vars (Panel.showPanelNotification m t s))
  = Panel.isPanelOpen (Panel.vars s)
  /\ Panel.class_panel_open (Panel.dom (Panel.showPanelNotification m t s))
     = Panel.class_panel_open (Panel.dom s).
Proof.
  unfold Panel.showPanelNotification, Panel.forceHideLoadingState.
  destruct (Panel.sidePanel (Panel.vars s)); simpl; split; reflexivity.
Qed.

Lemma showSaveStatus_open (m t : string) (s : Panel.State) :
  Panel.isPanelOpen (Panel.vars (Panel.showSaveStatus m t s))
  = Panel.isPanelOpen (Panel.vars s)
  /\ Panel.class_panel_open (Panel.dom (Panel.showSaveStatus m t s))
     = Panel.class_panel_open (Panel.dom s).
Proof.
  unfold Panel.showSaveStatus.
  destruct (Panel.sidePanel (Panel.vars s)); simpl; split; reflexivity.
Qed.

(** Resuming a save neither opens nor closes the panel. *)
Lemma save_resume_closed (resp : Response unit) (job : Panel.SaveJob) (s : Panel.State) :
  Panel.closed (fst (Panel.saveTextToDatabase_resume resp job s)) = Panel.closed s.
Proof.
  unfold Panel.saveTextToDatabase_resume, JS.try_catch_finally.
  assert (B : forall s1 : Panel.State,
            Panel.closed (fst (Panel.save_finally s1)) = Panel.closed s1
            /\ forall e, Panel.closed (fst (Panel.save_catch e s1)) = Panel.closed s1).
  { intro s1. split.
    - apply closed_frame; reflexivity.
    - intro e. unfold Panel.save_catch, JS.bind, JS.exec. simpl.
      apply closed_frame.
      + rewrite (proj1 (showSaveStatus_open _ _ _)).
        apply (proj1 (showPanelNotification_open _ _ _)).
      + rewrite (proj2 (showSaveStatus_open _ _ _)).
        apply (proj2 (showPanelNotification_open _ _ _)). }
  assert (T : Panel.closed (fst (Panel.save_try resp job s)) = Panel.closed s).
  { unfold Panel.save_try.
    destruct resp as [m|[u|m]|st dt]; try reflexivity.
    unfold JS.bind, JS.exec. simpl. apply closed_frame; simpl.
    + rewrite (proj1 (showSaveStatus_open _ _ _)).
      apply (proj1 (showPanelNotification_open _ _ _)).
    + rewrite (proj2 (showSaveStatus_open _ _ _)).
      apply (proj2 (showPanelNotification_open _ _ _)). }
  destruct (Panel.save_try resp job s) as [s1 [u|e]]; simpl in T.
  - pose proof (proj1 (B s1)) as F.
    destruct (Panel.save_finally s1) as [s3 [u3|e3]]; simpl in *; congruence.
  - pose proof (proj2 (B s1) e) as C.
    destruct (Panel.save_catch e s1) as [s2 r2]; simpl in C.
    pose proof (proj1 (B s2)) as F.
    destruct (Panel.save_finally s2) as [s3 [u3|e3]]; simpl in *; congruence.
Qed.

Lemma timeout_at_rest (o : Oracle) (t : Panel.Timeout) (ts : list Panel.Timeout)
    (s : Panel.State) :
  at_rest s -> at_rest (Panel.run_timeout o t (Panel.set_timeouts ts s)).
Proof.
  unfold at_rest, Panel.closed, Panel.busy.
  destruct s as [v d sd n ss tm f]. destruct v, d. simpl.
  intros [C B]. destruct t; simpl.
  - unfold Panel.clearSelectedText. simpl.
    destruct sidePanel; simpl; split; try assumption.
    apply orb_false_iff in B. destruct B as [B _]. rewrite B. reflexivity.
  - unfold Panel.loadDatabasesForPanel. simpl.
    destruct (list_databases o) as [m|[dbs|m]|st dt]; simpl; split; assumption.
Qed.

Lemma completion_keeps_at_rest (e : Panel.Event) (w : Panel.World) :
  completion e = true -> at_rest (Panel.st w) -> at_rest (Panel.st (Panel.step e w)).
Proof.
  intros He [C B].
  destruct e; try discriminate He; simpl.
  - destruct (nth_error (Panel.searches w) k) as [job|]; simpl; [|split; assumption].
    destruct (search_resume_frame o job (Panel.st w)) as [V D].
    unfold at_rest, Panel.closed, Panel.busy in *. rewrite V, D. split; assumption.
  - destruct (nth_error (Panel.saves w) k) as [job|]; simpl; [|split; assumption].
    split.
    + rewrite save_resume_closed. exact C.
    + apply (save_resume_idle resp job (Panel.st w)).
  - destruct (nth_error (Panel.timeouts (Panel.st w)) k) as [t|]; simpl;
      [|split; assumption].
    apply timeout_at_rest. split; assumption.
Qed.

Lemma completions_keep_at_rest (es : list Panel.Event) (w : Panel.World) :
  forallb completion es = true ->
  at_rest (Panel.st w) -> at_rest (Panel.st (Panel.run es w)).
Proof.
  revert w. induction es as [|e es IH]; intros w Hes Hw; simpl.
  - exact Hw.
  - simpl in Hes. apply andb_true_iff in Hes. destruct Hes as [He Hes].
    apply IH; [exact Hes|].
    apply completion_keeps_at_rest; assumption.
Qed.

(** C7, as amended.  Closing an open panel, whatever is in flight and
    however busy it looks, leaves it closed (flag and class) with the
    loading state of the save cleared (body not dimmed, the button not
    reading "Saving..."), and leaves the search tab exactly as it was, so
    that the "Searching..." of a search in flight stays until that search
    settles.  The panel then stays closed and idle through every later
    completion of work that was in flight: a search or a save that resumes
    with any response, or a timer of a finished save.  What such a
    completion writes into the closed panel (results, context actions,
    notification, save status) is not undone. *)
Theorem close_resets_and_stays_reset (w : Panel.World) (es : list Panel.Event) :
  Panel.sidePanel (Panel.vars (Panel.st w)) = true ->
  Panel.isPanelOpen (Panel.vars (Panel.st w)) = true ->
  forallb completion es = true ->
  at_rest (Panel.st (Panel.step Panel.CloseClick w))
  /\ Panel.panelBody_opacity (Panel.dom (Panel.st (Panel.step Panel.CloseClick w))) = "1"
  /\ at_rest (Panel.st (Panel.run (Panel.CloseClick :: es) w))
  /\ Panel.sdom (Panel.st (Panel.step Panel.CloseClick w)) = Panel.sdom (Panel.st w)
  /\ Panel.notifications (Panel.st (Panel.step Panel.CloseClick w))
     = Panel.notifications (Panel.st w)
  /\ Panel.searches (Panel.step Panel.CloseClick w) = Panel.searches w
  /\ Panel.saves (Panel.step Panel.CloseClick w) = Panel.saves w.
Proof.
  intros HP HO Hes.
  assert (R : at_rest (Panel.st (Panel.step Panel.CloseClick w)))
    by (apply hide_open_panel_at_rest; assumption).
  split; [exact R|]. split; [|split].
  - simpl. unfold Panel.hideSidePanel, Panel.forceHideLoadingState.
    rewrite HP, HO. reflexivity.
  - simpl. apply completions_keep_at_rest; assumption.
  - simpl. unfold Panel.hideSidePanel, Panel.forceHideLoadingState.
    rewrite HP, HO. repeat split.
Qed.

Lemma close_resets_and_stays_reset_witness :
  Panel.sidePanel (Panel.vars (Panel.st world_busy)) = true
  /\ Panel.isPanelOpen (Panel.vars (Panel.st world_busy)) = true
  /\ Panel.busy (Panel.st world_busy) = true
  /\ length (Panel.saves world_busy) = 1%nat
  /\ length (Panel.searches world_busy) = 1%nat
  /\ forallb completion completions_after_close = true
  /\ at_rest (Panel.st (Panel.step Panel.CloseClick world_busy))
  /\ at_rest (Panel.st (Panel.run (Panel.CloseClick :: completions_after_close)
                          world_busy)).
Proof.
  split; [reflexivity|]. split; [reflexivity|]. split; [reflexivity|].
  split; [reflexivity|]. split; [reflexivity|]. split; [reflexivity|].
  destruct (close_resets_and_stays_reset world_busy completions_after_close
              eq_refl eq_refl eq_refl) as (H1 & _ & H2 & _).
  split; assumption.
Defined.

(** C7, as the claim states it, fails.  A save and a search are in flight
    when the panel is closed.  The close undims the body and resets the
    button, but the results area still reads "Searching...": a loading
    indicator is left.  When the save and the search then settle and the
    timers fire, the panel stays closed, yet five results are rendered
    into it, the context actions are shown, and a notification and a save
    status are posted: its elements are not as the close left them. *)
Lemma close_leaves_search_indicator_and_late_writes :
  Panel.isPanelOpen (Panel.vars (Panel.st world_busy)) = true
  /\ length (Panel.searches world_busy) = 1%nat
  /\ Panel.closed (Panel.st (Panel.step Panel.CloseClick world_busy)) = true
  /\ Panel.busy (Panel.st (Panel.step Panel.CloseClick world_busy)) = false
  /\ Panel.resultsDiv (Panel.sdom (Panel.st (Panel.step Panel.CloseClick world_busy)))
     = Panel.Html "Searching..."
  /\ Panel.closed
       (Panel.st (Panel.run (Panel.CloseClick :: completions_after_close) world_busy))
     = true
  /\ length (Panel.result_items
               (Panel.resultsDiv
                  (Panel.sdom
                     (Panel.st (Panel.run (Panel.CloseClick :: completions_after_close)
                                  world_busy))))) = 5%nat
  /\ Panel.actions_shown
       (Panel.sdom
          (Panel.st (Panel.run (Panel.CloseClick :: completions_after_close)
                       world_busy))) = true
  /\ length (Panel.notifications (Panel.st (Panel.step Panel.CloseClick world_busy)))
     = 0%nat
  /\ length (Panel.notifications
               (Panel.st (Panel.run (Panel.CloseClick :: completions_after_close)
                            world_busy))) = 1%nat
  /\ length (Panel.saveStatus
               (Panel.st (Panel.run (Panel.CloseClick :: completions_after_close)
                            world_busy))) = 1%nat
  /\ ~ no_loading_indicator (Panel.st (Panel.step Panel.CloseClick world_busy))
  /\ ~ close_is_a_full_reset.
Proof.
  assert (S : Panel.resultsDiv
                (Panel.sdom (Panel.st (Panel.step Panel.CloseClick world_busy)))
              = Panel.Html "Searching...") by (vm_compute; reflexivity).
  assert (N : ~ no_loading_indicator (Panel.st (Panel.step Panel.CloseClick world_busy))).
  { intros [_ H]. apply H. exact S. }
  repeat (split; [vm_compute; reflexivity|]).
  split; [exact N|].
  intro H.
  destruct (H world_busy completions_after_close eq_refl eq_refl eq_refl)
    as (_ & I & _).
  exact (N I).
Qed.

(** ** Creating a database twice *)

Lemma some_name_In (n : string) (dbs : list Database) :
  JS.some (fun d => String.eqb (name d) n) dbs = true <-> In n (map name dbs).
Proof.
  unfold JS.some. rewrite existsb_exists, in_map_iff. split.
  - intros (d & Hd & E). apply String.eqb_eq in E. exists d. auto.
  - intros (d & E & Hd). exists d. split; [exact Hd|]. apply String.eqb_eq, E.
Qed.

(** A name that is in the cached list is rejected before any request. *)
Lemma popup_create_known_name (o : Oracle) (s : Popup.State) :
  JS.truthy (JS.trim (Popup.newDbNameInput_value s)) = true ->
  In (JS.trim (Popup.newDbNameInput_value s)) (map name (Popup.databases s)) ->
  Popup.createDatabase o s = Popup.showNotification "Database already exists" "error" s.
Proof.
  intros HT HI. unfold Popup.createDatabase. rewrite HT. simpl.
  apply some_name_In in HI. rewrite HI. reflexivity.
Qed.

Lemma popupV2_create_known_name (o : Oracle) (tab : bool) (s : PopupV2.State) :
  JS.truthy (JS.trim (PopupV2.newDbNameInput_value s)) = true ->
  In (JS.trim (PopupV2.newDbNameInput_value s)) (map name (PopupV2.databases s)) ->
  PopupV2.createDatabase o tab s
  = PopupV2.showNotification "Database already exists" "error" s.
Proof.
  intros HT HI. unfold PopupV2.createDatabase. rewrite HT. simpl.
  apply some_name_In in HI. rewrite HI. reflexivity.
Qed.

(** A creation that succeeds, followed by a reload that succeeds. *)
Lemma popup_create_new_name (o : Oracle) (s : Popup.State) (dbs : list Database) :
  let n := JS.trim (Popup.newDbNameInput_value s) in
  JS.truthy n = true ->
  JS.some (fun d => String.eqb (name d) n) (Popup.databases s) = false ->
  ok (create_database o n) = true ->
  list_databases o = Ok (inl dbs) ->
  Popup.databases (Popup.createDatabase o s) = dbs
  /\ Popup.fetched (Popup.createDatabase o s)
     = GET_databases :: POST_databases n :: Popup.fetched s
  /\ Popup.notifications (Popup.createDatabase o s)
     = ("Database created successfully", "success") :: Popup.notifications s
  /\ Popup.newDbNameInput_value (Popup.createDatabase o s) = "".
Proof.
  intros n HT HS HO HL. unfold Popup.createDatabase. fold n. rewrite HT, HS. simpl.
  unfold JS.try_catch_finally, Popup.create_try, JS.bind, JS.exec. simpl.
  destruct (create_database o n) as [m|j|st dt]; try discriminate HO.
  simpl. unfold Popup.loadDatabases. rewrite HL. simpl. auto.
Qed.

Lemma popupV2_create_new_name (o : Oracle) (tab : bool) (s : PopupV2.State)
    (dbs : list Database) :
  let n := JS.trim (PopupV2.newDbNameInput_value s) in
  JS.truthy n = true ->
  JS.some (fun d => String.eqb (name d) n) (PopupV2.databases s) = false ->
  ok (create_database o n) = true ->
  list_databases o = Ok (inl dbs) ->
  PopupV2.databases (PopupV2.createDatabase o tab s) = dbs
  /\ PopupV2.fetched (PopupV2.createDatabase o tab s)
     = GET_databases :: POST_databases n :: PopupV2.fetched s.
Proof.
  intros n HT HS HO HL. unfold PopupV2.createDatabase. fold n. rewrite HT, HS. simpl.
  unfold JS.try_catch_finally, PopupV2.create_try, JS.bind, JS.exec. simpl.
  destruct (create_database o n) as [m|j|st dt]; try discriminate HO.
  simpl. unfold PopupV2.loadDatabases. rewrite HL.
  destruct tab; simpl; auto.
Qed.

(** C9.  The user enters a name that is not in the cached list and creates
    it; the [POST] succeeds and the reload that follows brings a list with
    that name.  When the same name is entered and submitted again, the call
    ends at the local check: the log of requests is unchanged, the cached
    list is unchanged, and the user is told "Database already exists".
    The same holds for the popup that only manages databases. *)
Theorem second_create_is_rejected_locally
    (o1 o2 : Oracle) (raw : string) (dbs : list Database) (s : Popup.State) :
  JS.truthy (JS.trim raw) = true ->
  JS.some (fun d => String.eqb (name d) (JS.trim raw)) (Popup.databases s) = false ->
  ok (create_database o1 (JS.trim raw)) = true ->
  list_databases o1 = Ok (inl dbs) ->
  In (JS.trim raw) (map name dbs) ->
  let s1 := Popup.createDatabase o1 (Popup.set_newDbNameInput raw s) in
  let s2 := Popup.createDatabase o2 (Popup.set_newDbNameInput raw s1) in
  (Popup.fetched s1
   = GET_databases :: POST_databases (JS.trim raw) :: Popup.fetched s
   /\ Popup.fetched s2 = Popup.fetched s1
   /\ Popup.databases s2 = Popup.databases s1
   /\ Popup.notifications s2
      = ("Database already exists", "error") :: Popup.notifications s1)
  /\ forall (tab1 tab2 : bool) (t : PopupV2.State),
       JS.some (fun d => String.eqb (name d) (JS.trim raw)) (PopupV2.databases t) = false ->
       let t1 := PopupV2.createDatabase o1 tab1 (PopupV2.set_newDbNameInput raw t) in
       let t2 := PopupV2.createDatabase o2 tab2 (PopupV2.set_newDbNameInput raw t1) in
       PopupV2.fetched t1
       = GET_databases :: POST_databases (JS.trim raw) :: PopupV2.fetched t
       /\ PopupV2.fetched t2 = PopupV2.fetched t1
       /\ PopupV2.databases t2 = PopupV2.databases t1
       /\ PopupV2.notifications t2
          = ("Database already exists", "error") :: PopupV2.notifications t1.
Proof.
  intros HT HS HO HL HI. cbv zeta. split.
  - destruct (@popup_create_new_name o1 (Popup.set_newDbNameInput raw s) dbs
                HT HS HO HL) as (D & F & _ & _).
    split; [exact F|].
    rewrite popup_create_known_name.
    + repeat split.
    + exact HT.
    + simpl. rewrite D. exact HI.
  - intros tab1 tab2 t HS'.
    destruct (@popupV2_create_new_name o1 tab1 (PopupV2.set_newDbNameInput raw t) dbs
                HT HS' HO HL) as (D & F).
    split; [exact F|].
    rewrite popupV2_create_known_name.
    + repeat split.
    + exact HT.
    + simpl. rewrite D. exact HI.
Qed.

Lemma second_create_is_rejected_locally_witness :
  JS.trim " X " = "X"
  /\ JS.some (fun d => String.eqb (name d) "X") (Popup.databases popup_start) = false
  /\ (let s1 := Popup.createDatabase backend_with_X
                  (Popup.set_newDbNameInput " X " popup_start) in
      let s2 := Popup.createDatabase backend_B_down
                  (Popup.set_newDbNameInput " X " s1) in
      Popup.fetched s1 = [GET_databases; POST_databases "X"]
      /\ Popup.fetched s2 = Popup.fetched s1
      /\ Popup.notifications s2
         = ("Database already exists", "error") :: Popup.notifications s1).
Proof.
  split; [reflexivity|]. split; [reflexivity|].
  destruct (@second_create_is_rejected_locally backend_with_X backend_B_down " X "
              (three_dbs ++ [db "X" 0])%list popup_start
              eq_refl eq_refl eq_refl eq_refl
              (or_intror (or_intror (or_intror (or_introl eq_refl)))))
    as [(F1 & F2 & _ & N) _].
  cbv zeta. split; [exact F1|]. split; [exact F2 | exact N].
Defined.

(** ** Deleting a database and the default selection *)

Lemma option_string_eqb_true (a : option string) (b : string) :
  Popup.option_string_eqb a b = true <-> a = Some b.
Proof.
  destruct a as [x|]; simpl.
  - rewrite String.eqb_eq. split; congruence.
  - split; discriminate.
Qed.

Lemma popup_loadDatabases_selection (o : Oracle) (s : Popup.State) :
  Popup.selectedDatabase (Popup.loadDatabases o s) = Popup.selectedDatabase s
  /\ Popup.storage_selectedDatabase (Popup.loadDatabases o s)
     = Popup.storage_selectedDatabase s
  /\ Popup.fetched (Popup.loadDatabases o s) = GET_databases :: Popup.fetched s.
Proof.
  unfold Popup.loadDatabases.
  destruct (list_databases o) as [m|[dbs|m]|st dt]; simpl; auto.
Qed.

(** The in-memory default selection agrees with the persisted one once the
    settings are loaded, and choosing, creating and deleting databases keep
    it so. *)
Lemma popup_selection_stays_in_sync (o : Oracle) (n : string) (c : bool)
    (s : Popup.State) :
  (Popup.storage_selectedDatabase s <> Some "" ->
   Popup.selectedDatabase (Popup.loadSettings s)
   = Popup.storage_selectedDatabase (Popup.loadSettings s))
  /\ Popup.selectedDatabase (Popup.selectDatabase n s)
     = Popup.storage_selectedDatabase (Popup.selectDatabase n s)
  /\ (Popup.selectedDatabase s = Popup.storage_selectedDatabase s ->
      Popup.selectedDatabase (Popup.createDatabase o s)
      = Popup.storage_selectedDatabase (Popup.createDatabase o s)
      /\ Popup.selectedDatabase (Popup.deleteDatabase c o n s)
         = Popup.storage_selectedDatabase (Popup.deleteDatabase c o n s)).
Proof.
  split; [|split].
  - intro H. unfold Popup.loadSettings. simpl.
    destruct (Popup.storage_selectedDatabase s) as [[|ch d]|]; simpl;
      try reflexivity.
    exfalso. apply H. reflexivity.
  - reflexivity.
  - intro H. split.
    + unfold Popup.createDatabase.
      destruct (negb (JS.truthy (JS.trim (Popup.newDbNameInput_value s))));
        [exact H|].
      destruct (JS.some _ (Popup.databases s)); [exact H|].
      unfold JS.try_catch_finally, Popup.create_try, JS.bind, JS.exec. simpl.
      destruct (create_database o (JS.trim (Popup.newDbNameInput_value s)))
        as [m|j|st dt]; simpl; try exact H.
      unfold Popup.loadDatabases.
      destruct (list_databases o) as [m|[dbs|m]|st dt]; simpl; exact H.
    + unfold Popup.deleteDatabase. destruct c; simpl; [|exact H].
      unfold JS.try_catch, JS.try_catch_finally, Popup.delete_try, JS.bind,
        JS.exec, JS.ret. simpl.
      destruct (delete_database o n) as [m|j|st dt]; simpl; try exact H.
      destruct (Popup.option_string_eqb (Popup.selectedDatabase s) n);
        unfold Popup.loadDatabases;
        destruct (list_databases o) as [m|[dbs|m]|st dt]; simpl;
        try reflexivity; exact H.
Qed.

(** C10.  A confirmed delete that succeeds, in a popup whose in-memory
    default selection agrees with the persisted one: when the deleted
    database is the persisted default, the persisted default (and its
    in-memory copy) becomes null; when it is any other database, or none is
    chosen, the persisted default is what it was. *)
Theorem delete_resets_default_only_for_deleted_database
    (o : Oracle) (dbName : string) (s : Popup.State) :
  Popup.selectedDatabase s = Popup.storage_selectedDatabase s ->
  ok (delete_database o dbName) = true ->
  let s' := Popup.deleteDatabase true o dbName s in
  (Popup.storage_selectedDatabase s = Some dbName ->
     Popup.storage_selectedDatabase s' = None /\ Popup.selectedDatabase s' = None)
  /\ (Popup.storage_selectedDatabase s <> Some dbName ->
        Popup.storage_selectedDatabase s' = Popup.storage_selectedDatabase s
        /\ Popup.selectedDatabase s' = Popup.selectedDatabase s)
  /\ Popup.fetched s' = GET_databases :: DELETE_databases dbName :: Popup.fetched s
  /\ hd_error (Popup.notifications s') = Some ("Database deleted successfully", "success").
Proof.
  intros Hsync HO. cbv zeta.
  unfold Popup.deleteDatabase, JS.try_catch, JS.try_catch_finally,
    Popup.delete_try, JS.bind, JS.exec, JS.ret. simpl.
  destruct (delete_database o dbName) as [m|j|st dt]; try discriminate HO.
  simpl.
  destruct (Popup.option_string_eqb (Popup.selectedDatabase s) dbName) eqn:E.
  - apply option_string_eqb_true in E.
    match goal with
    | |- context [Popup.loadDatabases o ?x] =>
        destruct (popup_loadDatabases_selection o x) as (M & P & F)
    end.
    rewrite M, P, F. simpl.
    split; [intros _; split; reflexivity|].
    split; [intro H; exfalso; congruence|].
    split; [reflexivity|].
    unfold Popup.loadDatabases.
    destruct (list_databases o) as [m|[dbs|m]|st dt]; reflexivity.
  - assert (N : Popup.selectedDatabase s <> Some dbName).
    { intro H. apply option_string_eqb_true in H. congruence. }
    match goal with
    | |- context [Popup.loadDatabases o ?x] =>
        destruct (popup_loadDatabases_selection o x) as (M & P & F)
    end.
    rewrite M, P, F. simpl.
    split; [intro H; exfalso; congruence|].
    split; [intros _; split; reflexivity|].
    split; [reflexivity|].
    unfold Popup.loadDatabases.
    destruct (list_databases o) as [m|[dbs|m]|st dt]; reflexivity.
Qed.

Lemma delete_resets_default_only_for_deleted_database_witness :
  Popup.selectedDatabase popup_start = Popup.storage_selectedDatabase popup_start
  /\ Popup.storage_selectedDatabase popup_start = Some "C"
  /\ Popup.storage_selectedDatabase (Popup.deleteDatabase true backend_B_down "C" popup_start)
     = None
  /\ Popup.storage_selectedDatabase (Popup.deleteDatabase true backend_B_down "A" popup_start)
     = Some "C".
Proof.
  split; [reflexivity|]. split; [reflexivity|].
  destruct (@delete_resets_default_only_for_deleted_database backend_B_down "C"
              popup_start eq_refl eq_refl) as (H1 & _).
  destruct (@delete_resets_default_only_for_deleted_database backend_B_down "A"
              popup_start eq_refl eq_refl) as (_ & H2 & _).
  split.
  - apply H1. reflexivity.
  - rewrite (proj1 (H2 ltac:(discriminate))). reflexivity.
Defined.

(** Without confirmation, or when the request fails, the default selection
    is untouched. *)
Lemma delete_unconfirmed_or_failed_keeps_default
    (o : Oracle) (dbName : string) (s : Popup.State) :
  Popup.deleteDatabase false o dbName s = s
  /\ (ok (delete_database o dbName) = false ->
      Popup.storage_selectedDatabase (Popup.deleteDatabase true o dbName s)
      = Popup.storage_selectedDatabase s
      /\ Popup.selectedDatabase (Popup.deleteDatabase true o dbName s)
         = Popup.selectedDatabase s).
Proof.
  split; [reflexivity|].
  intro HO.
  unfold Popup.deleteDatabase, JS.try_catch, JS.try_catch_finally,
    Popup.delete_try, JS.bind, JS.exec, JS.ret. simpl.
  destruct (delete_database o dbName) as [m|j|st dt]; try discriminate HO;
    simpl; auto.
Qed.

(** ** The selection counter *)

Lemma keeps_selection_ui_refl (s : Panel.State) : keeps_selection_ui s s.
Proof. repeat split. Qed.

Lemma keeps_selection_ui_trans (s1 s2 s3 : Panel.State) :
  keeps_selection_ui s1 s2 -> keeps_selection_ui s2 s3 -> keeps_selection_ui s1 s3.
Proof.
  unfold keeps_selection_ui. intros (A & B & C) (D & E & F).
  repeat split; congruence.
Qed.

Lemma counter_in_sync_kept (s s' : Panel.State) :
  keeps_selection_ui s s' -> counter_in_sync s -> counter_in_sync s'.
Proof.
  unfold keeps_selection_ui, counter_in_sync. intros (A & B & C) (D & E).
  rewrite A, B, C. split; assumption.
Qed.

Lemma updateSearchSelectionUI_in_sync (s : Panel.State) :
  counter_in_sync (Panel.updateSearchSelectionUI s).
Proof. split; reflexivity. Qed.

Lemma notification_keeps_selection_ui (m t : string) (s : Panel.State) :
  keeps_selection_ui s (Panel.showPanelNotification m t s).
Proof.
  unfold keeps_selection_ui, Panel.showPanelNotification, Panel.forceHideLoadingState.
  split_ifs; repeat split.
Qed.

Lemma saveStatus_keeps_selection_ui (m t : string) (s : Panel.State) :
  keeps_selection_ui s (Panel.showSaveStatus m t s).
Proof.
  unfold keeps_selection_ui, Panel.showSaveStatus. split_ifs; repeat split.
Qed.

Lemma save_begin_keeps_selection_ui (s : Panel.State) :
  keeps_selection_ui s (fst (Panel.saveTextToDatabase_begin s)).
Proof.
  unfold Panel.saveTextToDatabase_begin.
  split_ifs; simpl; try apply notification_keeps_selection_ui.
  repeat split.
Qed.

(** A relation that the body, the handler and the cleanup each keep is kept
    by [try_catch_finally]. *)
Lemma try_catch_finally_frame {S E : Type} (R : S -> S -> Prop)
    (body : JS.M (S:=S) (E:=E) unit) (handler : E -> JS.M (S:=S) (E:=E) unit)
    (cleanup : JS.M (S:=S) (E:=E) unit) :
  (forall a b c, R a b -> R b c -> R a c) ->
  (forall s, R s (fst (body s))) ->
  (forall e s, R s (fst (handler e s))) ->
  (forall s, R s (fst (cleanup s))) ->
  forall s, R s (fst (JS.try_catch_finally body handler cleanup s)).
Proof.
  intros T B H C s. unfold JS.try_catch_finally.
  specialize (B s). destruct (body s) as [s1 [u|e]]; simpl in B.
  - specialize (C s1). destruct (cleanup s1) as [s3 [u3|e3]]; simpl in *; eauto.
  - specialize (H e s1). destruct (handler e s1) as [s2 r2]; simpl in H.
    specialize (C s2). destruct (cleanup s2) as [s3 [u3|e3]]; simpl in *; eauto.
Qed.

Lemma save_resume_keeps_selection_ui (resp : Response unit) (job : Panel.SaveJob)
    (s : Panel.State) :
  keeps_selection_ui s (fst (Panel.saveTextToDatabase_resume resp job s)).
Proof.
  unfold Panel.saveTextToDatabase_resume.
  apply try_catch_finally_frame.
  - apply keeps_selection_ui_trans.
  - intro s1. unfold Panel.save_try.
    destruct resp as [m|[u|m]|st dt]; try apply keeps_selection_ui_refl.
    unfold JS.bind, JS.exec. simpl.
    eapply keeps_selection_ui_trans; [apply notification_keeps_selection_ui|].
    eapply keeps_selection_ui_trans; [apply saveStatus_keeps_selection_ui|].
    repeat split.
  - intros e s1. unfold Panel.save_catch, JS.bind, JS.exec. simpl.
    eapply keeps_selection_ui_trans;
      [apply notification_keeps_selection_ui | apply saveStatus_keeps_selection_ui].
  - intro s1. repeat split.
Qed.

Lemma search_resume_keeps_selection_ui (o : Oracle) (job : Panel.SearchJob)
    (s : Panel.State) :
  keeps_selection_ui s (fst (Panel.performPanelSearch_resume o job s)).
Proof.
  unfold Panel.performPanelSearch_resume, JS.try_catch.
  apply try_catch_finally_frame.
  - apply keeps_selection_ui_trans.
  - intro s1. unfold Panel.search_try, JS.bind.
    assert (F : keeps_selection_ui s1 (fst (Panel.fetchAllResults o job s1))).
    { unfold Panel.fetchAllResults, JS.bind.
      destruct (String.eqb (Panel.job_selectedDb job) Panel.ALL).
      - destruct (list_databases o) as [m|[dbs|m]|st dt]; repeat split.
      - destruct (search_text o (Panel.job_selectedDb job) (Panel.job_query job)
                    (Panel.job_limit job) (Panel.job_minScore job))
          as [m|[rows|m]|st dt]; repeat split. }
    destruct (Panel.fetchAllResults o job s1) as [s2 [rows|e]]; simpl in *;
      [|exact F].
    eapply keeps_selection_ui_trans; [exact F|].
    destruct (Panel.sortAndLimit (Panel.job_limit job) rows); repeat split.
  - intros e s1. repeat split.
  - intro s1. repeat split.
Qed.

Lemma text_selection_keeps_selection_ui (sel : string) (s : Panel.State) :
  keeps_selection_ui s (fst (Panel.handleTextSelection sel s)).
Proof.
  unfold Panel.handleTextSelection, Panel.showSidePanel, Panel.createSidePanel,
    Panel.updatePanelWithSelectedText, Panel.clearSelectedText, JS.bind, JS.exec,
    JS.ret.
  destruct (JS.truthy (JS.trim sel) && (3 <? JS.length (JS.trim sel))%nat);
    [|destruct (negb (JS.truthy (JS.trim sel)))]; simpl;
    split_ifs; simpl; split_ifs; repeat split.
Qed.

Lemma timeout_keeps_selection_ui (o : Oracle) (t : Panel.Timeout)
    (ts : list Panel.Timeout) (s : Panel.State) :
  keeps_selection_ui s (Panel.run_timeout o t (Panel.set_timeouts ts s)).
Proof.
  destruct t; simpl.
  - unfold Panel.clearSelectedText. simpl. split_ifs; repeat split.
  - unfold Panel.loadDatabasesForPanel.
    destruct (list_databases o) as [m|[dbs|m]|st dt]; repeat split.
Qed.

(** Every handler of the panel leaves the counter showing the selection. *)
Lemma step_counter_in_sync (e : Panel.Event) (w : Panel.World) :
  counter_in_sync (Panel.st w) -> counter_in_sync (Panel.st (Panel.step e w)).
Proof.
  intro C. destruct e; simpl.
  - apply (counter_in_sync_kept (s:=Panel.st w)); [repeat split | exact C].
  - apply (counter_in_sync_kept (s:=Panel.st w)); [repeat split | exact C].
  - unfold Panel.performPanelSearch_begin.
    destruct (negb (JS.truthy (JS.trim (Panel.queryInput_value (Panel.sdom (Panel.st w))))));
      [apply (counter_in_sync_kept (s:=Panel.st w)); [repeat split | exact C]|].
    destruct (negb (JS.truthy (Panel.searchDb_value (Panel.sdom (Panel.st w)))));
      [apply (counter_in_sync_kept (s:=Panel.st w)); [repeat split | exact C]|].
    simpl. split; reflexivity.
  - destruct (nth_error (Panel.searches w) k) as [job|]; [|exact C].
    simpl. eapply counter_in_sync_kept; [apply search_resume_keeps_selection_ui | exact C].
  - pose proof (save_begin_keeps_selection_ui (Panel.st w)) as K.
    destruct (Panel.saveTextToDatabase_begin (Panel.st w)) as [s1 [job|]];
      simpl in *; eapply counter_in_sync_kept; eauto.
  - destruct (nth_error (Panel.saves w) k) as [job|]; [|exact C].
    simpl. eapply counter_in_sync_kept; [apply save_resume_keeps_selection_ui | exact C].
  - unfold Panel.checkbox_change.
    destruct (nth_error _ i) as [nd|]; [|exact C].
    apply updateSearchSelectionUI_in_sync.
  - apply updateSearchSelectionUI_in_sync.
  - apply updateSearchSelectionUI_in_sync.
  - unfold Panel.create_context_click.
    eapply counter_in_sync_kept; [apply notification_keeps_selection_ui|].
    apply (counter_in_sync_kept (s:=Panel.st w)); [repeat split | exact C].
  - unfold Panel.clearSearchResults.
    destruct (negb (Panel.sidePanel (Panel.vars (Panel.st w)))); [exact C|].
    apply updateSearchSelectionUI_in_sync.
  - apply (counter_in_sync_kept (s:=Panel.st w)); [|exact C].
    unfold Panel.hideSidePanel, Panel.forceHideLoadingState.
    split_ifs; repeat split.
  - apply (counter_in_sync_kept (s:=Panel.st w)); [|exact C].
    unfold Panel.togglePanelMinimized. split_ifs; repeat split.
  - eapply counter_in_sync_kept; [apply text_selection_keeps_selection_ui | exact C].
  - destruct (nth_error (Panel.timeouts (Panel.st w)) k) as [t|]; [|exact C].
    simpl. eapply counter_in_sync_kept; [apply timeout_keeps_selection_ui | exact C].
Qed.

(** X1.  The counter "Selected: n" and the state of the "Create Context
    Text" button always show the selection as it is: when they do so in a
    state of the panel, they do so after every sequence of events (typing,
    searches that start, settle, overlap or are rejected, saves, ticking,
    select all, clear, composing, clearing the results, closing, minimising,
    text selections, timers).  This holds also along the runs in which the
    selection outlives the results it was made on. *)
Theorem selection_counter_always_in_sync (es : list Panel.Event) (w : Panel.World) :
  counter_in_sync (Panel.st w) ->
  counter_in_sync (Panel.st (Panel.run es w)).
Proof.
  revert w. induction es as [|e es IH]; intros w C; simpl.
  - exact C.
  - apply IH, step_counter_in_sync, C.
Qed.

Lemma selection_counter_always_in_sync_witness :
  counter_in_sync (Panel.st Panel.initial_world)
  /\ counter_in_sync (Panel.st (Panel.run overlapping_searches Panel.initial_world))
  /\ Panel.selectedCount
       (Panel.sdom (Panel.st (Panel.run overlapping_searches Panel.initial_world)))
     = "1".
Proof.
  assert (H : counter_in_sync (Panel.st Panel.initial_world))
    by (split; reflexivity).
  split; [exact H|]. split.
  - apply (selection_counter_always_in_sync overlapping_searches _ H).
  - reflexivity.
Defined.

(** ** The selection when searches take turns *)

(** X2.  From the panel as it is created, along every run in which a search
    is submitted only when none is in flight and with a form that passes
    validation, every selected index refers to a result that is on display,
    whatever else happens in between (ticking, select all, saves, text
    selections, closing, timers). *)
Theorem selection_in_range_when_searches_take_turns (es : list Panel.Event) :
  orderly_run es Panel.initial_world ->
  Panel.selection_in_range (Panel.st (Panel.run es Panel.initial_world)).
Proof.
  intro O.
  apply (orderly_run_keeps_selection_in_range es initial_world_consistent O).
Qed.

Lemma selection_in_range_when_searches_take_turns_witness :
  orderly_run searches_in_turn Panel.initial_world
  /\ Panel.selection_in_range (Panel.st (Panel.run searches_in_turn Panel.initial_world))
  /\ Panel.searchSelectedResults
       (Panel.vars (Panel.st (Panel.run searches_in_turn Panel.initial_world)))
     = [1%nat].
Proof.
  assert (O : orderly_run searches_in_turn Panel.initial_world).
  { simpl. repeat split; eexists; eexists; reflexivity. }
  split; [exact O|]. split.
  - apply (selection_in_range_when_searches_take_turns searches_in_turn O).
  - reflexivity.
Defined.

(** ** Select all, untick, tick again *)

Lemma filter_all {A : Type} (p : A -> bool) (l : list A) :
  (forall x, In x l -> p x = true) -> filter p l = l.
Proof.
  induction l as [|a l IH]; intro H; simpl; [reflexivity|].
  rewrite (H a (or_introl eq_refl)), IH; [reflexivity|].
  intros x Hx. apply H. right. exact Hx.
Qed.

Lemma set_delete_seq (n i : nat) :
  (i < n)%nat ->
  JS.set_delete i (seq 0 n) = (seq 0 i ++ seq (S i) (n - S i))%list.
Proof.
  intro H. unfold JS.set_delete.
  replace n with (i + (1 + (n - S i)))%nat at 1 by lia.
  rewrite !seq_app, !filter_app. simpl. rewrite Nat.eqb_refl. simpl.
  replace (i + 1)%nat with (S i) by lia.
  rewrite !filter_all; [reflexivity| |].
  - intros x Hx. apply in_seq in Hx.
    apply negb_true_iff, Nat.eqb_neq. lia.
  - intros x Hx. apply in_seq in Hx.
    apply negb_true_iff, Nat.eqb_neq. lia.
Qed.

Lemma select_all_selection (nodes : list Panel.Node) :
  well_indexed nodes ->
  fold_left (fun acc nd => JS.set_add (Panel.data_result_index nd) acc) nodes
    (JS.set_clear [])
  = seq 0 (length nodes).
Proof.
  intro W.
  rewrite (fold_left_map (fun a i => JS.set_add i a) Panel.data_result_index).
  rewrite W. apply (@fold_set_add_seq (length nodes) 0%nat []).
  intros j [].
Qed.

Lemma check_all_nth (c : bool) (nodes : list Panel.Node) (i : nat) :
  well_indexed nodes -> (i < length nodes)%nat ->
  exists nd, nth_error (Panel.check_all c nodes) i = Some nd
             /\ Panel.checked nd = c /\ Panel.data_result_index nd = i.
Proof.
  intros W L.
  destruct (nth_error nodes i) as [nd|] eqn:N;
    [|apply nth_error_None in N; lia].
  destruct (well_indexed_nth _ W N) as [E _].
  eexists. split; [|split].
  - unfold Panel.check_all. rewrite nth_error_map, N. reflexivity.
  - reflexivity.
  - exact E.
Qed.

(** X3.  With n results on display, "Select All" selects the indices 0 to
    n-1 in that order and the counter shows n; unticking result i then
    leaves the other n-1 indices, in order, and the counter shows n-1. *)
Theorem select_all_then_untick (s : Panel.State) (nodes : list Panel.Node) (i : nat) :
  Panel.resultsDiv (Panel.sdom s) = Panel.Items nodes ->
  well_indexed nodes ->
  (i < length nodes)%nat ->
  let s1 := Panel.select_all_click s in
  let s2 := Panel.checkbox_change i s1 in
  Panel.searchSelectedResults (Panel.vars s1) = seq 0 (length nodes)
  /\ Panel.selectedCount (Panel.sdom s1) = JS.string_of_nat (length nodes)
  /\ Panel.searchSelectedResults (Panel.vars s2)
     = (seq 0 i ++ seq (S i) (length nodes - S i))%list
  /\ Panel.selectedCount (Panel.sdom s2) = JS.string_of_nat (length nodes - 1).
Proof.
  intros R W L. cbv zeta.
  assert (S1 : Panel.searchSelectedResults (Panel.vars (Panel.select_all_click s))
               = seq 0 (length nodes)).
  { unfold Panel.select_all_click. rewrite R. simpl.
    apply (select_all_selection W). }
  assert (R1 : Panel.resultsDiv (Panel.sdom (Panel.select_all_click s))
               = Panel.Items (Panel.check_all true nodes)).
  { unfold Panel.select_all_click. rewrite R. reflexivity. }
  assert (C1 : counter_in_sync (Panel.select_all_click s))
    by (unfold Panel.select_all_click; apply updateSearchSelectionUI_in_sync).
  split; [exact S1|]. split.
  { rewrite (proj1 C1), S1. unfold JS.set_size. rewrite length_seq. reflexivity. }
  destruct (check_all_nth true W L) as (nd & N & C & E).
  set (s1 := Panel.select_all_click s) in *. clearbody s1.
  assert (S2 : Panel.searchSelectedResults (Panel.vars (Panel.checkbox_change i s1))
               = (seq 0 i ++ seq (S i) (length nodes - S i))%list).
  { unfold Panel.checkbox_change. rewrite R1. simpl. rewrite N, C, E. simpl.
    rewrite S1. apply set_delete_seq, L. }
  assert (C2 : counter_in_sync (Panel.checkbox_change i s1)).
  { unfold Panel.checkbox_change. rewrite R1. simpl. rewrite N.
    apply updateSearchSelectionUI_in_sync. }
  split; [exact S2|].
  rewrite (proj1 C2), S2. unfold JS.set_size.
  rewrite length_app, !length_seq. f_equal. lia.
Qed.

Lemma select_all_then_untick_witness :
  let s := Panel.st world_five_results in
  let s2 := Panel.checkbox_change 2 (Panel.select_all_click s) in
  length (Panel.result_items (Panel.resultsDiv (Panel.sdom s))) = 5%nat
  /\ Panel.searchSelectedResults (Panel.vars s2) = [0; 1; 3; 4]%nat
  /\ Panel.selectedCount (Panel.sdom s2) = "4".
Proof.
  cbv zeta. split; [reflexivity|].
  destruct (@select_all_then_untick (Panel.st world_five_results)
              (Panel.result_items
                 (Panel.resultsDiv (Panel.sdom (Panel.st world_five_results))))
              2 eq_refl eq_refl) as (_ & _ & S2 & C2).
  - simpl. lia.
  - split; [exact S2 | exact C2].
Defined.

Lemma set_checked_nth (i : nat) (c : bool) (nodes : list Panel.Node) (k : nat)
    (nd : Panel.Node) :
  nth_error nodes k = Some nd -> Panel.data_result_index nd = i ->
  exists nd', nth_error (Panel.set_checked i c nodes) k = Some nd'
              /\ Panel.checked nd' = c /\ Panel.data_result_index nd' = i.
Proof.
  revert k. induction nodes as [|a nodes IH]; intros k N E.
  - destruct k; discriminate N.
  - destruct k as [|k]; simpl in *.
    + inversion N; subst a. rewrite E, Nat.eqb_refl.
      eexists. split; [reflexivity|]. split; reflexivity.
    + apply IH; assumption.
Qed.

Lemma set_has_deleted (i : nat) (sel : JS.NatSet) :
  JS.set_has i (JS.set_delete i sel) = false.
Proof.
  unfold JS.set_has, JS.set_delete.
  induction sel as [|j sel IH]; simpl; [reflexivity|].
  destruct (Nat.eqb j i) eqn:B; simpl; [exact IH|].
  rewrite IH, orb_false_r. rewrite Nat.eqb_sym. exact B.
Qed.

(** X4.  Unticking a ticked result and ticking it again does not restore the
    selection as it was: the result's index moves to the end of the
    selection, which is the order in which the context is composed. *)
Theorem retick_moves_result_to_end (s : Panel.State) (nodes : list Panel.Node)
    (i : nat) (nd : Panel.Node) :
  Panel.resultsDiv (Panel.sdom s) = Panel.Items nodes ->
  well_indexed nodes ->
  nth_error nodes i = Some nd ->
  Panel.checked nd = true ->
  Panel.searchSelectedResults
    (Panel.vars (Panel.checkbox_change i (Panel.checkbox_change i s)))
  = (JS.set_delete i (Panel.searchSelectedResults (Panel.vars s)) ++ [i])%list.
Proof.
  intros R W N C.
  destruct (well_indexed_nth _ W N) as [E _].
  destruct (@set_checked_nth i false nodes i nd N E) as (nd1 & N1 & C1 & E1).
  assert (H1 : Panel.resultsDiv (Panel.sdom (Panel.checkbox_change i s))
               = Panel.Items (Panel.set_checked i false nodes)
               /\ Panel.searchSelectedResults (Panel.vars (Panel.checkbox_change i s))
                  = JS.set_delete i (Panel.searchSelectedResults (Panel.vars s))).
  { unfold Panel.checkbox_change. rewrite R. simpl. rewrite N, C, E. simpl.
    rewrite R. split; reflexivity. }
  destruct H1 as [R1 S1].
  set (s1 := Panel.checkbox_change i s) in *. clearbody s1.
  unfold Panel.checkbox_change. rewrite R1. simpl. rewrite N1, C1, E1. simpl.
  rewrite S1. apply set_add_new, set_has_deleted.
Qed.

Lemma retick_moves_result_to_end_witness :
  let s := Panel.select_all_click (Panel.st world_three_results) in
  Panel.searchSelectedResults (Panel.vars s) = [0; 1; 2]%nat
  /\ Panel.searchSelectedResults
       (Panel.vars (Panel.checkbox_change 0 (Panel.checkbox_change 0 s)))
     = [1; 2; 0]%nat.
Proof.
  cbv zeta. split; [reflexivity|].
  exact (@retick_moves_result_to_end
           (Panel.select_all_click (Panel.st world_three_results))
           (Panel.check_all true
              (Panel.result_items
                 (Panel.resultsDiv (Panel.sdom (Panel.st world_three_results)))))
           0 _ eq_refl eq_refl eq_refl eq_refl).
Defined.

(** ** What a search sends, and what it shows when the backend fails *)

(** X5.  A click on "Search" goes to the network exactly when the query,
    trimmed, is not empty and a database (or "All databases") is chosen.  A
    valid search sends one request before it suspends: the list of
    databases when all are searched, otherwise the search of the chosen
    database with the trimmed query, the limit (10 when the select gives no
    number) and the minimum score (0.3 likewise).  A search that is
    rejected sends nothing and changes nothing but the results area, where
    its message replaces what was displayed. *)
Theorem search_is_sent_iff_form_is_valid (s : Panel.State) :
  let query := JS.trim (Panel.queryInput_value (Panel.sdom s)) in
  let selectedDb := Panel.searchDb_value (Panel.sdom s) in
  let limit := JS.int_or (Panel.limitSelect_value (Panel.sdom s)) 10 in
  let minScore := JS.float_or (Panel.minScoreSelect_value (Panel.sdom s)) (3 # 10) in
  let s1 := fst (Panel.performPanelSearch_begin s) in
  if JS.truthy query && JS.truthy selectedDb then
    snd (Panel.performPanelSearch_begin s)
    = Some {| Panel.job_query := query; Panel.job_selectedDb := selectedDb;
              Panel.job_limit := limit; Panel.job_minScore := minScore |}
    /\ Panel.fetched s1
       = (if String.eqb selectedDb Panel.ALL then GET_databases
          else POST_search selectedDb query limit minScore) :: Panel.fetched s
    /\ Panel.resultsDiv (Panel.sdom s1) = Panel.Html "Searching..."
  else
    snd (Panel.performPanelSearch_begin s) = None
    /\ Panel.fetched s1 = Panel.fetched s
    /\ Panel.vars s1 = Panel.vars s
    /\ Panel.dom s1 = Panel.dom s
    /\ Panel.resultsDiv (Panel.sdom s1)
       = Panel.Html (if JS.truthy query then "Please select a database to search."
                     else "Enter a query to search.")
    /\ Panel.selectedCount (Panel.sdom s1) = Panel.selectedCount (Panel.sdom s).
Proof.
  cbv zeta. unfold Panel.performPanelSearch_begin.
  destruct (JS.truthy (JS.trim (Panel.queryInput_value (Panel.sdom s)))); simpl.
  - destruct (JS.truthy (Panel.searchDb_value (Panel.sdom s))); simpl.
    + repeat split.
    + repeat split.
  - repeat split.
Qed.

(** X6.  A search of all databases whose list of databases cannot be had.
    When [GET /databases] answers with an error status, the search goes on
    with no database: no search request is sent, and the panel shows "No
    results." under "Found 0 results ... across all databases".  When the
    request fails or its body cannot be read, the panel shows "Search
    failed. Please try again." and an empty summary. *)
Theorem all_scope_search_without_database_list (o : Oracle) (job : Panel.SearchJob)
    (s : Panel.State) :
  String.eqb (Panel.job_selectedDb job) Panel.ALL = true ->
  succeeded (list_databases o) = false ->
  let s' := fst (Panel.performPanelSearch_resume o job s) in
  Panel.fetched s' = Panel.fetched s
  /\ match list_databases o with
     | NotOk _ _ =>
         Panel.resultsDiv (Panel.sdom s') = Panel.Html "No results."
         /\ Panel.summaryDiv (Panel.sdom s')
            = Panel.summaryText 0 (Panel.job_minScore job) true
         /\ Panel.actions_shown (Panel.sdom s') = false
     | _ =>
         Panel.resultsDiv (Panel.sdom s') = Panel.Html "Search failed. Please try again."
         /\ Panel.summaryDiv (Panel.sdom s') = ""
     end.
Proof.
  intros HA HS. cbv zeta.
  unfold Panel.performPanelSearch_resume, JS.try_catch, JS.try_catch_finally,
    Panel.search_try, Panel.fetchAllResults, JS.bind.
  rewrite HA.
  destruct (list_databases o) as [m|[dbs|m]|st dt]; try discriminate HS; simpl.
  - repeat split.
  - repeat split.
  - assert (E : Panel.sortAndLimit (Panel.job_limit job) [] = []).
    { unfold Panel.sortAndLimit, JS.slice0. simpl.
      destruct (Panel.job_limit job <? 0)%Z; [reflexivity | apply firstn_nil]. }
    rewrite E. simpl. repeat split.
Qed.

Lemma all_scope_search_without_database_list_witness :
  let s1 := fst (Panel.performPanelSearch_resume backend_list_unavailable job_all_5
                   Panel.initial) in
  let s2 := fst (Panel.performPanelSearch_resume backend_unreachable job_all_5
                   Panel.initial) in
  Panel.resultsDiv (Panel.sdom s1) = Panel.Html "No results."
  /\ Panel.fetched s1 = []
  /\ Panel.resultsDiv (Panel.sdom s2) = Panel.Html "Search failed. Please try again.".
Proof.
  cbv zeta.
  destruct (@all_scope_search_without_database_list backend_list_unavailable
              job_all_5 Panel.initial eq_refl eq_refl) as (F1 & R1 & _).
  destruct (@all_scope_search_without_database_list backend_unreachable
              job_all_5 Panel.initial eq_refl eq_refl) as (_ & R2 & _).
  split; [exact R1|]. split; [exact F1 | exact R2].
Defined.

(** X7.  A search of one database that the backend answers with an error
    status.  The panel treats the answer as an empty result: it shows "No
    results." under "Found 0 results" and no error.  The popup with search
    reports the failure: "Search failed. Please try again." and an error
    notification. *)
Theorem error_status_on_single_database_search (o : Oracle) (status : nat)
    (detail : option (option string))
    (job : Panel.SearchJob) (s : Panel.State)
    (pjob : Popup.SearchJob) (p : Popup.State) :
  String.eqb (Panel.job_selectedDb job) Panel.ALL = false ->
  search_text o (Panel.job_selectedDb job) (Panel.job_query job)
    (Panel.job_limit job) (Panel.job_minScore job) = NotOk status detail ->
  Popup.job_searchAll pjob = false ->
  search_text o (Popup.job_dbName pjob) (Popup.job_query pjob)
    (Popup.job_limit pjob) Popup.MIN_SCORE = NotOk status detail ->
  let s' := fst (Panel.performPanelSearch_resume o job s) in
  let p' := fst (Popup.performSearch_resume o pjob p) in
  (Panel.resultsDiv (Panel.sdom s') = Panel.Html "No results."
   /\ Panel.summaryDiv (Panel.sdom s')
      = Panel.summaryText 0 (Panel.job_minScore job) false
   /\ Panel.notifications s' = Panel.notifications s)
  /\ (Popup.searchResults p' = Popup.Html "Search failed. Please try again."
      /\ Popup.notifications p' = ("Search failed", "error") :: Popup.notifications p).
Proof.
  intros HA HR HP HQ. cbv zeta. split.
  - unfold Panel.performPanelSearch_resume, JS.try_catch, JS.try_catch_finally,
      Panel.search_try, Panel.fetchAllResults, JS.bind.
    rewrite HA, HR. simpl.
    assert (E : Panel.sortAndLimit (Panel.job_limit job) [] = []).
    { unfold Panel.sortAndLimit, JS.slice0. simpl.
      destruct (Panel.job_limit job <? 0)%Z; [reflexivity | apply firstn_nil]. }
    rewrite E. simpl. repeat split.
  - unfold Popup.performSearch_resume, JS.try_catch_finally, Popup.fetchResults,
      JS.bind.
    rewrite HP, HQ. simpl. split; reflexivity.
Qed.

Lemma error_status_on_single_database_search_witness :
  Panel.resultsDiv
    (Panel.sdom (fst (Panel.performPanelSearch_resume backend_error_500 job_single_2
                        Panel.initial)))
  = Panel.Html "No results."
  /\ Popup.searchResults
       (fst (Popup.performSearch_resume backend_error_500 popup_job_single popup_start))
     = Popup.Html "Search failed. Please try again.".
Proof.
  destruct (@error_status_on_single_database_search backend_error_500 500
              (Some (Some "disk full")) job_single_2 Panel.initial
              popup_job_single popup_start eq_refl eq_refl eq_refl eq_refl)
    as ((R & _) & (P & _)).
  split; [exact R | exact P].
Defined.

(** X8.  When all databases are searched and there is at least one, every
    database is asked for at least 5 rows and for at least one row more than
    its share of the limit, so that the requests together ask for at least
    the limit plus one row per database: the per-database limit never keeps
    the merged result below the limit. *)
Theorem fanout_requests_cover_the_limit (limit : Z) (dbs : list Database) :
  dbs <> [] ->
  (5 <= Panel.perDb limit dbs)%Z
  /\ (limit + Z.of_nat (length dbs)
      <= Z.of_nat (length dbs) * Panel.perDb limit dbs)%Z.
Proof.
  intro H. unfold Panel.perDb.
  assert (N : (1 <= Z.of_nat (length dbs))%Z).
  { destruct dbs; [contradiction | simpl length; lia]. }
  rewrite (Z.max_r 1) by lia.
  destruct (@ceil_div_spec limit (Z.of_nat (length dbs))) as [U _]; [lia|].
  split; [lia | nia].
Qed.

Lemma fanout_requests_cover_the_limit_witness :
  Panel.perDb 5 three_dbs = 5%Z
  /\ (5 + Z.of_nat (length three_dbs)
      <= Z.of_nat (length three_dbs) * Panel.perDb 5 three_dbs)%Z.
Proof.
  split; [reflexivity|].
  apply (@fanout_requests_cover_the_limit 5 three_dbs). discriminate.
Defined.

(** ** Selecting text on the page *)

(** X9.  What a selection on the page does to a panel that exists, by the
    length of the selected text once trimmed.  More than 3 characters: the
    text becomes the selected text, the panel is open, the preview is shown
    and the save button is enabled exactly when a database is chosen.  No
    character: the selected text is cleared, its preview hidden and the save
    button disabled, while the panel stays open or closed as it was.  One
    to three characters: nothing changes at all. *)
Theorem text_selection_by_length (selection : string) (s : Panel.State) :
  Panel.sidePanel (Panel.vars s) = true ->
  let t := JS.trim selection in
  let s' := fst (Panel.handleTextSelection selection s) in
  if (3 <? JS.length t)%nat then
    Panel.selectedText (Panel.vars s') = t
    /\ Panel.isPanelOpen (Panel.vars s') = true
    /\ Panel.selectedTextDiv_shown (Panel.dom s') = true
    /\ Panel.saveBtn_disabled (Panel.dom s')
       = negb (JS.truthy (Panel.dbSelect_value (Panel.dom s)))
  else if String.eqb t "" then
    Panel.selectedText (Panel.vars s') = ""
    /\ Panel.isPanelOpen (Panel.vars s') = Panel.isPanelOpen (Panel.vars s)
    /\ Panel.selectedTextDiv_shown (Panel.dom s') = false
    /\ Panel.saveBtn_disabled (Panel.dom s') = true
  else s' = s.
Proof.
  intro HP. cbv zeta.
  unfold Panel.handleTextSelection.
  destruct s as [v d sd n ss tm f]. destruct v, d. simpl in HP. subst.
  destruct (JS.trim selection) as [|c r].
  - simpl. repeat split.
  - change (JS.truthy (String c r)) with true.
    change (String.eqb (String c r) "") with false.
    destruct (3 <? JS.length (String c r))%nat; [|reflexivity].
    unfold JS.bind, JS.exec, Panel.showSidePanel, Panel.createSidePanel,
      Panel.updatePanelWithSelectedText.
    destruct isPanelOpen; simpl; repeat split.
Qed.

Lemma text_selection_by_length_witness :
  Panel.isPanelOpen
    (Panel.vars (fst (Panel.handleTextSelection "  solar panels  " Panel.initial)))
  = true
  /\ Panel.selectedText
       (Panel.vars (fst (Panel.handleTextSelection "  solar panels  " Panel.initial)))
     = "solar panels"
  /\ fst (Panel.handleTextSelection " sun " Panel.initial) = Panel.initial
  /\ Panel.selectedText
       (Panel.vars (fst (Panel.handleTextSelection "   "
                           (Panel.st world_ready_to_save))))
     = "".
Proof.
  pose proof (@text_selection_by_length "  solar panels  " Panel.initial eq_refl) as A.
  pose proof (@text_selection_by_length " sun " Panel.initial eq_refl) as B.
  pose proof (@text_selection_by_length "   " (Panel.st world_ready_to_save) eq_refl)
    as C.
  cbv zeta in A, B, C.
  change (JS.trim "  solar panels  ") with "solar panels" in A.
  change (JS.trim " sun ") with "sun" in B.
  change (JS.trim "   ") with "" in C.
  cbn [JS.length JS.code_units Nat.ltb Nat.leb String.eqb] in A, B, C.
  destruct A as (A1 & A2 & _). destruct C as (C1 & _).
  split; [exact A2|]. split; [exact A1|]. split; [exact B | exact C1].
Defined.

(** ** Saving: after a failure, after a success *)



Lemma loadDatabasesForPanel_frame (o : Oracle) (s : Panel.State) :
  Panel.vars (Panel.loadDatabasesForPanel o s) = Panel.vars s
  /\ Panel.selectedTextDiv_shown (Panel.dom (Panel.loadDatabasesForPanel o s))
     = Panel.selectedTextDiv_shown (Panel.dom s)
  /\ Panel.saveBtn_disabled (Panel.dom (Panel.loadDatabasesForPanel o s))
     = Panel.saveBtn_disabled (Panel.dom s)
  /\ Panel.timeouts (Panel.loadDatabasesForPanel o s) = Panel.timeouts s
  /\ Panel.fetched (Panel.loadDatabasesForPanel o s) = GET_databases :: Panel.fetched s.
Proof.
  unfold Panel.loadDatabasesForPanel.
  destruct (list_databases o) as [m|[dbs|m]|st dt]; repeat split.
Qed.

Lemma clearSelectedText_effect (s : Panel.State) :
  Panel.sidePanel (Panel.vars s) = true ->
  Panel.selectedText (Panel.vars (Panel.clearSelectedText s)) = ""
  /\ Panel.sidePanel (Panel.vars (Panel.clearSelectedText s)) = true
  /\ Panel.selectedTextDiv_shown (Panel.dom (Panel.clearSelectedText s)) = false
  /\ Panel.saveBtn_disabled (Panel.dom (Panel.clearSelectedText s)) = true
  /\ Panel.timeouts (Panel.clearSelectedText s) = Panel.timeouts s
  /\ Panel.fetched (Panel.clearSelectedText s) = Panel.fetched s.
Proof.
  intro HP. destruct s as [v d sd n ss tm f]. destruct v, d.
  simpl in HP. subst. repeat split.
Qed.

Lemma save_success_effect (job : Panel.SaveJob) (s : Panel.State) :
  Panel.sidePanel (Panel.vars s) = true ->
  let s1 := fst (Panel.saveTextToDatabase_resume (Ok (inl tt)) job s) in
  Panel.vars s1 = Panel.vars s
  /\ Panel.timeouts s1
     = (Panel.timeouts s
        ++ [Panel.T_clearSelectedText; Panel.T_loadDatabasesForPanel])%list
  /\ Panel.notifications s1
     = ("Text saved successfully to " ++ String DQUOTE (Panel.save_databaseName job)
          ++ String DQUOTE " database!", "success") :: Panel.notifications s
  /\ Panel.fetched s1 = Panel.fetched s.
Proof.
  intro HP. cbv zeta. destruct s as [v d sd n ss tm f]. destruct v, d.
  simpl in HP. subst. repeat split.
Qed.

(** X11.  A save that succeeds keeps the selected text for the moment,
    reports the success in the panel and under the button, and sets two
    timers.  Once both have fired, in either order, the selected text is
    cleared, its preview hidden and the save button disabled, and the list
    of databases has been asked for once more. *)
Theorem saved_text_is_cleared_by_the_timers (w : Panel.World) (job : Panel.SaveJob)
    (o1 o2 : Oracle) (k : nat) :
  Panel.sidePanel (Panel.vars (Panel.st w)) = true ->
  Panel.saves w = [job] ->
  Panel.timeouts (Panel.st w) = [] ->
  (k <= 1)%nat ->
  let w1 := Panel.step (Panel.SaveSettles 0 (Ok (inl tt))) w in
  let w2 := Panel.run [Panel.TimeoutFires k o1; Panel.TimeoutFires 0 o2] w1 in
  (Panel.selectedText (Panel.vars (Panel.st w1))
   = Panel.selectedText (Panel.vars (Panel.st w))
   /\ Panel.timeouts (Panel.st w1)
      = [Panel.T_clearSelectedText; Panel.T_loadDatabasesForPanel]
   /\ Panel.notifications (Panel.st w1)
      = ("Text saved successfully to " ++ String DQUOTE (Panel.save_databaseName job)
           ++ String DQUOTE " database!", "success")
        :: Panel.notifications (Panel.st w))
  /\ (Panel.selectedText (Panel.vars (Panel.st w2)) = ""
      /\ Panel.selectedTextDiv_shown (Panel.dom (Panel.st w2)) = false
      /\ Panel.saveBtn_disabled (Panel.dom (Panel.st w2)) = true
      /\ Panel.timeouts (Panel.st w2) = []
      /\ Panel.saves w2 = []
      /\ Panel.fetched (Panel.st w2) = GET_databases :: Panel.fetched (Panel.st w)).
Proof.
  intros HP HS HT Hk. cbv zeta.
  destruct (@save_success_effect job (Panel.st w) HP) as (V1 & T1 & N1 & F1).
  rewrite HT in T1. cbn [app] in T1.
  assert (W1 : Panel.step (Panel.SaveSettles 0 (Ok (inl tt))) w
               = {| Panel.st := fst (Panel.saveTextToDatabase_resume (Ok (inl tt)) job
                                       (Panel.st w));
                    Panel.searches := Panel.searches w; Panel.saves := [] |}).
  { cbn [Panel.step]. rewrite HS. reflexivity. }
  rewrite W1. clear W1.
  set (s1 := fst (Panel.saveTextToDatabase_resume (Ok (inl tt)) job (Panel.st w))) in *.
  clearbody s1.
  assert (HP1 : Panel.sidePanel (Panel.vars s1) = true) by (rewrite V1; exact HP).
  split.
  { cbn [Panel.st]. rewrite V1. split; [reflexivity|]. split; [exact T1 | exact N1]. }
  assert (K : k = 0%nat \/ k = 1%nat) by lia.
  unfold Panel.run. cbn [fold_left].
  destruct K as [-> | ->].
  - (* the text is cleared first, the list reloaded second *)
    set (a := Panel.set_timeouts [Panel.T_loadDatabasesForPanel] s1).
    assert (E1 : Panel.step (Panel.TimeoutFires 0 o1)
                   {| Panel.st := s1; Panel.searches := Panel.searches w;
                      Panel.saves := [] |}
                 = {| Panel.st := Panel.clearSelectedText a;
                      Panel.searches := Panel.searches w; Panel.saves := [] |}).
    { cbn [Panel.step Panel.st]. rewrite T1. reflexivity. }
    rewrite E1. clear E1.
    destruct (@clearSelectedText_effect a HP1) as (C1 & C2 & C3 & C4 & C5 & C6).
    set (b := Panel.set_timeouts [] (Panel.clearSelectedText a)).
    assert (E2 : Panel.step (Panel.TimeoutFires 0 o2)
                   {| Panel.st := Panel.clearSelectedText a;
                      Panel.searches := Panel.searches w; Panel.saves := [] |}
                 = {| Panel.st := Panel.loadDatabasesForPanel o2 b;
                      Panel.searches := Panel.searches w; Panel.saves := [] |}).
    { cbn [Panel.step Panel.st]. rewrite C5. reflexivity. }
    rewrite E2. clear E2. cbn [Panel.st Panel.saves].
    destruct (loadDatabasesForPanel_frame o2 b) as (L1 & L2 & L3 & L4 & L5).
    rewrite L1, L2, L3, L4, L5.
    change (Panel.vars b) with (Panel.vars (Panel.clearSelectedText a)).
    change (Panel.dom b) with (Panel.dom (Panel.clearSelectedText a)).
    change (Panel.fetched b) with (Panel.fetched (Panel.clearSelectedText a)).
    rewrite C1, C3, C4, C6.
    change (Panel.fetched a) with (Panel.fetched s1). rewrite F1.
    repeat split.
  - (* the list is reloaded first, the text cleared second *)
    set (a := Panel.set_timeouts [Panel.T_clearSelectedText] s1).
    assert (E1 : Panel.step (Panel.TimeoutFires 1 o1)
                   {| Panel.st := s1; Panel.searches := Panel.searches w;
                      Panel.saves := [] |}
                 = {| Panel.st := Panel.loadDatabasesForPanel o1 a;
                      Panel.searches := Panel.searches w; Panel.saves := [] |}).
    { cbn [Panel.step Panel.st]. rewrite T1. reflexivity. }
    rewrite E1. clear E1.
    destruct (loadDatabasesForPanel_frame o1 a) as (L1 & L2 & L3 & L4 & L5).
    set (b := Panel.set_timeouts [] (Panel.loadDatabasesForPanel o1 a)).
    assert (E2 : Panel.step (Panel.TimeoutFires 0 o2)
                   {| Panel.st := Panel.loadDatabasesForPanel o1 a;
                      Panel.searches := Panel.searches w; Panel.saves := [] |}
                 = {| Panel.st := Panel.clearSelectedText b;
                      Panel.searches := Panel.searches w; Panel.saves := [] |}).
    { cbn [Panel.step Panel.st]. rewrite L4. reflexivity. }
    rewrite E2. clear E2. cbn [Panel.st Panel.saves].
    assert (HPb : Panel.sidePanel (Panel.vars b) = true).
    { change (Panel.vars b) with (Panel.vars (Panel.loadDatabasesForPanel o1 a)).
      rewrite L1. exact HP1. }
    destruct (@clearSelectedText_effect b HPb) as (C1 & C2 & C3 & C4 & C5 & C6).
    rewrite C1, C3, C4, C5, C6.
    change (Panel.fetched b) with (Panel.fetched (Panel.loadDatabasesForPanel o1 a)).
    rewrite L5.
    change (Panel.fetched a) with (Panel.fetched s1). rewrite F1.
    repeat split.
Qed.

Lemma saved_text_is_cleared_by_the_timers_witness :
  let w := Panel.step Panel.SaveClick world_ready_to_save in
  let w1 := Panel.step (Panel.SaveSettles 0 (Ok (inl tt))) w in
  let w2 := Panel.run [Panel.TimeoutFires 1 backend_B_down;
                       Panel.TimeoutFires 0 backend_B_down] w1 in
  Panel.saves w = [{| Panel.save_databaseName := "notes" |}]
  /\ Panel.selectedText (Panel.vars (Panel.st w2)) = ""
  /\ Panel.saveBtn_disabled (Panel.dom (Panel.st w2)) = true.
Proof.
  cbv zeta. split; [reflexivity|].
  destruct (@saved_text_is_cleared_by_the_timers
              (Panel.step Panel.SaveClick world_ready_to_save)
              {| Panel.save_databaseName := "notes" |}
              backend_B_down backend_B_down 1 eq_refl eq_refl eq_refl)
    as (_ & T & _ & B & _).
  - lia.
  - split; [exact T | exact B].
Defined.


(** ** Minimising *)

(** X13.  Minimising is a toggle of its own: clicking the button twice gives
    the state back exactly, and one click changes neither whether the panel
    is open, nor whether it is busy, nor the selection, the results or the
    requests. *)
Theorem minimize_is_an_involution (s : Panel.State) :
  Panel.togglePanelMinimized (Panel.togglePanelMinimized s) = s
  /\ Panel.vars (Panel.togglePanelMinimized s) = Panel.vars s
  /\ Panel.sdom (Panel.togglePanelMinimized s) = Panel.sdom s
  /\ Panel.closed (Panel.togglePanelMinimized s) = Panel.closed s
  /\ Panel.busy (Panel.togglePanelMinimized s) = Panel.busy s
  /\ Panel.fetched (Panel.togglePanelMinimized s) = Panel.fetched s
  /\ Panel.class_panel_minimized (Panel.dom (Panel.togglePanelMinimized s))
     = (if Panel.sidePanel (Panel.vars s)
        then negb (Panel.class_panel_minimized (Panel.dom s))
        else Panel.class_panel_minimized (Panel.dom s)).
Proof.
  destruct s as [v d sd n ss tm f]. destruct v, d.
  unfold Panel.togglePanelMinimized, Panel.closed, Panel.busy.
  destruct sidePanel, class_panel_minimized; repeat split; reflexivity.
Qed.

(** ** Loading the content script *)

(** X14.  The content script builds its panel before the persisted settings
    have been read: [loadSettings] suspends at its first [await], and
    [createSidePanel] runs with the variables as they are declared.
    Whatever is stored, and whatever [loadSettings] later reads, the page
    ends up with a panel, showing the add tab, with the selects of the search
    tab at 10 results and 30%, and with "add" written over the stored tab;
    one request for the list of databases has been sent.  The variables
    then take the stored values, so that the variable for the active tab
    may say "search" while the add tab is displayed; and a stored
    [enableContextMenu = false] does not keep a text selection from opening
    the panel. *)
Theorem panel_is_built_before_settings_are_read
    (stored result : PanelControls.Sync) (selection : string) :
  let s := PanelControls.page_loaded stored result in
  let p := PanelControls.panel s in
  (Panel.sidePanel (Panel.vars p) = true
   /\ PanelControls.addContent_display s = "block"
   /\ PanelControls.searchContent_display s = "none"
   /\ Panel.limitSelect_value (Panel.sdom p) = Some 10%Z
   /\ Panel.minScoreSelect_value (Panel.sdom p) = Some (3 # 10)
   /\ PanelControls.sync_activePanelTab (PanelControls.sync s) = Some Panel.TabAdd
   /\ Panel.fetched p = [GET_databases])
  /\ (Panel.activePanelTab (Panel.vars p)
      = match PanelControls.sync_activePanelTab result with
        | Some t => t
        | None => Panel.TabAdd
        end
      /\ Panel.enableContextMenu (Panel.vars p)
         = match PanelControls.sync_enableContextMenu result with
           | Some false => false
           | _ => true
           end
      /\ Panel.selectedDatabase (Panel.vars p)
         = PanelControls.sync_selectedDatabase result
      /\ PanelControls.searchLimit s
         = match PanelControls.sync_searchLimit result with
           | Some z => z
           | None => 10%Z
           end)
  /\ (if (3 <? JS.length (JS.trim selection))%nat
      then Panel.isPanelOpen
             (Panel.vars (fst (Panel.handleTextSelection selection p))) = true
      else Panel.isPanelOpen
             (Panel.vars (fst (Panel.handleTextSelection selection p))) = false).
Proof.
  cbv zeta. split; [|split].
  - repeat split.
  - repeat split.
  - unfold Panel.handleTextSelection.
    destruct (JS.trim selection) as [|c r]; [reflexivity|].
    change (JS.truthy (String c r)) with true.
    destruct (3 <? JS.length (String c r))%nat; reflexivity.
Qed.

Example page_load_with_stored_search_tab :
  let s := PanelControls.page_loaded stored_search_tab stored_search_tab in
  Panel.activePanelTab (Panel.vars (PanelControls.panel s)) = Panel.TabSearch
  /\ PanelControls.addContent_display s = "block"
  /\ PanelControls.sync_activePanelTab (PanelControls.sync s) = Some Panel.TabAdd
  /\ PanelControls.searchLimit s = 20%Z
  /\ Panel.limitSelect_value (Panel.sdom (PanelControls.panel s)) = Some 10%Z
  /\ Panel.enableContextMenu (Panel.vars (PanelControls.panel s)) = false
  /\ Panel.sidePanel (Panel.vars (PanelControls.panel s)) = true.
Proof. cbv zeta. repeat split. Qed.

(** ** The dropdown of the search tab *)

(** X15.  Reloading the dropdown of the search tab does not keep the user's
    choice: afterwards the dropdown holds the stored default database, or
    nothing, so that a choice other than the stored default is lost.  When the list cannot
    be loaded the dropdown holds nothing, and a search is then rejected
    before any request.  While the user is typing in the query input, the
    reload does nothing and sends nothing. *)
Theorem reload_resets_the_search_scope (option_value : string -> string)
    (o o' : Oracle) (s : Panel.State) :
  let s' := PanelControls.loadDatabasesForSearch option_value false o s in
  Panel.fetched s' = GET_databases :: Panel.fetched s
  /\ (Panel.searchDb_value (Panel.sdom s') = ""
      \/ Panel.selectedDatabase (Panel.vars s)
         = Some (Panel.searchDb_value (Panel.sdom s')))
  /\ (if succeeded (list_databases o) then
        Panel.queryInput_value (Panel.sdom s') = Panel.queryInput_value (Panel.sdom s)
      else
        Panel.searchDb_value (Panel.sdom s') = ""
        /\ Panel.fetched (Panel.performPanelSearch o' s') = Panel.fetched s'
        /\ Panel.searches (Panel.step Panel.SearchClick
                             {| Panel.st := s'; Panel.searches := [];
                                Panel.saves := [] |}) = [])
  /\ PanelControls.loadDatabasesForSearch option_value true o s = s.
Proof.
  cbv zeta.
  unfold PanelControls.loadDatabasesForSearch,
    PanelControls.loadDatabasesForSearch_begin,
    PanelControls.loadDatabasesForSearch_resume.
  split; [|split; [|split; [|reflexivity]]].
  - destruct (list_databases o) as [m|[dbs|m]|st dt]; reflexivity.
  - destruct (list_databases o) as [m|[dbs|m]|st dt]; simpl; auto.
    destruct (Panel.selectedDatabase (Panel.vars s)) as [d|]; simpl; auto.
    destruct (JS.truthy d); simpl; auto.
    destruct (String.eqb d "" || (String.eqb d Panel.ALL
              || existsb (String.eqb d)
                   (map (fun db => option_value (name db)) dbs))) eqn:B;
      simpl in *; rewrite ?B; simpl; auto.
  - assert (R : forall s0 : Panel.State,
              Panel.searchDb_value (Panel.sdom s0) = "" ->
              Panel.fetched (Panel.performPanelSearch o' s0) = Panel.fetched s0
              /\ Panel.searches (Panel.step Panel.SearchClick
                                   {| Panel.st := s0; Panel.searches := [];
                                      Panel.saves := [] |}) = []).
    { intros s0 E. unfold Panel.performPanelSearch. simpl.
      unfold Panel.performPanelSearch_begin. rewrite E.
      destruct (negb (JS.truthy (JS.trim (Panel.queryInput_value (Panel.sdom s0)))));
        simpl; split; reflexivity. }
    destruct (list_databases o) as [m|[dbs|m]|st dt]; simpl;
      try reflexivity; (split; [reflexivity | apply R; reflexivity]).
Qed.

(** X16.  The message by which the popup asks for a reload reaches only a
    panel that is open: a closed panel does nothing and sends nothing.  In
    an open panel both dropdowns are reloaded (the one of the search tab
    unless the user is typing in the query input), after which the
    dropdown of the add tab holds the stored default database or nothing,
    whatever the user had chosen; the save button is not recomputed. *)
Theorem refresh_message_reloads_an_open_panel (option_value : string -> string)
    (typing : bool) (o1 o2 : Oracle) (s : Panel.State) :
  let s' := PanelControls.onMessage_refreshDatabases option_value typing o1 o2 s in
  if Panel.isPanelOpen (Panel.vars s) && Panel.sidePanel (Panel.vars s) then
    Panel.fetched s'
    = ((if typing then [GET_databases] else [GET_databases; GET_databases])
       ++ Panel.fetched s)%list
    /\ (Panel.dbSelect_value (Panel.dom s') = ""
        \/ Panel.selectedDatabase (Panel.vars s)
           = Some (Panel.dbSelect_value (Panel.dom s')))
    /\ Panel.saveBtn_disabled (Panel.dom s') = Panel.saveBtn_disabled (Panel.dom s)
    /\ Panel.vars s' = Panel.vars s
  else s' = s.
Proof.
  cbv zeta. unfold PanelControls.onMessage_refreshDatabases.
  destruct (Panel.isPanelOpen (Panel.vars s) && Panel.sidePanel (Panel.vars s));
    [|reflexivity].
  unfold PanelControls.loadDatabasesForSearch,
    PanelControls.loadDatabasesForSearch_begin,
    PanelControls.loadDatabasesForSearch_resume, Panel.loadDatabasesForPanel.
  destruct typing; simpl.
  - destruct (list_databases o1) as [m|[dbs|m]|st dt]; simpl;
      (split; [reflexivity|]); (split; [|split; reflexivity]); auto.
    destruct (Panel.selectedDatabase (Panel.vars s)) as [d|]; auto.
    destruct (JS.truthy d && JS.some (fun db => String.eqb (name db) d) dbs); auto.
  - destruct (list_databases o1) as [m|[dbs|m]|st dt];
      destruct (list_databases o2) as [m2|[dbs2|m2]|st2 dt2]; simpl;
      (split; [reflexivity|]); (split; [|split; reflexivity]); auto;
      destruct (Panel.selectedDatabase (Panel.vars s)) as [d|]; auto;
      destruct (JS.truthy d && JS.some (fun db => String.eqb (name db) d) dbs); auto.
Qed.

(** ** The popup with search *)

(** X17.  The popup's search button cannot stay disabled: a search that
    passes validation disables it and relabels it "Searching...", and
    whatever the backend answers, the search ends with the button enabled
    and labelled "Search"; a search that is rejected leaves the button as
    it was. *)
Theorem popup_search_button_is_restored (o : Oracle) (s : Popup.State) :
  match snd (Popup.performSearch_begin s) with
  | Some job =>
      Popup.searchBtn_disabled (fst (Popup.performSearch_begin s)) = true
      /\ Popup.searchBtn_textContent (fst (Popup.performSearch_begin s)) = "Searching..."
      /\ Popup.searchBtn_disabled (Popup.performSearch o s) = false
      /\ Popup.searchBtn_textContent (Popup.performSearch o s) = "Search"
  | None =>
      Popup.searchBtn_disabled (Popup.performSearch o s) = Popup.searchBtn_disabled s
      /\ Popup.searchBtn_textContent (Popup.performSearch o s)
         = Popup.searchBtn_textContent s
  end
  /\ forall (job : Popup.SearchJob) (s0 : Popup.State),
       Popup.searchBtn_disabled (fst (Popup.performSearch_resume o job s0)) = false
       /\ Popup.searchBtn_textContent (fst (Popup.performSearch_resume o job s0))
          = "Search".
Proof.
  assert (R : forall (job : Popup.SearchJob) (s0 : Popup.State),
            Popup.searchBtn_disabled (fst (Popup.performSearch_resume o job s0)) = false
            /\ Popup.searchBtn_textContent (fst (Popup.performSearch_resume o job s0))
               = "Search").
  { intros job s0. unfold Popup.performSearch_resume.
    apply (try_catch_finally_cleanup
             (fun x => Popup.searchBtn_disabled x = false
                       /\ Popup.searchBtn_textContent x = "Search")).
    intro x. split; reflexivity. }
  split; [|exact R].
  unfold Popup.performSearch.
  destruct (Popup.performSearch_begin s) as [s1 [job|]] eqn:B; simpl.
  - unfold Popup.performSearch_begin in B.
    destruct (negb (JS.truthy (JS.trim (Popup.searchQueryInput_value s))));
      [discriminate B|].
    destruct (negb (Popup.searchAllDbs_checked s)
              && negb (JS.truthy (Popup.searchDbSelect_value s)));
      [discriminate B|].
    inversion B; subst; clear B.
    split; [reflexivity|]. split; [reflexivity|]. apply R.
  - unfold Popup.performSearch_begin in B.
    destruct (negb (JS.truthy (JS.trim (Popup.searchQueryInput_value s))));
      [inversion B; split; reflexivity|].
    destruct (negb (Popup.searchAllDbs_checked s)
              && negb (JS.truthy (Popup.searchDbSelect_value s)));
      [inversion B; split; reflexivity | discriminate B].
Qed.

Lemma popup_resume_fetched (o : Oracle) (job : Popup.SearchJob) (s : Popup.State) :
  Popup.fetched (fst (Popup.performSearch_resume o job s)) = Popup.fetched s.
Proof.
  unfold Popup.performSearch_resume.
  apply (try_catch_finally_frame (fun a b => Popup.fetched b = Popup.fetched a)).
  - intros a b c A B. congruence.
  - intro a. unfold JS.bind, Popup.fetchResults.
    destruct (Popup.job_searchAll job); simpl.
    + destruct (JS.slice0 _ _); reflexivity.
    + destruct (search_text o (Popup.job_dbName job) (Popup.job_query job)
                  (Popup.job_limit job) Popup.MIN_SCORE) as [m|[rows|m]|st dt];
        simpl; try reflexivity.
      destruct rows; reflexivity.
  - intros e a. reflexivity.
  - intro a. reflexivity.
Qed.

(** X18.  When the popup searches all databases it does not ask the backend
    for the list: it sends one search per database of the list it has in
    memory, in that order, each for the trimmed query with the same limit
    and the minimum score 0.3.  With no database in memory it sends
    nothing and reports that nothing was found. *)
Theorem popup_search_all_uses_the_cached_list (o : Oracle) (s : Popup.State) :
  Popup.searchAllDbs_checked s = true ->
  JS.truthy (JS.trim (Popup.searchQueryInput_value s)) = true ->
  let query := JS.trim (Popup.searchQueryInput_value s) in
  let limit := JS.int_or (Popup.searchLimitSelect_value s) 10 in
  Popup.fetched (Popup.performSearch o s)
  = (rev (map (fun db =>
                 POST_search (name db) query
                   (Popup.perDbLimit limit (Popup.databases s)) Popup.MIN_SCORE)
              (Popup.databases s))
     ++ Popup.fetched s)%list
  /\ (Popup.databases s = [] ->
      Popup.fetched (Popup.performSearch o s) = Popup.fetched s
      /\ Popup.searchResults (Popup.performSearch o s)
         = Popup.Html "No results found (showing only results with 30%+ similarity)."
      /\ Popup.notifications (Popup.performSearch o s) = Popup.notifications s).
Proof.
  intros HA HQ. cbv zeta.
  assert (B : Popup.performSearch_begin s
              = (Popup.log_fetch
                   (map (fun db =>
                           POST_search (name db) (JS.trim (Popup.searchQueryInput_value s))
                             (Popup.perDbLimit
                                (JS.int_or (Popup.searchLimitSelect_value s) 10)
                                (Popup.databases s)) Popup.MIN_SCORE)
                        (Popup.databases s))
                   (Popup.set_searchResults (Popup.Html "Searching...")
                      (Popup.set_searchBtn true "Searching..." s)),
                 Some {| Popup.job_query := JS.trim (Popup.searchQueryInput_value s);
                         Popup.job_searchAll := true;
                         Popup.job_dbName := Popup.searchDbSelect_value s;
                         Popup.job_limit
                         := JS.int_or (Popup.searchLimitSelect_value s) 10;
                         Popup.job_databases := Popup.databases s |})).
  { unfold Popup.performSearch_begin. rewrite HQ, HA. reflexivity. }
  unfold Popup.performSearch. rewrite B. clear B.
  split.
  - rewrite popup_resume_fetched. reflexivity.
  - intro E. rewrite popup_resume_fetched. rewrite E.
    split; [reflexivity|].
    unfold Popup.performSearch_resume, JS.try_catch_finally, JS.bind,
      Popup.fetchResults.
    cbn [Popup.job_searchAll Popup.job_databases map JS.flat concat JS.sort
         fold_right Popup.job_limit].
    assert (Z : JS.slice0 (JS.int_or (Popup.searchLimitSelect_value s) 10)
                  (@nil SearchResult) = []).
    { unfold JS.slice0. destruct (_ <? 0)%Z; [reflexivity | apply firstn_nil]. }
    unfold JS.ret. rewrite Z. split; reflexivity.
Qed.

Lemma popup_search_all_uses_the_cached_list_witness :
  let s := Popup.set_searchForm " solar panels " true (Some 5%Z) popup_start in
  let s0 := Popup.set_databases [] s in
  Popup.fetched (Popup.performSearch backend_B_down s)
  = [POST_search "C" "solar panels" 4 (3 # 10);
     POST_search "B" "solar panels" 4 (3 # 10);
     POST_search "A" "solar panels" 4 (3 # 10)]
  /\ Popup.fetched (Popup.performSearch backend_B_down s0) = []
  /\ Popup.searchResults (Popup.performSearch backend_B_down s0)
     = Popup.Html "No results found (showing only results with 30%+ similarity).".
Proof.
  cbv zeta.
  destruct (@popup_search_all_uses_the_cached_list backend_B_down
              (Popup.set_searchForm " solar panels " true (Some 5%Z) popup_start)
              eq_refl eq_refl) as (F & _).
  destruct (@popup_search_all_uses_the_cached_list backend_B_down
              (Popup.set_databases []
                 (Popup.set_searchForm " solar panels " true (Some 5%Z) popup_start))
              eq_refl eq_refl) as (_ & E).
  destruct (E eq_refl) as (F0 & R0 & _).
  split; [exact F|]. split; [exact F0 | exact R0].
Defined.

(** ** Creating and deleting databases: the failures *)

(** X19.  A creation that the backend refuses, or that does not reach it,
    changes nothing but the notification: the request is the only one sent
    (the list is not reloaded), the list in memory, the list on display and
    the name in the input are as they were, the user is told "Error
    creating database", and the button is enabled and labelled "Create
    Database" again.  The popup that only manages databases behaves alike
    and sends no message to the panel. *)
Theorem failed_create_changes_nothing (o : Oracle) (tab : bool) (raw : string)
    (s : Popup.State) (t : PopupV2.State) :
  JS.truthy (JS.trim raw) = true ->
  ok (create_database o (JS.trim raw)) = false ->
  JS.some (fun d => String.eqb (name d) (JS.trim raw)) (Popup.databases s) = false ->
  JS.some (fun d => String.eqb (name d) (JS.trim raw)) (PopupV2.databases t) = false ->
  let s' := Popup.createDatabase o (Popup.set_newDbNameInput raw s) in
  let t' := PopupV2.createDatabase o tab (PopupV2.set_newDbNameInput raw t) in
  (Popup.fetched s' = POST_databases (JS.trim raw) :: Popup.fetched s
   /\ Popup.databases s' = Popup.databases s
   /\ Popup.databaseList s' = Popup.databaseList s
   /\ Popup.newDbNameInput_value s' = raw
   /\ Popup.notifications s'
      = ("Error creating database", "error") :: Popup.notifications s
   /\ Popup.createDbBtn_disabled s' = false
   /\ Popup.createDbBtn_textContent s' = "Create Database")
  /\ (PopupV2.fetched t' = POST_databases (JS.trim raw) :: PopupV2.fetched t
      /\ PopupV2.databases t' = PopupV2.databases t
      /\ PopupV2.databaseList t' = PopupV2.databaseList t
      /\ PopupV2.newDbNameInput_value t' = raw
      /\ PopupV2.notifications t'
         = ("Error creating database", "error") :: PopupV2.notifications t
      /\ PopupV2.tab_messages t' = PopupV2.tab_messages t
      /\ PopupV2.createDbBtn_disabled t' = false
      /\ PopupV2.createDbBtn_textContent t' = "Create Database").
Proof.
  intros HT HO HS HS2. cbv zeta. split.
  - unfold Popup.createDatabase. simpl. rewrite HT, HS. simpl.
    unfold JS.try_catch_finally, Popup.create_try, JS.bind, JS.exec. simpl.
    destruct (create_database o (JS.trim raw)) as [m|j|st dt];
      try discriminate HO; simpl; repeat split.
  - unfold PopupV2.createDatabase. simpl. rewrite HT, HS2. simpl.
    unfold JS.try_catch_finally, PopupV2.create_try, JS.bind, JS.exec. simpl.
    destruct (create_database o (JS.trim raw)) as [m|j|st dt];
      try discriminate HO; simpl; repeat split.
Qed.

Lemma failed_create_changes_nothing_witness :
  let s' := Popup.createDatabase backend_error_500
              (Popup.set_newDbNameInput " X " popup_start) in
  let t' := PopupV2.createDatabase backend_unreachable true
              (PopupV2.set_newDbNameInput " X " popupV2_start) in
  Popup.fetched s' = [POST_databases "X"]
  /\ Popup.databases s' = three_dbs
  /\ Popup.createDbBtn_disabled s' = false
  /\ PopupV2.fetched t' = [POST_databases "X"]
  /\ PopupV2.tab_messages t' = [].
Proof.
  cbv zeta.
  destruct (@failed_create_changes_nothing backend_error_500 true " X "
              popup_start popupV2_start eq_refl eq_refl eq_refl eq_refl)
    as ((F & D & _ & _ & _ & B & _) & _).
  destruct (@failed_create_changes_nothing backend_unreachable true " X "
              popup_start popupV2_start eq_refl eq_refl eq_refl eq_refl)
    as (_ & (F2 & _ & _ & _ & _ & M & _)).
  split; [exact F|]. split; [exact D|]. split; [exact B|].
  split; [exact F2 | exact M].
Defined.

(** X20.  A deletion that is not confirmed does nothing at all.  A
    confirmed deletion that the backend refuses, or that does not reach it,
    sends that one request and tells the user "Error deleting database":
    the lists in memory and on display stay, the list is not reloaded, and
    the popup that only manages databases sends no message to the panel.
    When the deletion succeeds, that popup reloads the list and then asks
    the panel of the active tab, if there is one, to reload its dropdowns. *)
Theorem delete_outcomes (confirmed : bool) (o : Oracle) (tab : bool)
    (dbName : string) (s : Popup.State) (t : PopupV2.State) :
  let s' := Popup.deleteDatabase confirmed o dbName s in
  let t' := PopupV2.deleteDatabase confirmed o tab dbName t in
  if negb confirmed then s' = s /\ t' = t
  else if ok (delete_database o dbName) then
    PopupV2.fetched t' = GET_databases :: DELETE_databases dbName :: PopupV2.fetched t
    /\ PopupV2.notifications t'
       = ("Database deleted successfully", "success") :: PopupV2.notifications t
    /\ PopupV2.tab_messages t'
       = (if tab then "refreshDatabases" :: PopupV2.tab_messages t
          else PopupV2.tab_messages t)
    /\ PopupV2.databases t'
       = match list_databases o with
         | Ok (inl dbs) => dbs
         | _ => PopupV2.databases t
         end
  else
    (Popup.fetched s' = DELETE_databases dbName :: Popup.fetched s
     /\ Popup.notifications s'
        = ("Error deleting database", "error") :: Popup.notifications s
     /\ Popup.databases s' = Popup.databases s
     /\ Popup.databaseList s' = Popup.databaseList s
     /\ Popup.searchDbSelect_value s' = Popup.searchDbSelect_value s)
    /\ (PopupV2.fetched t' = DELETE_databases dbName :: PopupV2.fetched t
        /\ PopupV2.notifications t'
           = ("Error deleting database", "error") :: PopupV2.notifications t
        /\ PopupV2.databases t' = PopupV2.databases t
        /\ PopupV2.databaseList t' = PopupV2.databaseList t
        /\ PopupV2.tab_messages t' = PopupV2.tab_messages t).
Proof.
  cbv zeta. destruct confirmed; simpl; [|split; reflexivity].
  unfold Popup.deleteDatabase, PopupV2.deleteDatabase, JS.try_catch,
    JS.try_catch_finally, Popup.delete_try, PopupV2.delete_try, JS.bind,
    JS.exec, JS.ret. simpl.
  destruct (delete_database o dbName) as [m|j|st dt]; simpl;
    try (repeat split; fail).
  unfold PopupV2.loadDatabases.
  destruct (list_databases o) as [m|[dbs|m]|st dt]; destruct tab; simpl;
    repeat split.
Qed.

(** ** The default database in the popup *)

Lemma popup_search_keeps_default (o : Oracle) (s : Popup.State) :
  Popup.selectedDatabase (Popup.performSearch o s) = Popup.selectedDatabase s
  /\ Popup.storage_selectedDatabase (Popup.performSearch o s)
     = Popup.storage_selectedDatabase s.
Proof.
  unfold Popup.performSearch, Popup.performSearch_begin.
  destruct (negb (JS.truthy (JS.trim (Popup.searchQueryInput_value s))));
    [split; reflexivity|].
  destruct (negb (Popup.searchAllDbs_checked s)
            && negb (JS.truthy (Popup.searchDbSelect_value s)));
    [split; reflexivity|].
  match goal with
  | |- context [Popup.performSearch_resume o ?j ?x] =>
      change (Popup.selectedDatabase s) with (Popup.selectedDatabase x);
      change (Popup.storage_selectedDatabase s)
        with (Popup.storage_selectedDatabase x);
      generalize x; generalize j
  end.
  intros job x. unfold Popup.performSearch_resume.
  apply (try_catch_finally_frame
           (fun a b => Popup.selectedDatabase b = Popup.selectedDatabase a
                       /\ Popup.storage_selectedDatabase b
                          = Popup.storage_selectedDatabase a)).
  - intros a b c [A B] [C D]. split; congruence.
  - intro a. unfold JS.bind, Popup.fetchResults.
    destruct (Popup.job_searchAll job); simpl.
    + destruct (JS.slice0 _ _); split; reflexivity.
    + destruct (search_text o (Popup.job_dbName job) (Popup.job_query job)
                  (Popup.job_limit job) Popup.MIN_SCORE) as [m|[rows|m]|st dt];
        simpl; try (split; reflexivity).
      destruct rows; split; reflexivity.
  - intros e a. split; reflexivity.
  - intro a. split; reflexivity.
Qed.

Lemma popup_step_in_sync (op : PopupOp) (s : Popup.State) :
  default_in_sync s -> default_in_sync (popup_step op s).
Proof.
  unfold default_in_sync. intro H. destruct op; simpl.
  - reflexivity.
  - apply (popup_selection_stays_in_sync o "" false (Popup.set_newDbNameInput raw s)).
    exact H.
  - apply (popup_selection_stays_in_sync o dbName confirmed s). exact H.
  - destruct (popup_loadDatabases_selection o s) as (M & P & _).
    rewrite M, P. exact H.
  - destruct (popup_search_keeps_default o (Popup.set_searchForm query all lim s))
      as [M P].
    rewrite M, P. exact H.
  - unfold Popup.toggleResultSelection.
    destruct (find _ _); [simpl|]; exact H.
  - exact H.
  - exact H.
Qed.

(** X21.  In the popup with search, the default database held in memory is
    the persisted one throughout a session: when the two agree (as they do
    once the settings are loaded), they agree after every sequence of
    choosing a default, creating, deleting with or without confirmation,
    reloading the list, searching and selecting results, whatever the
    backend answers. *)
Theorem default_database_stays_in_sync (ops : list PopupOp) (s : Popup.State) :
  default_in_sync s -> default_in_sync (popup_run ops s).
Proof.
  revert s. induction ops as [|op ops IH]; intros s H; simpl.
  - exact H.
  - apply IH, popup_step_in_sync, H.
Qed.

Lemma default_database_stays_in_sync_witness :
  default_in_sync popup_start
  /\ default_in_sync (popup_run popup_session popup_start)
  /\ Popup.storage_selectedDatabase (popup_run popup_session popup_start) = Some "A".
Proof.
  assert (H : default_in_sync popup_start) by reflexivity.
  split; [exact H|]. split.
  - apply (default_database_stays_in_sync popup_session H).
  - reflexivity.
Defined.

(** X22.  A reload of the list that fails empties the list on display but
    keeps the list in memory, in both popups; so a name that was known
    before the failure is still refused as "Database already exists",
    without a request. *)
Theorem failed_reload_keeps_the_cache (o o' : Oracle) (tab : bool) (raw : string)
    (s : Popup.State) (t : PopupV2.State) :
  succeeded (list_databases o) = false ->
  JS.truthy (JS.trim raw) = true ->
  In (JS.trim raw) (map name (Popup.databases s)) ->
  In (JS.trim raw) (map name (PopupV2.databases t)) ->
  let s1 := Popup.loadDatabases o s in
  let t1 := PopupV2.loadDatabases o t in
  (Popup.databaseList s1 = [] /\ Popup.databases s1 = Popup.databases s
   /\ Popup.searchDbSelect_value s1 = Popup.searchDbSelect_value s
   /\ Popup.createDatabase o' (Popup.set_newDbNameInput raw s1)
      = Popup.showNotification "Database already exists" "error"
          (Popup.set_newDbNameInput raw s1))
  /\ (PopupV2.databaseList t1 = [] /\ PopupV2.databases t1 = PopupV2.databases t
      /\ PopupV2.createDatabase o' tab (PopupV2.set_newDbNameInput raw t1)
         = PopupV2.showNotification "Database already exists" "error"
             (PopupV2.set_newDbNameInput raw t1)).
Proof.
  intros HS HT HI HJ. cbv zeta.
  assert (A : Popup.databaseList (Popup.loadDatabases o s) = []
              /\ Popup.databases (Popup.loadDatabases o s) = Popup.databases s
              /\ Popup.searchDbSelect_value (Popup.loadDatabases o s)
                 = Popup.searchDbSelect_value s).
  { unfold Popup.loadDatabases.
    destruct (list_databases o) as [m|[dbs|m]|st dt]; try discriminate HS;
      repeat split. }
  assert (B : PopupV2.databaseList (PopupV2.loadDatabases o t) = []
              /\ PopupV2.databases (PopupV2.loadDatabases o t) = PopupV2.databases t).
  { unfold PopupV2.loadDatabases.
    destruct (list_databases o) as [m|[dbs|m]|st dt]; try discriminate HS;
      repeat split. }
  destruct A as (A1 & A2 & A3). destruct B as (B1 & B2).
  split.
  - split; [exact A1|]. split; [exact A2|]. split; [exact A3|].
    apply popup_create_known_name; simpl; [exact HT | rewrite A2; exact HI].
  - split; [exact B1|]. split; [exact B2|].
    apply popupV2_create_known_name; simpl; [exact HT | rewrite B2; exact HJ].
Qed.

Lemma failed_reload_keeps_the_cache_witness :
  let s1 := Popup.loadDatabases backend_unreachable popup_start in
  let s2 := Popup.createDatabase backend_B_down (Popup.set_newDbNameInput " A " s1) in
  Popup.databaseList s1 = []
  /\ Popup.databases s1 = three_dbs
  /\ Popup.fetched s2 = [GET_databases]
  /\ Popup.notifications s2 = [("Database already exists", "error")].
Proof.
  cbv zeta.
  destruct (@failed_reload_keeps_the_cache backend_unreachable backend_B_down true
              " A " popup_start popupV2_start eq_refl eq_refl
              (or_introl eq_refl) (or_introl eq_refl))
    as ((L & D & _ & C) & _).
  split; [exact L|]. split; [exact D|].
  rewrite C. split; reflexivity.
Defined.

(** ** The context menu *)

(** X23.  What "Add to Context DB" does.  Without a selection, or with one
    that is blank, nothing happens.  With no default database, nothing is
    sent and no notification is shown: the popup is opened and the trimmed
    text, the tab's address and its title are left as pending data.  With a
    default database, nothing is left pending and the popup is not opened:
    one request adds the trimmed text to that database and the notification
    tells whether it succeeded; when the tab's address cannot be parsed,
    the error is notified without any request. *)
Theorem context_menu_add_outcomes (selectionText : option string)
    (tab : Background.TabInfo) (o : Oracle) (s : Background.State) :
  let s' := Background.handleAddToContextDB selectionText tab o s in
  match selectionText with
  | None => s' = s
  | Some raw =>
      let text := JS.trim raw in
      if negb (JS.truthy text) then s' = s
      else if JS.truthy (default_database s) then
        Background.local s' = Background.local s
        /\ Background.popups_opened s' = Background.popups_opened s
        /\ match Background.tab_hostname tab with
           | Some _ =>
               Background.fetched s'
               = POST_add_text (default_database s) text :: Background.fetched s
               /\ Background.notifications s'
                  = (if succeeded (add_text o (default_database s) text)
                     then (Background.SUCCESS_MESSAGE, "success")
                     else (Background.ERROR_MESSAGE, "error"))
                    :: Background.notifications s
           | None =>
               Background.fetched s' = Background.fetched s
               /\ Background.notifications s'
                  = (Background.ERROR_MESSAGE, "error") :: Background.notifications s
           end
      else
        Background.fetched s' = Background.fetched s
        /\ Background.notifications s' = Background.notifications s
        /\ Background.popups_opened s' = S (Background.popups_opened s)
        /\ Background.local s'
           = {| Background.pendingText := Some text;
                Background.pendingUrl := Some (Background.tab_url tab);
                Background.pendingTitle := Some (Background.tab_title tab);
                Background.searchQuery
                := Background.searchQuery (Background.local s) |}
  end.
Proof.
  cbv zeta. destruct selectionText as [raw|]; [|reflexivity].
  unfold Background.handleAddToContextDB, default_database.
  destruct (negb (JS.truthy (JS.trim raw))); [reflexivity|].
  destruct (Background.sync_selectedDatabase s) as [d|]; simpl;
    [|repeat split].
  destruct (JS.truthy d); simpl; [|repeat split].
  unfold JS.try_catch, JS.try_catch_finally, JS.bind, JS.exec, JS.throw,
    Background.addTextToDatabase.
  destruct (Background.tab_hostname tab) as [h|]; simpl; [|repeat split].
  destruct (add_text o d (JS.trim raw)) as [m|[u|m]|st dt]; simpl; repeat split.
Qed.

(** X24.  Data left for the popup is handed over once.  After "Search in
    Context DB" on a selection that is not blank, the popup has been opened
    and the first [getPendingData] message is answered with the trimmed
    selection as search query, together with whatever else was pending; a
    second message is answered with nothing.  A blank selection leaves
    nothing and opens nothing. *)
Theorem pending_data_is_handed_over_once (selectionText : option string)
    (o : Oracle) (s : Background.State) :
  let s1 := Background.handleSearchInContextDB selectionText s in
  let r1 := Background.onMessage Background.GetPendingData o s1 in
  let r2 := Background.onMessage Background.GetPendingData o (fst r1) in
  snd r2 = Background.PendingData Background.no_pending
  /\ Background.fetched (fst r2) = Background.fetched s
  /\ match selectionText with
     | None => s1 = s
     | Some raw =>
         if negb (JS.truthy (JS.trim raw)) then s1 = s
         else
           Background.popups_opened s1 = S (Background.popups_opened s)
           /\ snd r1
              = Background.PendingData
                  {| Background.pendingText
                     := Background.pendingText (Background.local s);
                     Background.pendingUrl
                     := Background.pendingUrl (Background.local s);
                     Background.pendingTitle
                     := Background.pendingTitle (Background.local s);
                     Background.searchQuery := Some (JS.trim raw) |}
     end.
Proof.
  cbv zeta. split; [reflexivity|]. split.
  - unfold Background.handleSearchInContextDB.
    destruct selectionText as [raw|]; [|reflexivity].
    destruct (negb (JS.truthy (JS.trim raw))); reflexivity.
  - destruct selectionText as [raw|]; [|reflexivity].
    unfold Background.handleSearchInContextDB.
    destruct (negb (JS.truthy (JS.trim raw))); [reflexivity|].
    split; reflexivity.
Qed.

(** X25.  A search started from the context menu reaches the popup with
    search: when the popup opens and asks for the pending data, its query
    input receives the trimmed selection, and it sends nothing by itself.
    A search is scheduled exactly when the popup has a default database,
    which is then put into the dropdown (the dropdown reads nothing when
    that database is not listed). *)
Theorem context_menu_search_fills_the_popup (raw : string) (o : Oracle)
    (b : Background.State) (p : Popup.State) :
  JS.truthy (JS.trim raw) = true ->
  let b1 := Background.handleSearchInContextDB (Some raw) b in
  let r := Background.onMessage Background.GetPendingData o b1 in
  let p1 := PopupInit.usePendingData (PopupInit.response_of (snd r)) p in
  Popup.searchQueryInput_value (fst p1) = JS.trim raw
  /\ Popup.fetched (fst p1) = Popup.fetched p
  /\ Background.local (fst r) = Background.no_pending
  /\ match Popup.selectedDatabase p with
     | Some d =>
         if JS.truthy d then
           snd p1 = true
           /\ Popup.searchDbSelect_value (fst p1)
              = (if JS.some (fun db => String.eqb (name db) d) (Popup.databases p)
                 then d else "")
         else snd p1 = false
              /\ Popup.searchDbSelect_value (fst p1) = Popup.searchDbSelect_value p
     | None =>
         snd p1 = false
         /\ Popup.searchDbSelect_value (fst p1) = Popup.searchDbSelect_value p
     end.
Proof.
  intro HT. cbv zeta.
  unfold Background.handleSearchInContextDB. rewrite HT. simpl.
  unfold PopupInit.usePendingData. simpl. rewrite HT. simpl.
  destruct (Popup.selectedDatabase p) as [d|]; simpl; [|repeat split].
  destruct (JS.truthy d); simpl; repeat split.
Qed.

Lemma context_menu_search_fills_the_popup_witness :
  let b1 := Background.handleSearchInContextDB (Some " solar panels ")
              background_start in
  let r := Background.onMessage Background.GetPendingData backend_B_down b1 in
  let p1 := PopupInit.usePendingData (PopupInit.response_of (snd r)) popup_start in
  Popup.searchQueryInput_value (fst p1) = "solar panels"
  /\ snd p1 = true
  /\ Popup.searchDbSelect_value (fst p1) = "C".
Proof.
  cbv zeta.
  destruct (@context_menu_search_fills_the_popup " solar panels " backend_B_down
              background_start popup_start eq_refl) as (Q & _ & _ & S & D).
  split; [exact Q|]. split; [exact S | exact D].
Defined.

(** X26.  Text added from the context menu while no default database is set
    is left as pending text and the popup is opened; the popup with search
    asks for the pending data, which empties it, and uses only its search
    query: the popup is unchanged, no request to add the text is sent by
    either side, and the pending text is gone. *)
Theorem pending_text_is_not_saved (raw : string) (tab : Background.TabInfo)
    (o : Oracle) (b : Background.State) (p : Popup.State) :
  JS.truthy (JS.trim raw) = true ->
  JS.truthy (default_database b) = false ->
  Background.searchQuery (Background.local b) = None ->
  let b1 := Background.handleAddToContextDB (Some raw) tab o b in
  let r := Background.onMessage Background.GetPendingData o b1 in
  let p1 := PopupInit.usePendingData (PopupInit.response_of (snd r)) p in
  Background.pendingText (Background.local b1) = Some (JS.trim raw)
  /\ Background.popups_opened b1 = S (Background.popups_opened b)
  /\ p1 = (p, false)
  /\ Background.local (fst r) = Background.no_pending
  /\ Background.fetched (fst r) = Background.fetched b.
Proof.
  intros HT HD HQ. cbv zeta.
  unfold Background.handleAddToContextDB, default_database in *.
  rewrite HT. simpl.
  destruct (Background.sync_selectedDatabase b) as [d|]; simpl in *.
  - rewrite HD. simpl. unfold PopupInit.usePendingData. simpl. rewrite HQ.
    repeat split.
  - unfold PopupInit.usePendingData. simpl. rewrite HQ. repeat split.
Qed.

Lemma pending_text_is_not_saved_witness :
  let b1 := Background.handleAddToContextDB (Some " solar panels ") tab_article
              backend_B_down background_start in
  let r := Background.onMessage Background.GetPendingData backend_B_down b1 in
  Background.pendingText (Background.local b1) = Some "solar panels"
  /\ PopupInit.usePendingData (PopupInit.response_of (snd r)) popup_start
     = (popup_start, false)
  /\ Background.local (fst r) = Background.no_pending.
Proof.
  cbv zeta.
  destruct (@pending_text_is_not_saved " solar panels " tab_article backend_B_down
              background_start popup_start eq_refl eq_refl eq_refl)
    as (T & _ & P & L & _).
  split; [exact T|]. split; [exact P | exact L].
Defined.

(** X27.  The context menu follows the setting.  [createContextMenus]
    leaves exactly the two items when the setting is anything but [false]
    and none when it is [false], whatever items existed before, so that
    running it again changes nothing.  On a fresh install the defaults are
    stored first: both items exist and no default database is set, so that
    the first "Add to Context DB" sends nothing and opens the popup. *)
Theorem context_menu_follows_the_setting (s : Background.State) (raw : string)
    (tab : Background.TabInfo) (o : Oracle) :
  Background.menus (Background.createContextMenus s)
  = match Background.sync_enableContextMenu s with
    | Some false => []
    | _ => [Background.CONTEXT_MENU_ID; Background.SEARCH_MENU_ID]
    end
  /\ Background.createContextMenus (Background.createContextMenus s)
     = Background.createContextMenus s
  /\ Background.menus (fst (Background.onMessage Background.DisableContextMenu o s))
     = []
  /\ (let s1 := Background.onInstalled true s in
      let s2 := Background.handleAddToContextDB (Some raw) tab o s1 in
      Background.menus s1 = [Background.CONTEXT_MENU_ID; Background.SEARCH_MENU_ID]
      /\ Background.sync_selectedDatabase s1 = None
      /\ Background.fetched s2 = Background.fetched s
      /\ Background.popups_opened s2
         = (if JS.truthy (JS.trim raw) then S (Background.popups_opened s)
            else Background.popups_opened s)).
Proof.
  split; [|split; [|split; [reflexivity|]]].
  - unfold Background.createContextMenus. simpl.
    destruct (Background.sync_enableContextMenu s) as [[|]|]; reflexivity.
  - destruct s as [u e d l m n p f].
    unfold Background.createContextMenus. simpl.
    destruct e as [[|]|]; reflexivity.
  - cbv zeta. destruct s as [u e d l m n p f].
    unfold Background.handleAddToContextDB, Background.onInstalled,
      Background.createContextMenus, Background.setDefaultSettings. simpl.
    destruct (JS.truthy (JS.trim raw)); simpl; repeat split.
Qed.

(** ** The earlier content script *)


